(** * Health metrics and calorie extraction of the nutrition backend

    A shallow embedding of the two pure functions of [app.py],
    [calculate_profile_data] and [extract_total_calories], and of what
    [get_profile] and [update_profile] compute themselves, together with
    the fragment of the Python run time they rest on: [str] values as
    sequences of Unicode code points, [float] as IEEE 754 binary64,
    unbounded [int], exceptions, [dict] look-ups, and the byte code the
    [re] module compiles the calorie pattern to. *)

From Stdlib Require Import ZArith NArith QArith Qabs Lqa List Bool Ascii String Lia.
From Stdlib Require Import Floats.SpecFloat.
From stdpp Require Import gmap.

Local Open Scope Z_scope.
Local Open Scope N_scope.

(** ** Text

    A Python [str] is a sequence of code points.  Literals of the source
    file are UTF-8; [str] decodes one into its code points, so that the
    string constants below are written as they stand in [app.py]. *)

Abbreviation text := (list N).

Fixpoint utf8_decode (bs : list N) : text :=
  match bs with
  | [] => []
  | b0 :: r0 =>
    if b0 <? 128 then b0 :: utf8_decode r0
    else
      match r0 with
      | [] => [b0]
      | b1 :: r1 =>
        if b0 <? 224 then ((b0 - 192) * 64 + (b1 - 128)) :: utf8_decode r1
        else
          match r1 with
          | [] => [b0; b1]
          | b2 :: r2 =>
            if b0 <? 240
            then ((b0 - 224) * 4096 + (b1 - 128) * 64 + (b2 - 128)) :: utf8_decode r2
            else
              match r2 with
              | [] => [b0; b1; b2]
              | b3 :: r3 =>
                ((b0 - 240) * 262144 + (b1 - 128) * 4096 + (b2 - 128) * 64 + (b3 - 128))
                  :: utf8_decode r3
              end
          end
      end
  end.

Definition str (s : string) : text :=
  utf8_decode (map N_of_ascii (list_ascii_of_string s)).

Definition text_eqb (a b : text) : bool := bool_decide (a = b).

(** ** The Unicode character database

    The tables are those of the Unicode 14.0 database CPython 3.11 is
    built with.  [lowercase_runs] lists the simple lower-case mapping as
    runs [(first, last, step, image of first)]; code points outside every
    run are their own lower case. *)

Definition lowercase_runs : list (N * N * N * N) :=
[
  (65, 90, 1, 97); (192, 214, 1, 224); (216, 222, 1, 248); (256, 302, 2, 257);
  (304, 304, 1, 105); (306, 310, 2, 307); (313, 327, 2, 314); (330, 374, 2, 331);
  (376, 376, 1, 255); (377, 381, 2, 378); (385, 385, 1, 595); (386, 388, 2, 387);
  (390, 390, 1, 596); (391, 391, 1, 392); (393, 394, 1, 598); (395, 395, 1, 396);
  (398, 398, 1, 477); (399, 399, 1, 601); (400, 400, 1, 603); (401, 401, 1, 402);
  (403, 403, 1, 608); (404, 404, 1, 611); (406, 406, 1, 617); (407, 407, 1, 616);
  (408, 408, 1, 409); (412, 412, 1, 623); (413, 413, 1, 626); (415, 415, 1, 629);
  (416, 420, 2, 417); (422, 422, 1, 640); (423, 423, 1, 424); (425, 425, 1, 643);
  (428, 428, 1, 429); (430, 430, 1, 648); (431, 431, 1, 432); (433, 434, 1, 650);
  (435, 437, 2, 436); (439, 439, 1, 658); (440, 440, 1, 441); (444, 444, 1, 445);
  (452, 452, 1, 454); (453, 453, 1, 454); (455, 455, 1, 457); (456, 456, 1, 457);
  (458, 458, 1, 460); (459, 475, 2, 460); (478, 494, 2, 479); (497, 497, 1, 499);
  (498, 500, 2, 499); (502, 502, 1, 405); (503, 503, 1, 447); (504, 542, 2, 505);
  (544, 544, 1, 414); (546, 562, 2, 547); (570, 570, 1, 11365); (571, 571, 1, 572);
  (573, 573, 1, 410); (574, 574, 1, 11366); (577, 577, 1, 578); (579, 579, 1, 384);
  (580, 580, 1, 649); (581, 581, 1, 652); (582, 590, 2, 583); (880, 882, 2, 881);
  (886, 886, 1, 887); (895, 895, 1, 1011); (902, 902, 1, 940); (904, 906, 1, 941);
  (908, 908, 1, 972); (910, 911, 1, 973); (913, 929, 1, 945); (931, 939, 1, 963);
  (975, 975, 1, 983); (984, 1006, 2, 985); (1012, 1012, 1, 952); (1015, 1015, 1, 1016);
  (1017, 1017, 1, 1010); (1018, 1018, 1, 1019); (1021, 1023, 1, 891); (1024, 1039, 1, 1104);
  (1040, 1071, 1, 1072); (1120, 1152, 2, 1121); (1162, 1214, 2, 1163); (1216, 1216, 1, 1231);
  (1217, 1229, 2, 1218); (1232, 1326, 2, 1233); (1329, 1366, 1, 1377); (4256, 4293, 1, 11520);
  (4295, 4295, 1, 11559); (4301, 4301, 1, 11565); (5024, 5103, 1, 43888); (5104, 5109, 1, 5112);
  (7312, 7354, 1, 4304); (7357, 7359, 1, 4349); (7680, 7828, 2, 7681); (7838, 7838, 1, 223);
  (7840, 7934, 2, 7841); (7944, 7951, 1, 7936); (7960, 7965, 1, 7952); (7976, 7983, 1, 7968);
  (7992, 7999, 1, 7984); (8008, 8013, 1, 8000); (8025, 8031, 2, 8017); (8040, 8047, 1, 8032);
  (8072, 8079, 1, 8064); (8088, 8095, 1, 8080); (8104, 8111, 1, 8096); (8120, 8121, 1, 8112);
  (8122, 8123, 1, 8048); (8124, 8124, 1, 8115); (8136, 8139, 1, 8050); (8140, 8140, 1, 8131);
  (8152, 8153, 1, 8144); (8154, 8155, 1, 8054); (8168, 8169, 1, 8160); (8170, 8171, 1, 8058);
  (8172, 8172, 1, 8165); (8184, 8185, 1, 8056); (8186, 8187, 1, 8060); (8188, 8188, 1, 8179);
  (8486, 8486, 1, 969); (8490, 8490, 1, 107); (8491, 8491, 1, 229); (8498, 8498, 1, 8526);
  (8544, 8559, 1, 8560); (8579, 8579, 1, 8580); (9398, 9423, 1, 9424); (11264, 11311, 1, 11312);
  (11360, 11360, 1, 11361); (11362, 11362, 1, 619); (11363, 11363, 1, 7549); (11364, 11364, 1, 637);
  (11367, 11371, 2, 11368); (11373, 11373, 1, 593); (11374, 11374, 1, 625); (11375, 11375, 1, 592);
  (11376, 11376, 1, 594); (11378, 11378, 1, 11379); (11381, 11381, 1, 11382); (11390, 11391, 1, 575);
  (11392, 11490, 2, 11393); (11499, 11501, 2, 11500); (11506, 11506, 1, 11507); (42560, 42604, 2, 42561);
  (42624, 42650, 2, 42625); (42786, 42798, 2, 42787); (42802, 42862, 2, 42803); (42873, 42875, 2, 42874);
  (42877, 42877, 1, 7545); (42878, 42886, 2, 42879); (42891, 42891, 1, 42892); (42893, 42893, 1, 613);
  (42896, 42898, 2, 42897); (42902, 42920, 2, 42903); (42922, 42922, 1, 614); (42923, 42923, 1, 604);
  (42924, 42924, 1, 609); (42925, 42925, 1, 620); (42926, 42926, 1, 618); (42928, 42928, 1, 670);
  (42929, 42929, 1, 647); (42930, 42930, 1, 669); (42931, 42931, 1, 43859); (42932, 42946, 2, 42933);
  (42948, 42948, 1, 42900); (42949, 42949, 1, 642); (42950, 42950, 1, 7566); (42951, 42953, 2, 42952);
  (42960, 42960, 1, 42961); (42966, 42968, 2, 42967); (42997, 42997, 1, 42998); (65313, 65338, 1, 65345);
  (66560, 66599, 1, 66600); (66736, 66771, 1, 66776); (66928, 66938, 1, 66967); (66940, 66954, 1, 66979);
  (66956, 66962, 1, 66995); (66964, 66965, 1, 67003); (68736, 68786, 1, 68800); (71840, 71871, 1, 71872);
  (93760, 93791, 1, 93792); (125184, 125217, 1, 125218)
]%N.

(** The code points of decimal value zero; each is followed by the other
    nine digits of its script in order. *)

Definition decimal_zeros : list N :=
[
  48; 1632; 1776; 1984; 2406; 2534; 2662; 2790; 2918; 3046;
  3174; 3302; 3430; 3558; 3664; 3792; 3872; 4160; 4240; 6112;
  6160; 6470; 6608; 6784; 6800; 6992; 7088; 7232; 7248; 42528;
  43216; 43264; 43472; 43504; 43600; 44016; 65296; 66720; 68912; 69734;
  69872; 69942; 70096; 70384; 70736; 70864; 71248; 71360; 71472; 71904;
  72016; 72784; 73040; 73120; 92768; 92864; 93008; 120782; 120792; 120802;
  120812; 120822; 123200; 123632; 125264; 130032
]%N.

(** White space: what [str.isspace] and the pattern class [\s] accept. *)

Definition whitespace_ranges : list (N * N) :=
[
  (9, 13); (28, 32); (133, 133); (160, 160); (5760, 5760); (8192, 8202);
  (8232, 8233); (8239, 8239); (8287, 8287); (12288, 12288)
]%N.

(** The properties [Cased] and [Case_Ignorable], which [str.lower] consults
    to place a final sigma. *)

Definition cased_ranges : list (N * N) :=
[
  (65, 90); (97, 122); (170, 170); (181, 181); (186, 186); (192, 214);
  (216, 246); (248, 442); (444, 447); (452, 659); (661, 696); (704, 705);
  (736, 740); (837, 837); (880, 883); (886, 887); (890, 893); (895, 895);
  (902, 902); (904, 906); (908, 908); (910, 929); (931, 1013); (1015, 1153);
  (1162, 1327); (1329, 1366); (1376, 1416); (4256, 4293); (4295, 4295); (4301, 4301);
  (4304, 4346); (4349, 4351); (5024, 5109); (5112, 5117); (7296, 7304); (7312, 7354);
  (7357, 7359); (7424, 7615); (7680, 7957); (7960, 7965); (7968, 8005); (8008, 8013);
  (8016, 8023); (8025, 8025); (8027, 8027); (8029, 8029); (8031, 8061); (8064, 8116);
  (8118, 8124); (8126, 8126); (8130, 8132); (8134, 8140); (8144, 8147); (8150, 8155);
  (8160, 8172); (8178, 8180); (8182, 8188); (8305, 8305); (8319, 8319); (8336, 8348);
  (8450, 8450); (8455, 8455); (8458, 8467); (8469, 8469); (8473, 8477); (8484, 8484);
  (8486, 8486); (8488, 8488); (8490, 8493); (8495, 8500); (8505, 8505); (8508, 8511);
  (8517, 8521); (8526, 8526); (8544, 8575); (8579, 8580); (9398, 9449); (11264, 11492);
  (11499, 11502); (11506, 11507); (11520, 11557); (11559, 11559); (11565, 11565); (42560, 42605);
  (42624, 42653); (42786, 42887); (42891, 42894); (42896, 42954); (42960, 42961); (42963, 42963);
  (42965, 42969); (42997, 42998); (43000, 43002); (43824, 43866); (43868, 43880); (43888, 43967);
  (64256, 64262); (64275, 64279); (65313, 65338); (65345, 65370); (66560, 66639); (66736, 66771);
  (66776, 66811); (66928, 66938); (66940, 66954); (66956, 66962); (66964, 66965); (66967, 66977);
  (66979, 66993); (66995, 67001); (67003, 67004); (67456, 67456); (67459, 67461); (67463, 67504);
  (67506, 67514); (68736, 68786); (68800, 68850); (71840, 71903); (93760, 93823); (119808, 119892);
  (119894, 119964); (119966, 119967); (119970, 119970); (119973, 119974); (119977, 119980); (119982, 119993);
  (119995, 119995); (119997, 120003); (120005, 120069); (120071, 120074); (120077, 120084); (120086, 120092);
  (120094, 120121); (120123, 120126); (120128, 120132); (120134, 120134); (120138, 120144); (120146, 120485);
  (120488, 120512); (120514, 120538); (120540, 120570); (120572, 120596); (120598, 120628); (120630, 120654);
  (120656, 120686); (120688, 120712); (120714, 120744); (120746, 120770); (120772, 120779); (122624, 122633);
  (122635, 122654); (125184, 125251); (127280, 127305); (127312, 127337); (127344, 127369)
]%N.

Definition case_ignorable_ranges : list (N * N) :=
[
  (39, 39); (46, 46); (58, 58); (94, 94); (96, 96); (168, 168);
  (173, 173); (175, 175); (180, 180); (183, 184); (688, 879); (884, 885);
  (890, 890); (900, 901); (903, 903); (1155, 1161); (1369, 1369); (1375, 1375);
  (1425, 1469); (1471, 1471); (1473, 1474); (1476, 1477); (1479, 1479); (1524, 1524);
  (1536, 1541); (1552, 1562); (1564, 1564); (1600, 1600); (1611, 1631); (1648, 1648);
  (1750, 1757); (1759, 1768); (1770, 1773); (1807, 1807); (1809, 1809); (1840, 1866);
  (1958, 1968); (2027, 2037); (2042, 2042); (2045, 2045); (2070, 2093); (2137, 2139);
  (2184, 2184); (2192, 2193); (2200, 2207); (2249, 2306); (2362, 2362); (2364, 2364);
  (2369, 2376); (2381, 2381); (2385, 2391); (2402, 2403); (2417, 2417); (2433, 2433);
  (2492, 2492); (2497, 2500); (2509, 2509); (2530, 2531); (2558, 2558); (2561, 2562);
  (2620, 2620); (2625, 2626); (2631, 2632); (2635, 2637); (2641, 2641); (2672, 2673);
  (2677, 2677); (2689, 2690); (2748, 2748); (2753, 2757); (2759, 2760); (2765, 2765);
  (2786, 2787); (2810, 2815); (2817, 2817); (2876, 2876); (2879, 2879); (2881, 2884);
  (2893, 2893); (2901, 2902); (2914, 2915); (2946, 2946); (3008, 3008); (3021, 3021);
  (3072, 3072); (3076, 3076); (3132, 3132); (3134, 3136); (3142, 3144); (3146, 3149);
  (3157, 3158); (3170, 3171); (3201, 3201); (3260, 3260); (3263, 3263); (3270, 3270);
  (3276, 3277); (3298, 3299); (3328, 3329); (3387, 3388); (3393, 3396); (3405, 3405);
  (3426, 3427); (3457, 3457); (3530, 3530); (3538, 3540); (3542, 3542); (3633, 3633);
  (3636, 3642); (3654, 3662); (3761, 3761); (3764, 3772); (3782, 3782); (3784, 3789);
  (3864, 3865); (3893, 3893); (3895, 3895); (3897, 3897); (3953, 3966); (3968, 3972);
  (3974, 3975); (3981, 3991); (3993, 4028); (4038, 4038); (4141, 4144); (4146, 4151);
  (4153, 4154); (4157, 4158); (4184, 4185); (4190, 4192); (4209, 4212); (4226, 4226);
  (4229, 4230); (4237, 4237); (4253, 4253); (4348, 4348); (4957, 4959); (5906, 5908);
  (5938, 5939); (5970, 5971); (6002, 6003); (6068, 6069); (6071, 6077); (6086, 6086);
  (6089, 6099); (6103, 6103); (6109, 6109); (6155, 6159); (6211, 6211); (6277, 6278);
  (6313, 6313); (6432, 6434); (6439, 6440); (6450, 6450); (6457, 6459); (6679, 6680);
  (6683, 6683); (6742, 6742); (6744, 6750); (6752, 6752); (6754, 6754); (6757, 6764);
  (6771, 6780); (6783, 6783); (6823, 6823); (6832, 6862); (6912, 6915); (6964, 6964);
  (6966, 6970); (6972, 6972); (6978, 6978); (7019, 7027); (7040, 7041); (7074, 7077);
  (7080, 7081); (7083, 7085); (7142, 7142); (7144, 7145); (7149, 7149); (7151, 7153);
  (7212, 7219); (7222, 7223); (7288, 7293); (7376, 7378); (7380, 7392); (7394, 7400);
  (7405, 7405); (7412, 7412); (7416, 7417); (7468, 7530); (7544, 7544); (7579, 7679);
  (8125, 8125); (8127, 8129); (8141, 8143); (8157, 8159); (8173, 8175); (8189, 8190);
  (8203, 8207); (8216, 8217); (8228, 8228); (8231, 8231); (8234, 8238); (8288, 8292);
  (8294, 8303); (8305, 8305); (8319, 8319); (8336, 8348); (8400, 8432); (11388, 11389);
  (11503, 11505); (11631, 11631); (11647, 11647); (11744, 11775); (11823, 11823); (12293, 12293);
  (12330, 12333); (12337, 12341); (12347, 12347); (12441, 12446); (12540, 12542); (40981, 40981);
  (42232, 42237); (42508, 42508); (42607, 42610); (42612, 42621); (42623, 42623); (42652, 42655);
  (42736, 42737); (42752, 42785); (42864, 42864); (42888, 42890); (42994, 42996); (43000, 43001);
  (43010, 43010); (43014, 43014); (43019, 43019); (43045, 43046); (43052, 43052); (43204, 43205);
  (43232, 43249); (43263, 43263); (43302, 43309); (43335, 43345); (43392, 43394); (43443, 43443);
  (43446, 43449); (43452, 43453); (43471, 43471); (43493, 43494); (43561, 43566); (43569, 43570);
  (43573, 43574); (43587, 43587); (43596, 43596); (43632, 43632); (43644, 43644); (43696, 43696);
  (43698, 43700); (43703, 43704); (43710, 43711); (43713, 43713); (43741, 43741); (43756, 43757);
  (43763, 43764); (43766, 43766); (43867, 43871); (43881, 43883); (44005, 44005); (44008, 44008);
  (44013, 44013); (64286, 64286); (64434, 64450); (65024, 65039); (65043, 65043); (65056, 65071);
  (65106, 65106); (65109, 65109); (65279, 65279); (65287, 65287); (65294, 65294); (65306, 65306);
  (65342, 65342); (65344, 65344); (65392, 65392); (65438, 65439); (65507, 65507); (65529, 65531);
  (66045, 66045); (66272, 66272); (66422, 66426); (67456, 67461); (67463, 67504); (67506, 67514);
  (68097, 68099); (68101, 68102); (68108, 68111); (68152, 68154); (68159, 68159); (68325, 68326);
  (68900, 68903); (69291, 69292); (69446, 69456); (69506, 69509); (69633, 69633); (69688, 69702);
  (69744, 69744); (69747, 69748); (69759, 69761); (69811, 69814); (69817, 69818); (69821, 69821);
  (69826, 69826); (69837, 69837); (69888, 69890); (69927, 69931); (69933, 69940); (70003, 70003);
  (70016, 70017); (70070, 70078); (70089, 70092); (70095, 70095); (70191, 70193); (70196, 70196);
  (70198, 70199); (70206, 70206); (70367, 70367); (70371, 70378); (70400, 70401); (70459, 70460);
  (70464, 70464); (70502, 70508); (70512, 70516); (70712, 70719); (70722, 70724); (70726, 70726);
  (70750, 70750); (70835, 70840); (70842, 70842); (70847, 70848); (70850, 70851); (71090, 71093);
  (71100, 71101); (71103, 71104); (71132, 71133); (71219, 71226); (71229, 71229); (71231, 71232);
  (71339, 71339); (71341, 71341); (71344, 71349); (71351, 71351); (71453, 71455); (71458, 71461);
  (71463, 71467); (71727, 71735); (71737, 71738); (71995, 71996); (71998, 71998); (72003, 72003);
  (72148, 72151); (72154, 72155); (72160, 72160); (72193, 72202); (72243, 72248); (72251, 72254);
  (72263, 72263); (72273, 72278); (72281, 72283); (72330, 72342); (72344, 72345); (72752, 72758);
  (72760, 72765); (72767, 72767); (72850, 72871); (72874, 72880); (72882, 72883); (72885, 72886);
  (73009, 73014); (73018, 73018); (73020, 73021); (73023, 73029); (73031, 73031); (73104, 73105);
  (73109, 73109); (73111, 73111); (73459, 73460); (78896, 78904); (92912, 92916); (92976, 92982);
  (92992, 92995); (94031, 94031); (94095, 94111); (94176, 94177); (94179, 94180); (110576, 110579);
  (110581, 110587); (110589, 110590); (113821, 113822); (113824, 113827); (118528, 118573); (118576, 118598);
  (119143, 119145); (119155, 119170); (119173, 119179); (119210, 119213); (119362, 119364); (121344, 121398);
  (121403, 121452); (121461, 121461); (121476, 121476); (121499, 121503); (121505, 121519); (122880, 122886);
  (122888, 122904); (122907, 122913); (122915, 122916); (122918, 122922); (123184, 123197); (123566, 123566);
  (123628, 123631); (125136, 125142); (125252, 125259); (127995, 127999); (917505, 917505); (917536, 917631);
  (917760, 917999)
]%N.

Definition in_range (c : N) (r : N * N) : bool :=
  (fst r <=? c) && (c <=? snd r).

Definition in_ranges (rs : list (N * N)) (c : N) : bool :=
  existsb (in_range c) rs.

(** [Py_UNICODE_ISSPACE] *)
Definition is_space (c : N) : bool := in_ranges whitespace_ranges c.

(** [Py_UNICODE_TODECIMAL]: the decimal value of a digit, if it is one. *)
Definition to_decimal (c : N) : option N :=
  match find (fun z => (z <=? c) && (c <? z + 10)) decimal_zeros with
  | Some z => Some (c - z)
  | None => None
  end.

(** [Py_UNICODE_ISDECIMAL] *)
Definition is_decimal (c : N) : bool :=
  match to_decimal c with Some _ => true | None => false end.

Definition run_image (c : N) (r : N * N * N * N) : option N :=
  let '(lo, hi, step, lo') := r in
  if (lo <=? c) && (c <=? hi) && ((c - lo) mod step =? 0)
  then Some (lo' + (c - lo)) else None.

Fixpoint first_image (rs : list (N * N * N * N)) (c : N) : option N :=
  match rs with
  | [] => None
  | r :: rs' =>
    match run_image c r with
    | Some c' => Some c'
    | None => first_image rs' c
    end
  end.

(** [Py_UNICODE_TOLOWER]: the simple (one code point) lower-case mapping. *)
Definition to_lower (c : N) : N :=
  match first_image lowercase_runs c with Some c' => c' | None => c end.

Definition is_cased (c : N) : bool := in_ranges cased_ranges c.
Definition is_case_ignorable (c : N) : bool := in_ranges case_ignorable_ranges c.

(** [str.lower()].  CPython lowers code point by code point with the full
    mapping: it differs from the simple one at U+0130 only, which becomes
    the two code points [i] and U+0307, and at capital sigma U+03A3, which
    becomes the final form U+03C2 when a cased letter precedes it and none
    follows, case-ignorable code points being skipped on both sides. *)

Fixpoint skip_ignorable (s : text) : option N :=
  match s with
  | [] => None
  | c :: s' => if is_case_ignorable c then skip_ignorable s' else Some c
  end.

Definition final_sigma (before_rev after : text) : bool :=
  match skip_ignorable before_rev with
  | None => false
  | Some c =>
    is_cased c &&
    match skip_ignorable after with
    | None => true
    | Some c' => negb (is_cased c')
    end
  end.

Definition lower_at (before_rev : text) (c : N) (after : text) : text :=
  if c =? 931 then [if final_sigma before_rev after then 962 else 963]
  else if c =? 304 then [105; 775]
  else [to_lower c].

Fixpoint lower_from (before_rev s : text) : text :=
  match s with
  | [] => []
  | c :: s' => lower_at before_rev c s' ++ lower_from (c :: before_rev) s'
  end.

Definition py_lower (s : text) : text := lower_from [] s.

(** ** Floating point

    A Python [float] is an IEEE 754 binary64 number.  The operations are
    those of the standard library's executable specification, at precision
    53 and maximal exponent 1024; every result is rounded to nearest, ties
    to even. *)

Abbreviation float := spec_float.

Definition prec : Z := 53.
Definition emax : Z := 1024.

Definition float_add : float -> float -> float := SFadd prec emax.
Definition float_sub : float -> float -> float := SFsub prec emax.
Definition float_mul : float -> float -> float := SFmul prec emax.
Definition float_div : float -> float -> float := SFdiv prec emax.
Definition is_nan (f : float) : bool :=
  match f with S754_nan => true | _ => false end.

Definition is_infinite (f : float) : bool :=
  match f with S754_infinity _ => true | _ => false end.

Definition is_zero (f : float) : bool :=
  match f with S754_zero _ => true | _ => false end.

(** The integer [z] as the unrounded pair (mantissa [|z|], exponent 0). *)
Definition exact_int (z : Z) : float :=
  match z with
  | Z0 => S754_zero false
  | Zpos p => S754_finite false p 0
  | Zneg p => S754_finite true p 0
  end.

(** The float nearest to the integer [z] (infinite when [z] is out of range). *)
Definition float_of_Z (z : Z) : float := binary_normalize prec emax z 0 false.

(** The float nearest to the fraction [n / d], for [d] other than zero. *)
Definition float_of_ratio (n d : Z) : float :=
  float_div (exact_int n) (exact_int d).

(** A decimal literal of the source, [digits] followed by [places] decimal
    places: [float_literal 625 2] is [6.25]. *)
Definition float_literal (digits : Z) (places : nat) : float :=
  float_of_ratio digits (10 ^ Z.of_nat places).

Definition signed (s : bool) (m : positive) : Z :=
  if s then Zneg m else Zpos m.

(** What a float stands for: not a number, an infinity, or a rational. *)
Inductive xreal : Type :=
| XNaN
| XInf (negative : bool)
| XFin (q : Q).

Definition float_value (f : float) : xreal :=
  match f with
  | S754_nan => XNaN
  | S754_infinity s => XInf s
  | S754_zero _ => XFin 0
  | S754_finite s m e =>
    XFin match e with
         | Zneg p => Qmake (signed s m) (2 ^ p)
         | _ => inject_Z (signed s m * 2 ^ e)
         end
  end.

(** Comparison is that of the values; nothing compares with a NaN. *)
Definition xcompare (a b : xreal) : option comparison :=
  match a, b with
  | XNaN, _ | _, XNaN => None
  | XInf s, XInf t =>
    Some match s, t with
         | true, true | false, false => Eq
         | true, false => Lt
         | false, true => Gt
         end
  | XInf s, XFin _ => Some (if s then Lt else Gt)
  | XFin _, XInf t => Some (if t then Gt else Lt)
  | XFin p, XFin q => Some (p ?= q)%Q
  end.

(** [n / d] rounded to the nearest integer, ties to the even one ([d > 0]). *)
Definition round_half_even (n d : Z) : Z :=
  let q := (n / d)%Z in
  match (2 * (n mod d) ?= d)%Z with
  | Lt => q
  | Gt => (q + 1)%Z
  | Eq => if Z.even q then q else (q + 1)%Z
  end.

Definition Qround_half_even (q : Q) : Z :=
  round_half_even (Qnum q) (Zpos (Qden q)).

Definition sign_bit (f : float) : bool :=
  match f with
  | S754_zero s | S754_infinity s | S754_finite s _ _ => s
  | S754_nan => false
  end.

(** ** Values, exceptions and the operators the program uses *)

Inductive value : Type :=
| VNone
| VInt (z : Z)
| VFloat (f : float)
| VStr (s : text).

Inductive exn : Type :=
| TypeError
| AttributeError
| KeyError
| ZeroDivisionError
| OverflowError
| ValueError.

Inductive result (A : Type) : Type :=
| Ok (a : A)
| Raise (e : exn).

Arguments Ok {A} a.
Arguments Raise {A} e.

#[export] Instance result_ret : MRet result := fun A a => Ok a.

#[export] Instance result_bind : MBind result := fun A B k m =>
  match m with
  | Ok a => k a
  | Raise e => Raise e
  end.

Abbreviation dict := (gmap text value).

(** [d[key]] *)
Definition getitem (d : dict) (key : text) : result value :=
  match d !! key with
  | Some v => Ok v
  | None => Raise KeyError
  end.

(** [d.get(key, default)] *)
Definition dict_get (d : dict) (key : text) (default : value) : value :=
  match d !! key with
  | Some v => v
  | None => default
  end.

(** The conversion every float operator applies to its operands. *)
Definition as_float (v : value) : result float :=
  match v with
  | VFloat f => Ok f
  | VInt z =>
    let f := float_of_Z z in
    if is_infinite f then Raise OverflowError else Ok f
  | _ => Raise TypeError
  end.

Definition float_op (op : float -> float -> float) (a b : value) : result value :=
  x ← as_float a; y ← as_float b; Ok (VFloat (op x y)).

Definition repeat_text (s : text) (n : Z) : text :=
  concat (repeat s (Z.to_nat n)).

(** [a * b] *)
Definition py_mul (a b : value) : result value :=
  match a, b with
  | VInt x, VInt y => Ok (VInt (x * y))
  | VInt n, VStr s | VStr s, VInt n => Ok (VStr (repeat_text s n))
  | VInt _, VFloat _ | VFloat _, VInt _ | VFloat _, VFloat _ => float_op float_mul a b
  | _, _ => Raise TypeError
  end.

(** [a + b] *)
Definition py_add (a b : value) : result value :=
  match a, b with
  | VInt x, VInt y => Ok (VInt (x + y))
  | VStr s, VStr t => Ok (VStr (s ++ t))
  | VInt _, VFloat _ | VFloat _, VInt _ | VFloat _, VFloat _ => float_op float_add a b
  | _, _ => Raise TypeError
  end.

(** [a - b] *)
Definition py_sub (a b : value) : result value :=
  match a, b with
  | VInt x, VInt y => Ok (VInt (x - y))
  | VInt _, VFloat _ | VFloat _, VInt _ | VFloat _, VFloat _ => float_op float_sub a b
  | _, _ => Raise TypeError
  end.

(** [a / b]: true division.  Two integers are divided exactly and the
    quotient rounded once. *)
Definition py_truediv (a b : value) : result value :=
  match a, b with
  | VInt x, VInt y =>
    if (y =? 0)%Z then Raise ZeroDivisionError
    else
      let f := float_of_ratio x y in
      if is_infinite f then Raise OverflowError else Ok (VFloat f)
  | VInt _, VFloat _ | VFloat _, VInt _ | VFloat _, VFloat _ =>
    x ← as_float a; y ← as_float b;
    if is_zero y then Raise ZeroDivisionError else Ok (VFloat (float_div x y))
  | _, _ => Raise TypeError
  end.

(** [a ** 2].  For a float CPython treats NaN, the infinities, zero and
    one apart and hands every other magnitude to the C library's [pow]; a
    finite base whose square is out of range raises.  The square is taken
    here as the correctly rounded one.  A library's [pow] may be off by one
    unit in the last place, and the index of line 81 may then differ in
    its second decimal: what is proved of the calculator for all inputs
    does not rest on the last place of the square, and the worked
    scenarios have an exact one. *)
Definition py_pow_2 (a : value) : result value :=
  match a with
  | VInt x => Ok (VInt (x * x))
  | VFloat x =>
    match x with
    | S754_nan => Ok (VFloat S754_nan)
    | S754_infinity _ => Ok (VFloat (S754_infinity false))
    | S754_zero _ => Ok (VFloat (S754_zero false))
    | S754_finite _ _ _ =>
      let r := float_mul x x in
      if is_infinite r then Raise OverflowError else Ok (VFloat r)
    end
  | _ => Raise TypeError
  end.

(** [round(a)]: the integer nearest to the value of [a], ties to even. *)
Definition py_round (a : value) : result value :=
  match a with
  | VInt x => Ok (VInt x)
  | VFloat f =>
    match float_value f with
    | XNaN => Raise ValueError
    | XInf _ => Raise OverflowError
    | XFin q => Ok (VInt (Qround_half_even q))
    end
  | _ => Raise TypeError
  end.

(** [round(a, 2)]: the float nearest to the two-place decimal nearest to
    the value of [a], ties to even both times. *)
Definition py_round_2 (a : value) : result value :=
  match a with
  | VInt x => Ok (VInt x)
  | VFloat f =>
    match float_value f with
    | XFin q =>
      let n := Qround_half_even (100 * q) in
      Ok (VFloat (if (n =? 0)%Z then S754_zero (sign_bit f) else float_of_ratio n 100))
    | _ => Ok (VFloat f)
    end
  | _ => Raise TypeError
  end.

Fixpoint text_compare (s t : text) : comparison :=
  match s, t with
  | [], [] => Eq
  | [], _ :: _ => Lt
  | _ :: _, [] => Gt
  | c :: s', d :: t' =>
    match c ?= d with
    | Eq => text_compare s' t'
    | o => o
    end
  end.

Definition py_compare (a b : value) : result (option comparison) :=
  match a, b with
  | VInt x, VInt y => Ok (Some (x ?= y)%Z)
  | VFloat x, VFloat y => Ok (xcompare (float_value x) (float_value y))
  | VFloat x, VInt y => Ok (xcompare (float_value x) (XFin (inject_Z y)))
  | VInt x, VFloat y => Ok (xcompare (XFin (inject_Z x)) (float_value y))
  | VStr s, VStr t => Ok (Some (text_compare s t))
  | _, _ => Raise TypeError
  end.

(** [a < b] *)
Definition py_lt (a b : value) : result bool :=
  o ← py_compare a b;
  Ok match o with Some Lt => true | _ => false end.

(** [a <= b] *)
Definition py_le (a b : value) : result bool :=
  o ← py_compare a b;
  Ok match o with Some (Lt | Eq) => true | _ => false end.

(** [a == b] *)
Definition py_eq (a b : value) : bool :=
  match a, b with
  | VNone, VNone => true
  | VStr s, VStr t => text_eqb s t
  | VInt _, VInt _ | VInt _, VFloat _ | VFloat _, VInt _ | VFloat _, VFloat _ =>
    match py_compare a b with
    | Ok (Some Eq) => true
    | _ => false
    end
  | _, _ => false
  end.

(** [a.lower()]: only a [str] has the method. *)
Definition lower (a : value) : result value :=
  match a with
  | VStr s => Ok (VStr (py_lower s))
  | _ => Raise AttributeError
  end.

(** ** The health metrics calculator

    [calculate_profile_data], lines 77 to 93 of [app.py].  The local
    variables [imc], [bmr], [multiplier], [tdee] and [imc_recommendation]
    are given as functions of what they are computed from, in the order the
    source assigns them. *)

Definition required_keys : list text :=
  [str "weight"; str "height"; str "age"; str "gender"; str "activity_level"].

(** [key in user_data and user_data[key] is not None] *)
Definition present (user_data : dict) (key : text) : bool :=
  match user_data !! key with
  | None => false
  | Some VNone => false
  | Some _ => true
  end.

Definition dict3 (k1 : text) (v1 : value) (k2 : text) (v2 : value)
    (k3 : text) (v3 : value) : dict :=
  <[k1 := v1]> (<[k2 := v2]> (<[k3 := v3]> ∅)).

(** What an incomplete profile is answered with. *)
Definition incomplete : dict :=
  dict3 (str "imc") VNone (str "tdee") VNone
        (str "imc_recommendation") (VStr (str "Completa tu perfil")).

(** Lines 80 and 81. *)
Definition height_m (user_data : dict) : result value :=
  height ← getitem user_data (str "height");
  py_truediv height (VInt 100).

Definition imc (user_data : dict) : result value :=
  hm ← height_m user_data;
  weight ← getitem user_data (str "weight");
  square ← py_pow_2 hm;
  quotient ← py_truediv weight square;
  py_round_2 quotient.

(** [10 * weight + 6.25 * height - 5 * age + offset], evaluated from the
    left as Python does. *)
Definition mifflin_st_jeor (weight height age offset : value) : result value :=
  a ← py_mul (VInt 10) weight;
  b ← py_mul (VFloat (float_literal 625 2)) height;
  c ← py_add a b;
  d ← py_mul (VInt 5) age;
  e ← py_sub c d;
  py_add e offset.

(** Lines 82 to 85. *)
Definition bmr (user_data : dict) : result value :=
  gender ← getitem user_data (str "gender");
  g ← lower gender;
  weight ← getitem user_data (str "weight");
  height ← getitem user_data (str "height");
  age ← getitem user_data (str "age");
  if py_eq g (VStr (str "masculino"))
  then mifflin_st_jeor weight height age (VInt 5)
  else mifflin_st_jeor weight height age (VInt (-161)).

(** Lines 86 and 87. *)
Definition activity_multipliers : dict :=
  <[str "sedentario" := VFloat (float_literal 12 1)]>
  (<[str "ligero" := VFloat (float_literal 1375 3)]>
  (<[str "moderado" := VFloat (float_literal 155 2)]>
  (<[str "activo" := VFloat (float_literal 1725 3)]>
  (<[str "muy activo" := VFloat (float_literal 19 1)]> ∅)))).

Definition multiplier (user_data : dict) : result value :=
  level ← getitem user_data (str "activity_level");
  key ← lower level;
  match key with
  | VStr k => Ok (dict_get activity_multipliers k (VFloat (float_literal 12 1)))
  | _ => Raise TypeError
  end.

(** Line 88. *)
Definition tdee (bmr multiplier : value) : result value :=
  product ← py_mul bmr multiplier;
  py_round product.

(** Lines 89 to 92. *)
Definition imc_recommendation (imc : value) : result text :=
  below ← py_lt imc (VFloat (float_literal 185 1));
  if (below : bool) then Ok (str "Bajo peso")
  else
    lo ← py_le (VFloat (float_literal 185 1)) imc;
    hi ← (if (lo : bool) then py_lt imc (VInt 25) else Ok false);
    if lo && hi then Ok (str "Peso saludable")
    else
      lo ← py_le (VInt 25) imc;
      hi ← (if (lo : bool) then py_lt imc (VInt 30) else Ok false);
      if lo && hi then Ok (str "Sobrepeso")
      else Ok (str "Obesidad").

Definition calculate_profile_data (user_data : dict) : result dict :=
  if negb (forallb (present user_data) required_keys) then Ok incomplete
  else
    i ← imc user_data;
    b ← bmr user_data;
    m ← multiplier user_data;
    t ← tdee b m;
    r ← imc_recommendation i;
    Ok (dict3 (str "imc") i (str "tdee") t (str "imc_recommendation") (VStr r)).

(** ** The calorie extractor

    [re.search(r"Total Calorías:\s*(\d+)", text, re.IGNORECASE)] runs the
    byte code the [re] module compiles the pattern to.  The operations
    below are the ones that code uses, with the meaning the matching
    engine gives them on a [str] subject. *)

Inductive category : Type :=
| UNI_SPACE
| UNI_DIGIT.

Inductive op : Type :=
| LITERAL (c : N)
| LITERAL_UNI_IGNORE (c : N)
| IN_UNI_IGNORE (set : list N)
| REPEAT_ONE (min : nat) (cat : category)
| MARK (i : nat).

Definition in_category (cat : category) (c : N) : bool :=
  match cat with
  | UNI_SPACE => is_space c
  | UNI_DIGIT => is_decimal c
  end.

(** The number of leading code points of [s] in the category: how far a
    greedy repetition first runs. *)
Fixpoint count (cat : category) (s : text) : nat :=
  match s with
  | c :: s' => if in_category cat c then S (count cat s') else 0
  | [] => 0
  end.

(** A greedy repetition gives back one code point at a time, down to its
    minimum, until the rest of the pattern matches. *)
Fixpoint give_back {A : Type} (tail : nat -> option A) (min n : nat) : option A :=
  match tail n with
  | Some r => Some r
  | None =>
    match n with
    | O => None
    | S n' => if (min <=? n')%nat then give_back tail min n' else None
    end
  end.

Abbreviation marks := (gmap nat nat).

(** Match [code] against [s], the part of the subject from position [pos]
    on; the result is the positions the marks were set at. *)
Fixpoint sre_match (code : list op) (s : text) (pos : nat) (m : marks)
    {struct code} : option marks :=
  match code with
  | [] => Some m
  | LITERAL c :: code' =>
    match s with
    | x :: s' => if x =? c then sre_match code' s' (S pos) m else None
    | [] => None
    end
  | LITERAL_UNI_IGNORE c :: code' =>
    match s with
    | x :: s' => if to_lower x =? c then sre_match code' s' (S pos) m else None
    | [] => None
    end
  | IN_UNI_IGNORE set :: code' =>
    match s with
    | x :: s' =>
      if existsb (N.eqb (to_lower x)) set then sre_match code' s' (S pos) m else None
    | [] => None
    end
  | REPEAT_ONE min cat :: code' =>
    let n := count cat s in
    if (n <? min)%nat then None
    else give_back (fun k => sre_match code' (drop k s) (pos + k)%nat m) min n
  | MARK i :: code' => sre_match code' s pos (<[i := pos]> m)
  end.

(** [re.search]: the match at the leftmost position that has one. *)
Fixpoint sre_search (code : list op) (s : text) (pos : nat) : option marks :=
  match sre_match code s pos ∅ with
  | Some m => Some m
  | None =>
    match s with
    | [] => None
    | _ :: s' => sre_search code s' (S pos)
    end
  end.

(** [match.group(1)]: the subject between marks 0 and 1, [None] when the
    group took no part in the match. *)
Definition group_1 (subject : text) (m : marks) : value :=
  match m !! 0%nat, m !! 1%nat with
  | Some i, Some j => VStr (take (j - i) (drop i subject))
  | _, _ => VNone
  end.

(** The compiled pattern, as [re.compile(..., re.DEBUG)] lists it. *)
Definition total_calories_pattern : list op :=
  [ LITERAL_UNI_IGNORE 116; LITERAL_UNI_IGNORE 111; LITERAL_UNI_IGNORE 116;
    LITERAL_UNI_IGNORE 97; LITERAL_UNI_IGNORE 108; LITERAL 32;
    LITERAL_UNI_IGNORE 99; LITERAL_UNI_IGNORE 97; LITERAL_UNI_IGNORE 108;
    LITERAL_UNI_IGNORE 111; LITERAL_UNI_IGNORE 114; LITERAL_UNI_IGNORE 237;
    LITERAL_UNI_IGNORE 97; IN_UNI_IGNORE [115; 383]; LITERAL 58;
    REPEAT_ONE 0 UNI_SPACE;
    MARK 0; REPEAT_ONE 1 UNI_DIGIT; MARK 1 ].

(** The value of a run of decimal digits. *)
Fixpoint decimal_value (acc : N) (s : text) : option N :=
  match s with
  | [] => Some acc
  | c :: s' =>
    match to_decimal c with
    | Some d => decimal_value (10 * acc + d) s'
    | None => None
    end
  end.

(** [sys.get_int_max_str_digits()]: the longest digit string [int]
    converts.  The program leaves it at the interpreter's default. *)
Definition int_max_str_digits : nat := 4300.

(** [int(a)], for the arguments the extractor passes: a non-empty [str]
    of decimal digits is read in base ten, unless it has more digits than
    the limit, leading zeros counted, which raises [ValueError]; any other
    [str] is refused here (the built-in also accepts a sign, blanks around
    the number and underscores between digits). *)
Definition py_int (a : value) : result value :=
  match a with
  | VInt z => Ok (VInt z)
  | VStr [] => Raise ValueError
  | VStr s =>
    if (int_max_str_digits <? length s)%nat then Raise ValueError
    else
      match decimal_value 0 s with
      | Some n => Ok (VInt (Z.of_N n))
      | None => Raise ValueError
      end
  | _ => Raise TypeError
  end.

(** Lines 111 to 113. *)
Definition extract_total_calories (text : text) : result value :=
  match sre_search total_calories_pattern text 0 with
  | Some m => py_int (group_1 text m)
  | None => Ok (VInt 0)
  end.

(** ** Notions the statements below are written with *)

(** A profile with the five physical attributes. *)
Definition profile (weight height age gender activity_level : value) : dict :=
  <[str "weight" := weight]>
  (<[str "height" := height]>
  (<[str "age" := age]>
  (<[str "gender" := gender]>
  (<[str "activity_level" := activity_level]> ∅)))).

(** Every required attribute is there and is not [None]. *)
Definition complete (user_data : dict) : Prop :=
  forall key, In key required_keys ->
    exists v, user_data !! key = Some v /\ v <> VNone.

(** [x] is the lower-case ASCII letter [c] or its capital, or [x] is [c]
    itself when [c] is no letter. *)
Definition same_ignoring_case (x c : N) : Prop :=
  x = c \/ (97 <= c <= 122 /\ x + 32 = c).

Definition equal_ignoring_case (s token : text) : Prop :=
  Forall2 same_ignoring_case s token.

(** The code points [to_lower] sends to [c], read off the tables. *)
Definition preimages_in_run (c : N) (r : N * N * N * N) : list N :=
  let '(lo, hi, step, lo') := r in
  if (lo' <=? c) && (c <=? lo' + (hi - lo)) && ((c - lo') mod step =? 0)
  then [lo + (c - lo')] else [].

Definition lower_preimages (c : N) : list N :=
  (if to_lower c =? c then [c] else []) ++ flat_map (preimages_in_run c) lowercase_runs.

(** The code points that stand for each character of the label
    [Total Calorías:] when case is ignored.  The long s, U+017F, is a
    third form of the letter s. *)
Definition label_variants : list (list N) :=
  [ [116; 84]; [111; 79]; [116; 84]; [97; 65]; [108; 76]; [32];
    [99; 67]; [97; 65]; [108; 76]; [111; 79]; [114; 82]; [237; 205];
    [97; 65]; [115; 83; 383]; [58] ].

Definition label_matches (w : text) : Prop :=
  Forall2 (fun x vs => In x vs) w label_variants.

(** [s] without a leading word spelt from [vss], if it starts with one. *)
Fixpoint strip_label (vss : list (list N)) (s : text) : option text :=
  match vss with
  | [] => Some s
  | vs :: vss' =>
    match s with
    | x :: s' => if existsb (N.eqb x) vs then strip_label vss' s' else None
    | [] => None
    end
  end.

(** The value of a run of decimal digits, most significant first. *)
Definition base10 (ds : text) : Z :=
  Z.of_N (fold_left (fun acc c => 10 * acc + default 0 (to_decimal c)) ds 0).

Definition all_spaces (ws : text) : Prop := Forall (fun c => is_space c = true) ws.
Definition all_digits (ds : text) : Prop := Forall (fun c => is_decimal c = true) ds.

(** No digit follows: [rest] is empty or starts with something else. *)
Definition no_digit_ahead (rest : text) : Prop :=
  match rest with
  | [] => True
  | c :: _ => is_decimal c = false
  end.

(** A total is announced at the very start of [s]: the label, any white
    space, and at least one digit. *)
Definition total_at (s : text) : Prop :=
  exists lab ws d rest,
    s = lab ++ ws ++ d :: rest /\
    label_matches lab /\ all_spaces ws /\ is_decimal d = true.

(** Where the digits of a total announced at the start of [s] begin and
    end, counted from the start of [s]. *)
Definition match_at (s : text) : option (nat * nat) :=
  match strip_label label_variants s with
  | None => None
  | Some rest =>
    let k := count UNI_SPACE rest in
    let n := count UNI_DIGIT (drop k rest) in
    if (n <? 1)%nat then None else Some (15 + k, 15 + k + n)%nat
  end.

(** The digits of a total announced at the start of [s]. *)
Definition digits_at (s : text) : option text :=
  match match_at s with
  | Some (i, j) => Some (take (j - i) (drop i s))
  | None => None
  end.

(** The digits of the first total announced in [s], reading from the left. *)
Fixpoint first_total (s : text) : option text :=
  match digits_at s with
  | Some ds => Some ds
  | None =>
    match s with
    | [] => None
    | _ :: s' => first_total s'
    end
  end.

(** The positions [re.search] reports for the group, on the part [s] of
    the subject that starts at position [pos]. *)
Fixpoint search_at (s : text) (pos : nat) : option (nat * nat) :=
  match match_at s with
  | Some (i, j) => Some (pos + i, pos + j)%nat
  | None =>
    match s with
    | [] => None
    | _ :: s' => search_at s' (S pos)
    end
  end.

(** Order on the rationals as booleans. *)
Definition Qltb (p q : Q) : bool :=
  match (p ?= q)%Q with Lt => true | _ => false end.

Definition Qleb (p q : Q) : bool :=
  match (p ?= q)%Q with Gt => false | _ => true end.

(** A code point of a token that only its own capital is lowered to.
    U+0130 is set apart: [str.lower] turns it into two code points. *)
Definition plain (c : N) : bool :=
  (c <? 128) && (to_lower c =? c) &&
  forallb (fun x => (x =? c) || ((97 <=? c) && (c <=? 122) && (x + 32 =? c)) || (x =? 304))
          (lower_preimages c).

(** The Mifflin-St Jeor estimate in float arithmetic:
    [10 * w + 6.25 * h - 5 * a + c]. *)
Definition mifflin_st_jeor_float (w h : float) (a c : Z) : float :=
  float_add
    (float_sub
       (float_add (float_mul (float_of_Z 10) w) (float_mul (float_literal 625 2) h))
       (float_of_Z (5 * a)))
    (float_of_Z c).

(** The activity table, read as a function of the lowered level. *)
Definition multiplier_of (key : text) : float :=
  if text_eqb key (str "sedentario") then float_literal 12 1
  else if text_eqb key (str "ligero") then float_literal 1375 3
  else if text_eqb key (str "moderado") then float_literal 155 2
  else if text_eqb key (str "activo") then float_literal 1725 3
  else if text_eqb key (str "muy activo") then float_literal 19 1
  else float_literal 12 1.

Definition activity_levels : list text :=
  [str "sedentario"; str "ligero"; str "moderado"; str "activo"; str "muy activo"].

(** The constant the formula ends with: [5] for the gender the source
    names, [-161] for every other. *)
Definition offset_of (gender : text) : Z :=
  if text_eqb (py_lower gender) (str "masculino") then 5 else -161.

Definition categories : list text :=
  [str "Bajo peso"; str "Peso saludable"; str "Sobrepeso"; str "Obesidad"].

(** The five attributes have the types of the data model. *)
Definition typed (user_data : dict) (w h : float) (a : Z) (gender level : text) : Prop :=
  user_data !! str "weight" = Some (VFloat w) /\
  user_data !! str "height" = Some (VFloat h) /\
  user_data !! str "age" = Some (VInt a) /\
  user_data !! str "gender" = Some (VStr gender) /\
  user_data !! str "activity_level" = Some (VStr level).

(** The two scenarios of the specification: 70 kg, 175 cm, 30 years. *)
Definition male_scenario : dict :=
  profile (VFloat (float_of_Z 70)) (VFloat (float_of_Z 175)) (VInt 30)
          (VStr (str "Masculino")) (VStr (str "moderado")).

Definition female_scenario : dict :=
  profile (VFloat (float_of_Z 70)) (VFloat (float_of_Z 175)) (VInt 30)
          (VStr (str "Femenino")) (VStr (str "sedentario")).

(** The answer to a complete profile. *)
Definition metrics (imc tdee : value) (recommendation : text) : dict :=
  dict3 (str "imc") imc (str "tdee") tdee
        (str "imc_recommendation") (VStr recommendation).

(** The float [f] is finite and stands for exactly the rational [q]. *)
Definition has_value (f : float) (q : Q) : Prop :=
  match float_value f with
  | XFin p => (p == q)%Q
  | _ => False
  end.

(** A profile of height zero, and one with negative weight and age. *)
Definition zero_height_profile : dict :=
  profile (VFloat (float_of_Z 70)) (VFloat (S754_zero false)) (VInt 30)
          (VStr (str "Masculino")) (VStr (str "moderado")).

Definition negative_profile : dict :=
  profile (VFloat (float_of_Z (-70))) (VFloat (float_of_Z 175)) (VInt (-30))
          (VStr (str "Masculino")) (VStr (str "moderado")).


(** A total of 4301 digits, and a zero written with as many. *)
Definition long_total : text := str "Total Calorías: " ++ repeat 49 4301.

Definition padded_zero_total : text := str "Total Calorías:" ++ repeat 48 4301.
(** ** The profile handlers

    The parts of [get_profile], lines 164 to 173, and of [update_profile],
    lines 152 to 155, that are computed by the program itself.  What the
    data base returns and what the request carries are arguments. *)

(** [d.pop(key)] *)
Definition dict_pop (d : dict) (key : text) : result (value * dict) :=
  match d !! key with
  | Some v => Ok (v, delete key d)
  | None => Raise KeyError
  end.

(** [d.update(other)] *)
Definition dict_update (d other : dict) : dict := other ∪ d.

(** An answer of the server: the JSON object and the status. *)
Definition response : Type := dict * nat.

Definition not_found : response :=
  ({[ str "error" := VStr (str "Usuario no encontrado") ]}, 404%nat).

(** [get_profile], from what [fetchone] returned on: [None] or a row.  A
    row is false when it has no column. *)
Definition get_profile (user : option dict) : result response :=
  match user with
  | None => Ok not_found
  | Some row =>
    if (size row =? 0)%nat then Ok not_found
    else
      popped ← dict_pop row (str "password_hash");
      let user_data := snd popped in
      health_data ← calculate_profile_data user_data;
      Ok (dict_update user_data health_data, 200%nat)
  end.




(** ** Further notions *)

(** Two profiles carry the same five attributes. *)
Definition agree_on_attributes (d d' : dict) : Prop :=
  forall key, In key required_keys -> d !! key = d' !! key.

Definition is_number (v : value) : bool :=
  match v with VInt _ | VFloat _ => true | _ => false end.

Definition is_finite (f : float) : bool :=
  match f with S754_zero _ | S754_finite _ _ _ => true | _ => false end.

(** [f] is a zero, an infinity or a finite number of sign [s]: it is no NaN. *)
Definition has_sign (s : bool) (f : float) : Prop :=
  f = S754_zero s \/ f = S754_infinity s \/ exists m e, f = S754_finite s m e.

(** The decimal numeral of [n], as [str(n)] writes it; [fuel] bounds the
    number of digits. *)
Fixpoint numeral_from (fuel : nat) (n : N) : text :=
  match fuel with
  | O => []
  | S fuel' =>
    if n <? 10 then [48 + n]
    else numeral_from fuel' (n / 10) ++ [48 + n mod 10]
  end.

Definition numeral (n : N) : text := numeral_from (S (N.to_nat (N.log2 n))) n.

(** The value is a float that is not finite: an infinity or a NaN. *)
Definition not_finite (v : value) : Prop :=
  exists f, v = VFloat f /\ is_finite f = false.

(** A weight that is zero or negative. *)
Definition not_positive (v : value) : bool :=
  match v with
  | VInt z => (z <=? 0)%Z
  | VFloat f => is_zero f || sign_bit f
  | _ => false
  end.

(** The float is a zero, or negative (minus infinity included). *)
Definition zero_or_negative (f : float) : Prop :=
  is_zero f = true \/ has_sign true f.

(** [-v], for a number. *)
Definition opposite (v : value) : value :=
  match v with
  | VInt z => VInt (- z)
  | VFloat f => VFloat (SFopp f)
  | _ => v
  end.

(** The keys a profile answer adds to the row, and the one it removes. *)
Definition metric_keys : list text :=
  [str "imc"; str "tdee"; str "imc_recommendation"].


(** The row of a user who has registered and not filled in the profile. *)
Definition new_user_row : dict :=
  <[str "id" := VInt 1]>
  (<[str "email" := VStr (str "ana@example.org")]>
  (<[str "name" := VStr (str "Ana")]>
  (<[str "password_hash" := VStr (str "pbkdf2:sha256:600000$salt$hash")]>
  (<[str "age" := VNone]>
  (<[str "weight" := VNone]>
  (<[str "height" := VNone]>
  (<[str "gender" := VNone]>
  (<[str "activity_level" := VNone]> ∅)))))))).
(** * Properties *)

(** ** The character tables *)

Lemma in_ranges_inv rs x :
  in_ranges rs x = true -> exists r, In r rs /\ fst r <= x <= snd r.
Proof.
  unfold in_ranges. rewrite existsb_exists. intros [r [Hin Hr]].
  exists r. split; [assumption|].
  unfold in_range in Hr. apply andb_prop in Hr as [H1 H2].
  apply N.leb_le in H1, H2. lia.
Qed.

Lemma to_decimal_inv x d :
  to_decimal x = Some d ->
  exists z, In z decimal_zeros /\ z <= x < z + 10 /\ d = x - z.
Proof.
  unfold to_decimal. destruct (find _ decimal_zeros) as [z|] eqn:Hf; [|discriminate].
  intros [= <-]. apply find_some in Hf as [Hin Hz].
  apply andb_prop in Hz as [H1 H2]. apply N.leb_le in H1. apply N.ltb_lt in H2.
  exists z. repeat split; assumption.
Qed.

Lemma to_decimal_lt_10 x d : to_decimal x = Some d -> d < 10.
Proof. intros H. apply to_decimal_inv in H as (z & _ & Hz & ->). lia. Qed.

Lemma space_not_decimal x : is_space x = true -> is_decimal x = false.
Proof.
  intros Hs. apply in_ranges_inv in Hs as (r & Hr & Hx).
  unfold is_decimal. destruct (to_decimal x) as [d|] eqn:Hd; [|reflexivity].
  exfalso. apply to_decimal_inv in Hd as (z & Hz & Hxz & _).
  assert (Hsep : forallb (fun r => forallb (fun z =>
            (snd r <? z) || (z + 10 <=? fst r)) decimal_zeros) whitespace_ranges = true)
    by (vm_compute; reflexivity).
  rewrite forallb_forall in Hsep. specialize (Hsep r Hr).
  rewrite forallb_forall in Hsep. specialize (Hsep z Hz).
  apply orb_prop in Hsep as [H|H]; [apply N.ltb_lt in H | apply N.leb_le in H]; lia.
Qed.

Lemma first_image_inv rs x y :
  first_image rs x = Some y -> exists r, In r rs /\ run_image x r = Some y.
Proof.
  induction rs as [|r rs IH]; simpl; [discriminate|].
  destruct (run_image x r) as [y'|] eqn:Hr.
  - intros [= <-]. exists r. auto.
  - intros H. destruct (IH H) as (r' & Hin & Hr'). exists r'. auto.
Qed.

Lemma run_image_preimage x y r :
  run_image x r = Some y -> In x (preimages_in_run y r).
Proof.
  destruct r as [[[lo hi] step] lo']. unfold run_image, preimages_in_run.
  destruct ((lo <=? x) && (x <=? hi) && ((x - lo) mod step =? 0)) eqn:Hc; [|discriminate].
  intros [= <-].
  apply andb_prop in Hc as [Hc H3]. apply andb_prop in Hc as [H1 H2].
  apply N.leb_le in H1, H2. apply N.eqb_eq in H3.
  replace (lo' + (x - lo) - lo') with (x - lo) by lia.
  rewrite H3, N.eqb_refl, andb_true_r.
  replace ((lo' <=? lo' + (x - lo)) && (lo' + (x - lo) <=? lo' + (hi - lo))) with true.
  - left. lia.
  - symmetry. apply andb_true_intro. split; apply N.leb_le; lia.
Qed.

Lemma to_lower_preimage x c : to_lower x = c -> In x (lower_preimages c).
Proof.
  unfold lower_preimages. intros H. apply in_or_app.
  unfold to_lower in H. destruct (first_image lowercase_runs x) as [y|] eqn:Hf.
  - right. subst y. apply first_image_inv in Hf as (r & Hin & Hr).
    apply in_flat_map. exists r. split; [assumption|].
    now apply run_image_preimage.
  - left. subst c. unfold to_lower. rewrite Hf, N.eqb_refl. now left.
Qed.

(** Once the preimages of [c] are computed, membership in them decides
    whether a code point is lowered to [c]. *)
Lemma to_lower_eqb_variants c vs x :
  lower_preimages c = vs ->
  forallb (fun v => to_lower v =? c) vs = true ->
  (to_lower x =? c) = existsb (N.eqb x) vs.
Proof.
  intros Hpre Hall. destruct (to_lower x =? c) eqn:Hx; symmetry.
  - apply N.eqb_eq, to_lower_preimage in Hx. rewrite Hpre in Hx.
    apply existsb_exists. exists x. split; [assumption | apply N.eqb_refl].
  - destruct (existsb (N.eqb x) vs) eqn:He; [|reflexivity].
    apply existsb_exists in He as (v & Hv & Hxv). apply N.eqb_eq in Hxv. subst v.
    rewrite forallb_forall in Hall. rewrite (Hall x Hv) in Hx. discriminate.
Qed.

(** ** The matching engine on the calorie pattern *)

Lemma give_back_none {A : Type} (tail : nat -> option A) (min n : nat) :
  (forall j, (j <= n)%nat -> tail j = None) -> give_back tail min n = None.
Proof.
  induction n as [|n IH]; intros Hnone; simpl.
  - now rewrite Hnone.
  - rewrite Hnone by lia. destruct (min <=? n)%nat; [|reflexivity].
    apply IH. intros j Hj. apply Hnone. lia.
Qed.

Lemma give_back_longest {A : Type} (tail : nat -> option A) (min n : nat) :
  (forall j, (j < n)%nat -> tail j = None) -> give_back tail min n = tail n.
Proof.
  intros Hnone. destruct n as [|n]; simpl.
  - now destruct (tail 0%nat).
  - destruct (tail (S n)) as [r|]; [reflexivity|].
    destruct (min <=? n)%nat; [|reflexivity].
    apply give_back_none. intros j Hj. apply Hnone. lia.
Qed.

Lemma count_le_length cat s : (count cat s <= length s)%nat.
Proof. induction s as [|c s IH]; simpl; [lia|]. destruct (in_category cat c); simpl; lia. Qed.

Lemma count_drop_lt cat s j :
  (j < count cat s)%nat ->
  exists c s', drop j s = c :: s' /\ in_category cat c = true.
Proof.
  revert j. induction s as [|c s IH]; simpl; intros j Hj; [lia|].
  destruct (in_category cat c) eqn:Hc; [|lia].
  destruct j as [|j]; simpl.
  - eauto.
  - apply IH. lia.
Qed.

Lemma count_drop_stop cat s :
  match drop (count cat s) s with
  | [] => True
  | c :: _ => in_category cat c = false
  end.
Proof.
  induction s as [|c s IH]; simpl; [exact I|].
  destruct (in_category cat c) eqn:Hc; simpl; assumption.
Qed.

Lemma count_take_all cat s : Forall (fun c => in_category cat c = true) (take (count cat s) s).
Proof.
  induction s as [|c s IH]; simpl; [constructor|].
  destruct (in_category cat c) eqn:Hc; simpl; constructor; assumption.
Qed.

Lemma count_app cat ws rest :
  Forall (fun c => in_category cat c = true) ws ->
  match rest with [] => True | c :: _ => in_category cat c = false end ->
  count cat (ws ++ rest) = length ws.
Proof.
  intros Hws Hrest. induction Hws as [|c ws Hc _ IH]; simpl.
  - destruct rest as [|c rest]; simpl; [reflexivity | now rewrite Hrest].
  - now rewrite Hc, IH.
Qed.

Lemma count_digit_after_space s c s' :
  s = c :: s' -> is_space c = true -> count UNI_DIGIT s = 0%nat.
Proof. intros -> Hc. simpl. now rewrite (space_not_decimal c Hc). Qed.

(** The four last operations: white space, then the digits between the
    two marks.  The white space never has to give anything back, since
    what it would give back is no digit. *)
Definition tail_code : list op :=
  [REPEAT_ONE 0 UNI_SPACE; MARK 0; REPEAT_ONE 1 UNI_DIGIT; MARK 1].

Lemma sre_match_repeat min cat code s pos m :
  sre_match (REPEAT_ONE min cat :: code) s pos m =
  if (count cat s <? min)%nat then None
  else give_back (fun k => sre_match code (drop k s) (pos + k)%nat m) min (count cat s).
Proof. reflexivity. Qed.

Lemma sre_match_digits s pos m :
  sre_match [MARK 0; REPEAT_ONE 1 UNI_DIGIT; MARK 1] s pos m =
  if (count UNI_DIGIT s <? 1)%nat then None
  else Some (<[1%nat := (pos + count UNI_DIGIT s)%nat]> (<[0%nat := pos]> m)).
Proof.
  cbn [sre_match]. cbv zeta. destruct (count UNI_DIGIT s <? 1)%nat; [reflexivity|].
  destruct (count UNI_DIGIT s); reflexivity.
Qed.

Lemma sre_match_tail s pos m :
  sre_match tail_code s pos m =
  let k := count UNI_SPACE s in
  let n := count UNI_DIGIT (drop k s) in
  if (n <? 1)%nat then None
  else Some (<[1%nat := (pos + k + n)%nat]> (<[0%nat := (pos + k)%nat]> m)).
Proof.
  unfold tail_code. rewrite sre_match_repeat.
  change (count UNI_SPACE s <? 0)%nat with false. cbv iota zeta.
  rewrite give_back_longest.
  - apply sre_match_digits.
  - intros j Hj. rewrite sre_match_digits.
    destruct (count_drop_lt _ _ _ Hj) as (c & s' & Hd & Hc).
    now rewrite (count_digit_after_space _ c s' Hd Hc).
Qed.

(** An operation that consumes one code point, and the code points it
    accepts. *)
Inductive single : op -> list N -> Prop :=
| single_literal c : single (LITERAL c) [c]
| single_ignore c vs :
    lower_preimages c = vs ->
    forallb (fun v => to_lower v =? c) vs = true ->
    single (LITERAL_UNI_IGNORE c) vs
| single_in c1 c2 vs1 vs2 :
    lower_preimages c1 = vs1 ->
    forallb (fun v => to_lower v =? c1) vs1 = true ->
    lower_preimages c2 = vs2 ->
    forallb (fun v => to_lower v =? c2) vs2 = true ->
    single (IN_UNI_IGNORE [c1; c2]) (vs1 ++ vs2).

Lemma sre_match_single o vs code s pos m :
  single o vs ->
  sre_match (o :: code) s pos m =
  match s with
  | x :: s' => if existsb (N.eqb x) vs then sre_match code s' (S pos) m else None
  | [] => None
  end.
Proof.
  intros Ho. destruct Ho as [c|c vs Hp Ha|c1 c2 vs1 vs2 Hp1 Ha1 Hp2 Ha2];
    cbn [sre_match]; destruct s as [|x s']; try reflexivity.
  - cbn [existsb]. now rewrite orb_false_r.
  - now rewrite (to_lower_eqb_variants c vs x Hp Ha).
  - rewrite existsb_app. cbn [existsb]. rewrite orb_false_r.
    now rewrite (to_lower_eqb_variants c1 vs1 x Hp1 Ha1), (to_lower_eqb_variants c2 vs2 x Hp2 Ha2).
Qed.

Lemma sre_match_singles ops vss code s pos m :
  Forall2 single ops vss ->
  sre_match (ops ++ code) s pos m =
  match strip_label vss s with
  | Some rest => sre_match code rest (pos + length vss)%nat m
  | None => None
  end.
Proof.
  intros H. revert s pos. induction H as [|o vs ops vss Ho _ IH]; intros s pos.
  - simpl. f_equal. lia.
  - rewrite <- app_comm_cons, (sre_match_single o vs _ s pos m Ho).
    destruct s as [|x s']; [reflexivity|]. cbn [strip_label].
    destruct (existsb (N.eqb x) vs); [|reflexivity].
    rewrite IH. cbn [length]. destruct (strip_label vss s'); [|reflexivity].
    f_equal. lia.
Qed.

Definition label_code : list op := take 15 total_calories_pattern.

Lemma label_code_single : Forall2 single label_code label_variants.
Proof.
  unfold label_code, label_variants, total_calories_pattern. cbn [take].
  repeat (constructor; [first
    [ apply single_literal
    | apply single_ignore; vm_compute; reflexivity
    | apply (single_in 115 383 [115; 83] [383]); vm_compute; reflexivity ] |]).
  constructor.
Qed.

Lemma sre_match_pattern s pos m :
  sre_match total_calories_pattern s pos m =
  match match_at s with
  | Some (i, j) => Some (<[1%nat := (pos + j)%nat]> (<[0%nat := (pos + i)%nat]> m))
  | None => None
  end.
Proof.
  change total_calories_pattern with (label_code ++ tail_code).
  rewrite (sre_match_singles _ _ _ _ _ _ label_code_single).
  unfold match_at. destruct (strip_label label_variants s) as [rest|]; [|reflexivity].
  rewrite sre_match_tail. cbv zeta. change (length label_variants) with 15%nat.
  destruct (_ <? 1)%nat; [reflexivity|].
  rewrite !Nat.add_assoc. reflexivity.
Qed.
Lemma sre_search_pattern s pos :
  sre_search total_calories_pattern s pos =
  match search_at s pos with
  | Some (a, b) => Some (<[1%nat := b]> (<[0%nat := a]> ∅))
  | None => None
  end.
Proof.
  revert pos. induction s as [|c s IH]; intros pos; cbn [sre_search search_at];
    rewrite sre_match_pattern; destruct (match_at _) as [[i j]|]; try reflexivity.
  apply IH.
Qed.

Lemma search_at_first_total s pos pre :
  length pre = pos ->
  match search_at s pos with
  | Some (a, b) => first_total s = Some (take (b - a) (drop a (pre ++ s)))
  | None => first_total s = None
  end.
Proof.
  revert pos pre. induction s as [|c s IH]; intros pos pre Hpre;
    cbn [search_at first_total]; unfold digits_at;
    destruct (match_at _) as [[i j]|] eqn:Hm.
  - subst pos. rewrite drop_app_add'; [|reflexivity].
    f_equal. f_equal. lia.
  - reflexivity.
  - subst pos. rewrite drop_app_add'; [|reflexivity].
    f_equal. f_equal. lia.
  - specialize (IH (S pos) (pre ++ [c])). rewrite <- app_assoc in IH. cbn [app] in IH.
    apply IH. rewrite length_app. simpl. lia.
Qed.

Lemma extract_total_calories_first_total text :
  extract_total_calories text =
  match first_total text with
  | Some ds => py_int (VStr ds)
  | None => Ok (VInt 0)
  end.
Proof.
  unfold extract_total_calories. rewrite sre_search_pattern.
  pose proof (search_at_first_total text 0 [] eq_refl) as H.
  destruct (search_at text 0) as [[a b]|]; rewrite H; [|reflexivity].
  unfold group_1. rewrite lookup_insert_ne by discriminate.
  rewrite !lookup_insert_eq. reflexivity.
Qed.
Lemma strip_label_app vss lab rest :
  Forall2 (fun x vs => In x vs) lab vss -> strip_label vss (lab ++ rest) = Some rest.
Proof.
  intros H. induction H as [|x vs lab vss Hx _ IH]; [reflexivity|].
  cbn [app strip_label].
  replace (existsb (N.eqb x) vs) with true; [exact IH|].
  symmetry. apply existsb_exists. exists x. split; [assumption | apply N.eqb_refl].
Qed.

Lemma strip_label_inv vss s rest :
  strip_label vss s = Some rest ->
  exists lab, s = lab ++ rest /\ Forall2 (fun x vs => In x vs) lab vss.
Proof.
  revert s. induction vss as [|vs vss IH]; intros s; cbn [strip_label].
  - intros [= ->]. exists []. split; [reflexivity | constructor].
  - destruct s as [|x s]; [discriminate|].
    destruct (existsb (N.eqb x) vs) eqn:Hx; [|discriminate].
    intros H. destruct (IH s H) as (lab & -> & Hlab).
    exists (x :: lab). split; [reflexivity|]. constructor; [|assumption].
    apply existsb_exists in Hx as (v & Hv & Hxv). apply N.eqb_eq in Hxv. now subst v.
Qed.

Lemma label_matches_length lab : label_matches lab -> length lab = 15%nat.
Proof. intros H. apply Forall2_length in H. exact H. Qed.

Lemma decimal_not_space d : is_decimal d = true -> is_space d = false.
Proof.
  intros Hd. destruct (is_space d) eqn:Hs; [|reflexivity].
  rewrite (space_not_decimal d Hs) in Hd. discriminate.
Qed.

(** A total announced at the start of [s] is found there, with the digits
    that follow the white space, as many as there are. *)
Lemma match_at_total lab ws ds rest :
  label_matches lab -> all_spaces ws -> all_digits ds -> ds <> [] ->
  no_digit_ahead rest ->
  match_at (lab ++ ws ++ ds ++ rest) =
  Some (15 + length ws, 15 + length ws + length ds)%nat.
Proof.
  intros Hlab Hws Hds Hne Hrest. unfold match_at.
  rewrite (strip_label_app _ _ _ Hlab).
  assert (Hk : count UNI_SPACE (ws ++ ds ++ rest) = length ws).
  { apply count_app; [exact Hws|].
    destruct ds as [|d ds]; [contradiction|]. cbn [app].
    apply decimal_not_space. now inversion Hds. }
  cbv zeta. rewrite Hk, drop_app_length.
  assert (Hn : count UNI_DIGIT (ds ++ rest) = length ds).
  { apply count_app; [exact Hds|]. exact Hrest. }
  rewrite Hn. destruct ds as [|d ds]; [contradiction|]. reflexivity.
Qed.

Lemma match_at_inv s i j :
  match_at s = Some (i, j) ->
  exists lab ws ds rest,
    s = lab ++ ws ++ ds ++ rest /\
    label_matches lab /\ all_spaces ws /\ all_digits ds /\ ds <> [] /\
    no_digit_ahead rest /\
    i = (15 + length ws)%nat /\ j = (i + length ds)%nat.
Proof.
  unfold match_at. destruct (strip_label label_variants s) as [r|] eqn:Hs; [|discriminate].
  apply strip_label_inv in Hs as (lab & -> & Hlab). cbv zeta.
  set (k := count UNI_SPACE r). set (n := count UNI_DIGIT (drop k r)).
  destruct (n <? 1)%nat eqn:Hn; [discriminate|]. intros [= <- <-].
  apply Nat.ltb_ge in Hn.
  exists lab, (take k r), (take n (drop k r)), (drop n (drop k r)).
  pose proof (count_le_length UNI_SPACE r) as Hkl. fold k in Hkl.
  pose proof (count_le_length UNI_DIGIT (drop k r)) as Hnl. fold n in Hnl.
  repeat split.
  - now rewrite !take_drop.
  - exact Hlab.
  - apply (count_take_all UNI_SPACE).
  - apply (count_take_all UNI_DIGIT).
  - intros Hnil. apply (f_equal length) in Hnil. rewrite length_take in Hnil.
    simpl in Hnil. lia.
  - pose proof (count_drop_stop UNI_DIGIT (drop k r)) as Hstop. fold n in Hstop.
    unfold no_digit_ahead. destruct (drop n (drop k r)); assumption.
  - rewrite length_take. lia.
  - rewrite !length_take. lia.
Qed.

Lemma match_at_iff s : (exists p, match_at s = Some p) <-> total_at s.
Proof.
  split.
  - intros [[i j] H]. apply match_at_inv in H
      as (lab & ws & ds & rest & -> & Hlab & Hws & Hds & Hne & _).
    destruct ds as [|d ds]; [contradiction|].
    exists lab, ws, d, (ds ++ rest). repeat split; try assumption. now inversion Hds.
  - intros (lab & ws & d & rest & -> & Hlab & Hws & Hd).
    unfold match_at. rewrite (strip_label_app _ _ _ Hlab). cbv zeta.
    assert (Hk : count UNI_SPACE (ws ++ d :: rest) = length ws).
    { apply count_app; [exact Hws|]. now apply decimal_not_space. }
    rewrite Hk, drop_app_length. cbn [count in_category]. rewrite Hd.
    eexists. reflexivity.
Qed.

Lemma match_at_none s : ~ total_at s -> match_at s = None.
Proof.
  intros H. destruct (match_at s) as [p|] eqn:Hm; [|reflexivity].
  exfalso. apply H, match_at_iff. eauto.
Qed.

Lemma first_total_skip pre s :
  (forall i, (i < length pre)%nat -> ~ total_at (drop i (pre ++ s))) ->
  first_total (pre ++ s) = first_total s.
Proof.
  induction pre as [|c pre IH]; intros Hno; [reflexivity|].
  cbn [app first_total]. unfold digits_at.
  rewrite (match_at_none (c :: pre ++ s)).
  - apply IH. intros i Hi. apply (Hno (S i)). simpl. lia.
  - apply (Hno 0%nat). simpl. lia.
Qed.

Lemma first_total_none s :
  (forall i, ~ total_at (drop i s)) -> first_total s = None.
Proof.
  induction s as [|c s IH]; intros Hno; cbn [first_total]; unfold digits_at.
  - now rewrite (match_at_none [] (Hno 0%nat)).
  - rewrite (match_at_none (c :: s) (Hno 0%nat)). apply IH.
    intros i. apply (Hno (S i)).
Qed.

Lemma first_total_digits s ds :
  first_total s = Some ds -> all_digits ds /\ ds <> [].
Proof.
  induction s as [|c s IH]; cbn [first_total]; unfold digits_at;
    destruct (match_at _) as [[i j]|] eqn:Hm; try discriminate; try exact IH;
    intros [= <-];
    apply match_at_inv in Hm as (lab & ws & d & rest & Hs & Hlab & Hws & Hds & Hne & _ & -> & ->);
    rewrite Hs;
    replace (15 + length ws)%nat with (length lab + length ws)%nat
      by (now rewrite (label_matches_length lab Hlab));
    rewrite <- drop_drop, !drop_app_length,
      (Nat.add_comm _ (length d)), Nat.add_sub, take_app_length; auto.
Qed.
Lemma decimal_value_digits ds acc :
  all_digits ds ->
  decimal_value acc ds =
  Some (fold_left (fun a c => 10 * a + default 0 (to_decimal c)) ds acc).
Proof.
  intros H. revert acc. induction H as [|c ds Hc _ IH]; intros acc; [reflexivity|].
  cbn [decimal_value fold_left]. unfold is_decimal in Hc.
  destruct (to_decimal c) as [d|]; [|discriminate]. apply IH.
Qed.

Lemma py_int_digits ds :
  all_digits ds -> ds <> [] -> (length ds <= int_max_str_digits)%nat ->
  py_int (VStr ds) = Ok (VInt (base10 ds)).
Proof.
  intros Hds Hne Hlen. unfold py_int, base10. destruct ds as [|d ds]; [contradiction|].
  apply Nat.ltb_ge in Hlen. rewrite Hlen.
  now rewrite (decimal_value_digits _ _ Hds).
Qed.

Lemma py_int_too_long ds :
  (int_max_str_digits < length ds)%nat -> py_int (VStr ds) = Raise ValueError.
Proof.
  intros Hlen. unfold py_int. destruct ds as [|d ds]; [reflexivity|].
  apply Nat.ltb_lt in Hlen. now rewrite Hlen.
Qed.

Lemma base10_nonneg ds : (0 <= base10 ds)%Z.
Proof. unfold base10. apply N2Z.is_nonneg. Qed.

(** The first total of the text decides the answer: [int] is applied to
    its digits. *)
Lemma extract_total_calories_at pre lab ws ds rest :
  label_matches lab -> all_spaces ws -> all_digits ds -> ds <> [] ->
  no_digit_ahead rest ->
  (forall i, (i < length pre)%nat ->
     ~ total_at (drop i (pre ++ lab ++ ws ++ ds ++ rest))) ->
  extract_total_calories (pre ++ lab ++ ws ++ ds ++ rest) = py_int (VStr ds).
Proof.
  intros Hlab Hws Hds Hne Hrest Hfirst.
  rewrite extract_total_calories_first_total, (first_total_skip _ _ Hfirst).
  destruct lab as [|x lab]; [inversion Hlab|].
  cbn [app first_total]. change (x :: lab ++ ws ++ ds ++ rest) with ((x :: lab) ++ ws ++ ds ++ rest).
  unfold digits_at. rewrite (match_at_total _ _ _ _ Hlab Hws Hds Hne Hrest).
  replace (15 + length ws)%nat with (length (x :: lab) + length ws)%nat
    by (now rewrite (label_matches_length _ Hlab)).
  now rewrite <- drop_drop, !drop_app_length, (Nat.add_comm _ (length ds)), Nat.add_sub,
    take_app_length.
Qed.

Lemma extract_total_calories_found pre lab ws ds rest :
  label_matches lab -> all_spaces ws -> all_digits ds -> ds <> [] ->
  no_digit_ahead rest ->
  (forall i, (i < length pre)%nat ->
     ~ total_at (drop i (pre ++ lab ++ ws ++ ds ++ rest))) ->
  (length ds <= int_max_str_digits)%nat ->
  extract_total_calories (pre ++ lab ++ ws ++ ds ++ rest) = Ok (VInt (base10 ds)).
Proof.
  intros Hlab Hws Hds Hne Hrest Hfirst Hlen.
  rewrite (extract_total_calories_at _ _ _ _ _ Hlab Hws Hds Hne Hrest Hfirst).
  now apply py_int_digits.
Qed.

Lemma extract_total_calories_too_long pre lab ws ds rest :
  label_matches lab -> all_spaces ws -> all_digits ds ->
  no_digit_ahead rest ->
  (forall i, (i < length pre)%nat ->
     ~ total_at (drop i (pre ++ lab ++ ws ++ ds ++ rest))) ->
  (int_max_str_digits < length ds)%nat ->
  extract_total_calories (pre ++ lab ++ ws ++ ds ++ rest) = Raise ValueError.
Proof.
  intros Hlab Hws Hds Hrest Hfirst Hlen.
  assert (Hne : ds <> []) by (intros ->; cbn in Hlen; lia).
  rewrite (extract_total_calories_at _ _ _ _ _ Hlab Hws Hds Hne Hrest Hfirst).
  now apply py_int_too_long.
Qed.

Lemma extract_total_calories_absent text :
  (forall i, ~ total_at (drop i text)) -> extract_total_calories text = Ok (VInt 0).
Proof.
  intros H. now rewrite extract_total_calories_first_total, (first_total_none _ H).
Qed.

Lemma digits_at_match_at s : digits_at s = None -> match_at s = None.
Proof. unfold digits_at. destruct (match_at s) as [[i j]|]; [discriminate|reflexivity]. Qed.

(** Where the first total of a text stands. *)
Lemma first_total_inv s ds :
  first_total s = Some ds ->
  exists pre lab ws rest,
    s = pre ++ lab ++ ws ++ ds ++ rest /\
    label_matches lab /\ all_spaces ws /\ all_digits ds /\ ds <> [] /\
    no_digit_ahead rest /\
    (forall i, (i < length pre)%nat -> ~ total_at (drop i s)).
Proof.
  induction s as [|x s IH].
  - cbn [first_total]. destruct (digits_at []) as [ds'|] eqn:Hd; [|discriminate].
    intros [= ->]. unfold digits_at in Hd.
    destruct (match_at []) as [[i j]|] eqn:Hm; [|discriminate].
    unfold match_at in Hm. discriminate.
  - cbn [first_total]. destruct (digits_at (x :: s)) as [ds'|] eqn:Hd.
    + intros [= ->]. unfold digits_at in Hd.
      destruct (match_at (x :: s)) as [[i j]|] eqn:Hm; [|discriminate].
      injection Hd as Hd.
      destruct (match_at_inv _ _ _ Hm)
        as (lab & ws & ds' & rest & Hs & Hlab & Hws & Hds & Hne & Hrest & -> & ->).
      assert (Heq : ds = ds').
      { rewrite <- Hd, Hs.
        replace (15 + length ws)%nat with (length lab + length ws)%nat
          by (now rewrite (label_matches_length _ Hlab)).
        now rewrite <- drop_drop, !drop_app_length, (Nat.add_comm _ (length ds')),
          Nat.add_sub, take_app_length. }
      subst ds'. exists [], lab, ws, rest. cbn [app length].
      repeat split; try assumption. intros i Hi. lia.
    + intros Hf. destruct (IH Hf)
        as (pre & lab & ws & rest & -> & Hlab & Hws & Hds & Hne & Hrest & Hfirst).
      exists (x :: pre), lab, ws, rest. repeat split; try assumption.
      intros [|i] Hi.
      * cbn [drop]. intros Ht. apply match_at_iff in Ht as [p Hp].
        rewrite (digits_at_match_at _ Hd) in Hp. discriminate.
      * cbn [drop]. apply Hfirst. cbn [length] in Hi. lia.
Qed.

(** What the extractor answers, text by text. *)
Lemma extract_total_calories_returns text :
  extract_total_calories text =
  match first_total text with
  | Some ds =>
    if (int_max_str_digits <? length ds)%nat then Raise ValueError
    else Ok (VInt (base10 ds))
  | None => Ok (VInt 0)
  end.
Proof.
  rewrite extract_total_calories_first_total.
  destruct (first_total text) as [ds|] eqn:Hf; [|reflexivity].
  apply first_total_digits in Hf as [Hds Hne].
  destruct (int_max_str_digits <? length ds)%nat eqn:Hlen.
  - apply py_int_too_long. now apply Nat.ltb_lt.
  - apply py_int_digits; try assumption. now apply Nat.ltb_ge.
Qed.

Lemma first_total_length s ds :
  first_total s = Some ds -> (15 + length ds <= length s)%nat.
Proof.
  intros Hf. destruct (first_total_inv _ _ Hf)
    as (pre & lab & ws & rest & -> & Hlab & _).
  rewrite !length_app, (label_matches_length _ Hlab). lia.
Qed.

Lemma total_at_head s :
  total_at s -> exists x s', s = x :: s' /\ (x = 116 \/ x = 84).
Proof.
  intros (lab & ws & d & rest & -> & Hlab & _).
  inversion Hlab as [|x vs lab' vss Hx Hrest Hl Hv]; subst.
  exists x, (lab' ++ ws ++ d :: rest). split; [reflexivity|].
  cbn in Hx. intuition congruence.
Qed.

Lemma first_total_after_word w s :
  Forall (fun c => c <> 116 /\ c <> 84) w ->
  first_total (w ++ s) = first_total s.
Proof.
  intros Hw. apply first_total_skip. intros i Hi Ht.
  apply total_at_head in Ht as (x & s' & Hd & Hx).
  rewrite drop_app_le in Hd by lia.
  destruct (drop i w) as [|c r] eqn:Hdw.
  - apply (f_equal length) in Hdw. rewrite length_drop in Hdw. simpl in Hdw. lia.
  - injection Hd as -> _.
    assert (Hin : In x w).
    { rewrite <- (take_drop i w), Hdw. apply in_or_app. right. now left. }
    rewrite Forall_forall in Hw. 
    assert (Hx' : x ∈ w) by (now apply list_elem_of_In).
    destruct (Hw x Hx') as [H1 H2]. destruct Hx; contradiction.
Qed.
(** *** Checking the hypotheses on a given text *)

Lemma label_matches_check lab :
  strip_label label_variants lab = Some [] -> label_matches lab.
Proof.
  intros H. apply strip_label_inv in H as (lab' & -> & H). now rewrite app_nil_r.
Qed.

Lemma no_total_check s : match_at s = None -> ~ total_at s.
Proof. intros H Ht. apply match_at_iff in Ht as [p Hp]. congruence. Qed.

Lemma no_total_before_check text n :
  forallb (fun i => match match_at (drop i text) with None => true | Some _ => false end)
          (seq 0 n) = true ->
  forall i, (i < n)%nat -> ~ total_at (drop i text).
Proof.
  intros H i Hi. rewrite forallb_forall in H.
  specialize (H i ltac:(apply in_seq; lia)).
  apply no_total_check. now destruct (match_at (drop i text)).
Qed.

Lemma all_check (P : N -> bool) (s : text) :
  forallb P s = true -> Forall (fun c => P c = true) s.
Proof.
  induction s as [|c s IH]; cbn [forallb]; intros H; constructor;
    apply andb_prop in H as [H1 H2]; auto.
Qed.
(** ** The calculator *)

Lemma present_true user_data key :
  present user_data key = true <->
  exists v, user_data !! key = Some v /\ v <> VNone.
Proof.
  unfold present. split.
  - destruct (user_data !! key) as [v|]; [|discriminate].
    destruct v; try discriminate; intros _; eexists; (split; [reflexivity | discriminate]).
  - intros (v & -> & Hv). destruct v; try reflexivity. contradiction.
Qed.

Lemma present_false user_data key :
  present user_data key = false <->
  user_data !! key = None \/ user_data !! key = Some VNone.
Proof.
  unfold present. destruct (user_data !! key) as [v|]; [destruct v|];
    split; intros H; try discriminate; try reflexivity; auto;
    destruct H as [H|H]; discriminate.
Qed.

Lemma complete_present user_data :
  forallb (present user_data) required_keys = true <-> complete user_data.
Proof.
  unfold complete. rewrite forallb_forall.
  split; intros H key Hkey; apply present_true, H, Hkey.
Qed.

Lemma incomplete_missing user_data :
  forallb (present user_data) required_keys = false <->
  exists key, In key required_keys /\
    (user_data !! key = None \/ user_data !! key = Some VNone).
Proof.
  split.
  - intros H. induction required_keys as [|key keys IH]; [discriminate|].
    cbn [forallb] in H. apply andb_false_iff in H as [H|H].
    + exists key. split; [now left | now apply present_false].
    + destruct (IH H) as (k & Hk & Hm). exists k. split; [now right | assumption].
  - intros (key & Hkey & Hm). apply present_false in Hm.
    destruct (forallb (present user_data) required_keys) eqn:Hall; [|reflexivity].
    rewrite forallb_forall in Hall. rewrite (Hall key Hkey) in Hm. discriminate.
Qed.

Lemma py_round_2_not_none q v : py_round_2 q = Ok v -> v <> VNone.
Proof.
  destruct q as [|z|f|s]; cbn [py_round_2]; try discriminate.
  - now intros [= <-].
  - destruct (float_value f); now intros [= <-].
Qed.

Lemma imc_not_none user_data v : imc user_data = Ok v -> v <> VNone.
Proof.
  unfold imc. 
  destruct (height_m user_data) as [hm|]; [|discriminate]. cbn [mbind result_bind].
  destruct (getitem user_data (str "weight")) as [w|]; [|discriminate]. cbn [mbind result_bind].
  destruct (py_pow_2 hm) as [sq|]; [|discriminate]. cbn [mbind result_bind].
  destruct (py_truediv w sq) as [q|]; [|discriminate]. cbn [mbind result_bind].
  apply py_round_2_not_none.
Qed.

Lemma incomplete_imc : incomplete !! str "imc" = Some VNone.
Proof. unfold incomplete, dict3. apply lookup_insert_eq. Qed.

Lemma calculate_profile_data_complete user_data r :
  complete user_data ->
  calculate_profile_data user_data = Ok r ->
  exists i b m t c,
    imc user_data = Ok i /\ bmr user_data = Ok b /\ multiplier user_data = Ok m /\
    tdee b m = Ok t /\ imc_recommendation i = Ok c /\
    r = dict3 (str "imc") i (str "tdee") t (str "imc_recommendation") (VStr c).
Proof.
  intros Hc. apply complete_present in Hc. unfold calculate_profile_data. rewrite Hc.
  cbn [negb].
  destruct (imc user_data) as [i|] eqn:Hi; [|discriminate]. cbn [mbind result_bind].
  destruct (bmr user_data) as [b|] eqn:Hb; [|discriminate]. cbn [mbind result_bind].
  destruct (multiplier user_data) as [m|] eqn:Hm; [|discriminate]. cbn [mbind result_bind].
  destruct (tdee b m) as [t|] eqn:Ht; [|discriminate]. cbn [mbind result_bind].
  destruct (imc_recommendation i) as [c|] eqn:Hr; [|discriminate]. cbn [mbind result_bind].
  intros [= <-]. exists i, b, m, t, c. repeat split; assumption.
Qed.

Lemma incomplete_iff_missing (user_data : dict) :
  calculate_profile_data user_data = Ok incomplete <->
  exists key, In key required_keys /\
    (user_data !! key = None \/ user_data !! key = Some VNone).
Proof.
  rewrite <- incomplete_missing. split.
  - intros H. destruct (forallb (present user_data) required_keys) eqn:Hall; [|reflexivity].
    exfalso. apply complete_present in Hall.
    destruct (calculate_profile_data_complete _ _ Hall H)
      as (i & b & m & t & c & Hi & _ & _ & _ & _ & Hr).
    apply (f_equal (fun d : dict => d !! str "imc")) in Hr.
    rewrite incomplete_imc in Hr. unfold dict3 in Hr. rewrite lookup_insert_eq in Hr.
    injection Hr as Hr. symmetry in Hr. revert Hr. now apply (imc_not_none user_data).
  - intros H. unfold calculate_profile_data. now rewrite H.
Qed.
(** *** The category *)

Lemma Qltb_lt p q : Qltb p q = true <-> (p < q)%Q.
Proof. unfold Qltb. rewrite Qlt_alt. destruct (p ?= q)%Q; split; congruence. Qed.

Lemma Qleb_le p q : Qleb p q = true <-> (p <= q)%Q.
Proof. unfold Qleb. rewrite Qle_alt. destruct (p ?= q)%Q; split; congruence. Qed.

Lemma Qltb_ge p q : Qltb p q = false <-> (q <= p)%Q.
Proof.
  rewrite <- not_true_iff_false, Qltb_lt. split; [apply Qnot_lt_le | apply Qle_not_lt].
Qed.

Lemma Qleb_gt p q : Qleb p q = false <-> (q < p)%Q.
Proof.
  rewrite <- not_true_iff_false, Qleb_le. split; [apply Qnot_le_lt | apply Qlt_not_le].
Qed.

Ltac order_case :=
  match goal with
  | |- context [Qltb ?a ?b] =>
    let H := fresh "Hlt" in
    destruct (Qltb a b) eqn:H; [apply Qltb_lt in H | apply Qltb_ge in H]
  | |- context [Qleb ?a ?b] =>
    let H := fresh "Hle" in
    destruct (Qleb a b) eqn:H; [apply Qleb_le in H | apply Qleb_gt in H]
  end.

Lemma py_lt_float_float x y p q :
  float_value x = XFin p -> float_value y = XFin q ->
  py_lt (VFloat x) (VFloat y) = Ok (Qltb p q).
Proof.
  intros Hx Hy. unfold py_lt, py_compare, Qltb. cbn [mbind result_bind].
  rewrite Hx, Hy. cbn [xcompare]. now destruct (p ?= q)%Q.
Qed.

Lemma py_le_float_float x y p q :
  float_value x = XFin p -> float_value y = XFin q ->
  py_le (VFloat x) (VFloat y) = Ok (Qleb p q).
Proof.
  intros Hx Hy. unfold py_le, py_compare, Qleb. cbn [mbind result_bind].
  rewrite Hx, Hy. cbn [xcompare]. now destruct (p ?= q)%Q.
Qed.

Lemma py_lt_float_int x p z :
  float_value x = XFin p ->
  py_lt (VFloat x) (VInt z) = Ok (Qltb p (inject_Z z)).
Proof.
  intros Hx. unfold py_lt, py_compare, Qltb. cbn [mbind result_bind].
  rewrite Hx. cbn [xcompare]. now destruct (p ?= inject_Z z)%Q.
Qed.

Lemma py_le_int_float z y q :
  float_value y = XFin q ->
  py_le (VInt z) (VFloat y) = Ok (Qleb (inject_Z z) q).
Proof.
  intros Hy. unfold py_le, py_compare, Qleb. cbn [mbind result_bind].
  rewrite Hy. cbn [xcompare]. now destruct (inject_Z z ?= q)%Q.
Qed.

Lemma float_value_18_5 :
  exists c, float_value (float_literal 185 1) = XFin c /\ (c == 18.5)%Q.
Proof. eexists. split; [vm_compute; reflexivity | vm_compute; reflexivity]. Qed.

Lemma imc_recommendation_finite i q :
  float_value i = XFin q ->
  ((q < 18.5)%Q -> imc_recommendation (VFloat i) = Ok (str "Bajo peso")) /\
  ((18.5 <= q)%Q /\ (q < 25)%Q -> imc_recommendation (VFloat i) = Ok (str "Peso saludable")) /\
  ((25 <= q)%Q /\ (q < 30)%Q -> imc_recommendation (VFloat i) = Ok (str "Sobrepeso")) /\
  ((30 <= q)%Q -> imc_recommendation (VFloat i) = Ok (str "Obesidad")).
Proof.
  intros Hi. destruct float_value_18_5 as (c & Hc & Hc185).
  unfold imc_recommendation.
  rewrite (py_lt_float_float _ _ _ _ Hi Hc), (py_le_float_float _ _ _ _ Hc Hi),
    !(py_lt_float_int _ _ _ Hi), (py_le_int_float _ _ _ Hi).
  cbn [mbind result_bind].
  change (inject_Z 25) with 25%Q. change (inject_Z 30) with 30%Q.
  repeat (order_case; cbn [mbind result_bind andb]);
  repeat split; intros; try reflexivity; exfalso; lra.
Qed.

Lemma imc_recommendation_infinite i s :
  float_value i = XInf s ->
  imc_recommendation (VFloat i) =
  Ok (if s then str "Bajo peso" else str "Obesidad").
Proof.
  intros Hi. destruct float_value_18_5 as (c & Hc & _).
  unfold imc_recommendation, py_lt, py_le, py_compare. cbn [mbind result_bind].
  rewrite Hi, Hc. destruct s; reflexivity.
Qed.

Lemma imc_recommendation_nan i :
  float_value i = XNaN ->
  imc_recommendation (VFloat i) = Ok (str "Obesidad").
Proof.
  intros Hi. destruct float_value_18_5 as (c & Hc & _).
  unfold imc_recommendation, py_lt, py_le, py_compare. cbn [mbind result_bind].
  rewrite Hi, Hc. reflexivity.
Qed.
(** *** Comparing ignoring case *)

Lemma to_lower_capital x : 65 <= x <= 90 -> to_lower x = x + 32.
Proof.
  intros Hx. unfold to_lower, lowercase_runs. cbn [first_image]. unfold run_image.
  replace ((65 <=? x) && (x <=? 90) && ((x - 65) mod 1 =? 0)) with true.
  - lia.
  - symmetry. rewrite N.mod_1_r. cbn [N.eqb]. rewrite andb_true_r.
    apply andb_true_intro. split; apply N.leb_le; lia.
Qed.

Lemma plain_spec c x :
  plain c = true -> to_lower x = c -> x <> 304 -> same_ignoring_case x c.
Proof.
  unfold plain. intros Hp Hx Hne.
  apply andb_prop in Hp as [_ Hp]. rewrite forallb_forall in Hp.
  apply to_lower_preimage in Hx. specialize (Hp x Hx).
  apply orb_prop in Hp as [Hp|Hp]; [|apply N.eqb_eq in Hp; contradiction].
  apply orb_prop in Hp as [Hp|Hp].
  - left. now apply N.eqb_eq.
  - right. apply andb_prop in Hp as [Hp H3]. apply andb_prop in Hp as [H1 H2].
    apply N.leb_le in H1, H2. apply N.eqb_eq in H3. lia.
Qed.

Lemma plain_lower c x :
  plain c = true -> same_ignoring_case x c ->
  x <> 931 /\ x <> 304 /\ to_lower x = c.
Proof.
  unfold plain. intros Hp Hx.
  apply andb_prop in Hp as [Hp _]. apply andb_prop in Hp as [H1 H2].
  apply N.ltb_lt in H1. apply N.eqb_eq in H2.
  destruct Hx as [->|[Hc Hx]].
  - repeat split; [lia | lia | assumption].
  - repeat split; [lia | lia |]. rewrite to_lower_capital; lia.
Qed.

Lemma lower_from_token t :
  forallb plain t = true ->
  forall s before_rev, lower_from before_rev s = t <-> equal_ignoring_case s t.
Proof.
  intros Ht s. revert t Ht. induction s as [|x s IH]; intros t Ht b.
  - cbn [lower_from]. split.
    + intros <-. constructor.
    + intros H. now inversion H.
  - cbn [lower_from]. unfold lower_at. split.
    + destruct (x =? 931) eqn:H931; [|destruct (x =? 304) eqn:H304].
      * intros <-. cbn [app forallb] in Ht. apply andb_prop in Ht as [Ht _].
        unfold plain in Ht. now destruct (final_sigma b s).
      * intros <-. cbn [app forallb] in Ht. apply andb_prop in Ht as [_ Ht].
        apply andb_prop in Ht as [Ht _]. discriminate.
      * intros <-. cbn [app forallb] in Ht |- *. apply andb_prop in Ht as [Hc Ht].
        apply N.eqb_neq in H304. constructor.
        -- now apply plain_spec.
        -- now apply (IH _ Ht (x :: b)).
    + intros H. inversion H as [|x' c s' t' Hx Hs]; subst.
      cbn [forallb] in Ht. apply andb_prop in Ht as [Hc Ht].
      destruct (plain_lower c x Hc Hx) as (H931 & H304 & Hl).
      apply N.eqb_neq in H931, H304. rewrite H931, H304, Hl. cbn [app]. f_equal.
      now apply IH.
Qed.

Lemma py_lower_token t s :
  forallb plain t = true -> (py_lower s = t <-> equal_ignoring_case s t).
Proof. intros Ht. now apply lower_from_token. Qed.

Lemma text_eqb_eq a b : text_eqb a b = true <-> a = b.
Proof. unfold text_eqb. apply bool_decide_eq_true. Qed.

Lemma text_eqb_neq a b : text_eqb a b = false <-> a <> b.
Proof. unfold text_eqb. apply bool_decide_eq_false. Qed.

Lemma masculino_ignoring_case gender :
  py_eq (VStr (py_lower gender)) (VStr (str "masculino")) = true <->
  equal_ignoring_case gender (str "masculino").
Proof.
  cbn [py_eq]. rewrite text_eqb_eq. apply py_lower_token. vm_compute. reflexivity.
Qed.
(** *** The operators on the values of a well-typed profile *)

Lemma getitem_lookup (d : dict) key v : d !! key = Some v -> getitem d key = Ok v.
Proof. unfold getitem. now intros ->. Qed.

Lemma as_float_int z :
  is_infinite (float_of_Z z) = false -> as_float (VInt z) = Ok (float_of_Z z).
Proof. unfold as_float. now intros ->. Qed.

Lemma py_mul_int_float z f :
  is_infinite (float_of_Z z) = false ->
  py_mul (VInt z) (VFloat f) = Ok (VFloat (float_mul (float_of_Z z) f)).
Proof. intros H. unfold py_mul, float_op. now rewrite (as_float_int z H). Qed.

Lemma py_mul_float_float x y :
  py_mul (VFloat x) (VFloat y) = Ok (VFloat (float_mul x y)).
Proof. reflexivity. Qed.

Lemma py_add_float_float x y :
  py_add (VFloat x) (VFloat y) = Ok (VFloat (float_add x y)).
Proof. reflexivity. Qed.

Lemma py_add_float_int x z :
  is_infinite (float_of_Z z) = false ->
  py_add (VFloat x) (VInt z) = Ok (VFloat (float_add x (float_of_Z z))).
Proof. intros H. unfold py_add, float_op. cbn [as_float mbind result_bind]. now rewrite H. Qed.

Lemma py_sub_float_int x z :
  py_sub (VFloat x) (VInt z) =
  if is_infinite (float_of_Z z) then Raise OverflowError
  else Ok (VFloat (float_sub x (float_of_Z z))).
Proof.
  unfold py_sub, float_op. cbn [as_float mbind result_bind].
  now destruct (is_infinite (float_of_Z z)).
Qed.

Lemma py_truediv_float_100 h :
  py_truediv (VFloat h) (VInt 100) = Ok (VFloat (float_div h (float_of_Z 100))).
Proof. reflexivity. Qed.

Lemma py_truediv_float_float x y :
  py_truediv (VFloat x) (VFloat y) =
  if is_zero y then Raise ZeroDivisionError else Ok (VFloat (float_div x y)).
Proof. reflexivity. Qed.

Lemma mifflin_st_jeor_floats w h a c :
  is_infinite (float_of_Z c) = false ->
  mifflin_st_jeor (VFloat w) (VFloat h) (VInt a) (VInt c) =
  if is_infinite (float_of_Z (5 * a)) then Raise OverflowError
  else Ok (VFloat (mifflin_st_jeor_float w h a c)).
Proof.
  intros Hc. unfold mifflin_st_jeor, mifflin_st_jeor_float.
  rewrite (py_mul_int_float 10 w) by reflexivity. cbn [mbind result_bind].
  rewrite py_mul_float_float. cbn [mbind result_bind].
  rewrite py_add_float_float. cbn [mbind result_bind].
  cbn [py_mul]. cbn [mbind result_bind].
  rewrite py_sub_float_int.
  destruct (is_infinite (float_of_Z (5 * a))); [reflexivity|]. cbn [mbind result_bind].
  now apply py_add_float_int.
Qed.

Lemma bmr_unfold user_data weight height age gender :
  user_data !! str "weight" = Some weight ->
  user_data !! str "height" = Some height ->
  user_data !! str "age" = Some age ->
  user_data !! str "gender" = Some (VStr gender) ->
  bmr user_data =
  if py_eq (VStr (py_lower gender)) (VStr (str "masculino"))
  then mifflin_st_jeor weight height age (VInt 5)
  else mifflin_st_jeor weight height age (VInt (-161)).
Proof.
  intros Hw Hh Ha Hg. unfold bmr.
  rewrite (getitem_lookup _ _ _ Hg). cbn [mbind result_bind lower].
  rewrite (getitem_lookup _ _ _ Hw). cbn [mbind result_bind].
  rewrite (getitem_lookup _ _ _ Hh). cbn [mbind result_bind].
  rewrite (getitem_lookup _ _ _ Ha). cbn [mbind result_bind].
  reflexivity.
Qed.

Lemma height_m_float user_data h :
  user_data !! str "height" = Some (VFloat h) ->
  height_m user_data = Ok (VFloat (float_div h (float_of_Z 100))).
Proof.
  intros Hh. unfold height_m. rewrite (getitem_lookup _ _ _ Hh).
  cbn [mbind result_bind]. apply py_truediv_float_100.
Qed.

Lemma py_pow_2_float x v :
  py_pow_2 (VFloat x) = Ok v -> exists sq, v = VFloat sq.
Proof.
  cbn [py_pow_2]. destruct x; try (intros [= <-]; eauto).
  destruct (is_infinite _); [discriminate|]. intros [= <-]. eauto.
Qed.

Lemma py_round_2_float f : exists i, py_round_2 (VFloat f) = Ok (VFloat i).
Proof. cbn [py_round_2]. destruct (float_value f); eauto. Qed.

Lemma imc_float user_data w h sq :
  user_data !! str "weight" = Some (VFloat w) ->
  user_data !! str "height" = Some (VFloat h) ->
  py_pow_2 (VFloat (float_div h (float_of_Z 100))) = Ok (VFloat sq) ->
  imc user_data =
  if is_zero sq then Raise ZeroDivisionError
  else py_round_2 (VFloat (float_div w sq)).
Proof.
  intros Hw Hh Hsq. unfold imc. rewrite (height_m_float _ _ Hh). cbn [mbind result_bind].
  rewrite (getitem_lookup _ _ _ Hw). cbn [mbind result_bind].
  rewrite Hsq. cbn [mbind result_bind]. rewrite py_truediv_float_float.
  now destruct (is_zero sq).
Qed.
(** *** The activity multiplier and the rounding of the expenditure *)

Lemma dict_get_activity key :
  dict_get activity_multipliers key (VFloat (float_literal 12 1)) =
  VFloat (multiplier_of key).
Proof.
  unfold dict_get, activity_multipliers, multiplier_of, text_eqb.
  repeat (rewrite lookup_insert; case_decide;
          [ subst key; rewrite bool_decide_eq_true_2 by reflexivity; reflexivity
          | rewrite (bool_decide_eq_false_2 (key = _)) by congruence ]).
  now rewrite lookup_empty.
Qed.

Lemma multiplier_table user_data level :
  user_data !! str "activity_level" = Some (VStr level) ->
  multiplier user_data = Ok (VFloat (multiplier_of (py_lower level))).
Proof.
  intros Hl. unfold multiplier. rewrite (getitem_lookup _ _ _ Hl).
  cbn [mbind result_bind lower]. now rewrite dict_get_activity.
Qed.

Lemma multiplier_of_fallback key :
  ~ In key activity_levels -> multiplier_of key = float_literal 12 1.
Proof.
  intros Hk. unfold multiplier_of.
  repeat match goal with
  | |- context [text_eqb key ?k] =>
    destruct (text_eqb key k) eqn:He;
    [ apply text_eqb_eq in He; exfalso; apply Hk; subst key; cbn; tauto | clear He ]
  end.
  reflexivity.
Qed.

Lemma activity_level_ignoring_case level key :
  In key activity_levels ->
  (py_lower level = key <-> equal_ignoring_case level key).
Proof.
  intros Hk. apply py_lower_token.
  cbn in Hk. repeat destruct Hk as [<-|Hk]; try contradiction; vm_compute; reflexivity.
Qed.

Lemma round_half_even_nearest n d :
  (0 < d)%Z -> (2 * Z.abs (round_half_even n d * d - n) <= d)%Z.
Proof.
  intros Hd. unfold round_half_even.
  pose proof (Z.div_mod n d ltac:(lia)) as Hdm.
  pose proof (Z.mod_pos_bound n d Hd) as Hm.
  set (q := (n / d)%Z) in *. set (r := (n mod d)%Z) in *.
  destruct (Z.compare_spec (2 * r) d) as [He|Hl|Hg]; [destruct (Z.even q)| |]; nia.
Qed.

Lemma Qround_half_even_nearest q :
  (Qabs (inject_Z (Qround_half_even q) - q) <= 1 # 2)%Q.
Proof.
  destruct q as [n d]. unfold Qround_half_even. cbn [Qnum Qden].
  pose proof (round_half_even_nearest n (Zpos d) ltac:(lia)) as H.
  set (r := round_half_even n (Zpos d)) in *.
  unfold Qle, Qabs, Qminus, Qplus, Qopp, inject_Z. cbn [Qnum Qden].
  rewrite Pos.mul_1_l. replace (r * Zpos d + - n * 1)%Z with (r * Zpos d - n)%Z by lia.
  lia.
Qed.

Lemma tdee_floats b m :
  tdee (VFloat b) (VFloat m) =
  match float_value (float_mul b m) with
  | XNaN => Raise ValueError
  | XInf _ => Raise OverflowError
  | XFin q => Ok (VInt (Qround_half_even q))
  end.
Proof. unfold tdee. rewrite py_mul_float_float. reflexivity. Qed.
(** *** The outcome on a well-typed profile *)

Ltac in_list := repeat first [left; reflexivity | right].

Lemma imc_recommendation_total i :
  exists c, imc_recommendation (VFloat i) = Ok c /\ In c categories.
Proof.
  destruct (float_value i) as [|s|q] eqn:Hi.
  - exists (str "Obesidad"). split; [now apply imc_recommendation_nan | in_list].
  - exists (if s then str "Bajo peso" else str "Obesidad").
    split; [now apply imc_recommendation_infinite | destruct s; in_list].
  - destruct (imc_recommendation_finite i q Hi) as (H1 & H2 & H3 & H4).
    destruct (Qlt_le_dec q 18.5) as [Ha|Ha];
      [|destruct (Qlt_le_dec q 25) as [Hb|Hb];
        [|destruct (Qlt_le_dec q 30) as [Hc|Hc]]].
    + eexists. split; [now apply H1 | in_list].
    + eexists. split; [now apply H2 | in_list].
    + eexists. split; [now apply H3 | in_list].
    + eexists. split; [now apply H4 | in_list].
Qed.

Lemma typed_complete user_data w h a gender level :
  typed user_data w h a gender level ->
  forallb (present user_data) required_keys = true.
Proof.
  intros (Hw & Hh & Ha & Hg & Hl). unfold required_keys. cbn [forallb]. unfold present.
  now rewrite Hw, Hh, Ha, Hg, Hl.
Qed.

Lemma bmr_typed user_data w h a gender level :
  typed user_data w h a gender level ->
  bmr user_data =
  if is_infinite (float_of_Z (5 * a)) then Raise OverflowError
  else Ok (VFloat (mifflin_st_jeor_float w h a (offset_of gender))).
Proof.
  intros (Hw & Hh & Ha & Hg & Hl). rewrite (bmr_unfold _ _ _ _ _ Hw Hh Ha Hg).
  unfold offset_of. cbn [py_eq].
  destruct (text_eqb (py_lower gender) (str "masculino"));
    now apply mifflin_st_jeor_floats.
Qed.

Lemma calculate_profile_data_typed user_data w h a gender level sq :
  typed user_data w h a gender level ->
  py_pow_2 (VFloat (float_div h (float_of_Z 100))) = Ok (VFloat sq) ->
  calculate_profile_data user_data =
  if is_zero sq then Raise ZeroDivisionError
  else
    i ← py_round_2 (VFloat (float_div w sq));
    if is_infinite (float_of_Z (5 * a)) then Raise OverflowError
    else
      t ← tdee (VFloat (mifflin_st_jeor_float w h a (offset_of gender)))
               (VFloat (multiplier_of (py_lower level)));
      r ← imc_recommendation i;
      Ok (dict3 (str "imc") i (str "tdee") t (str "imc_recommendation") (VStr r)).
Proof.
  intros Ht Hsq. unfold calculate_profile_data.
  rewrite (typed_complete _ _ _ _ _ _ Ht). cbn [negb].
  rewrite (bmr_typed _ _ _ _ _ _ Ht).
  destruct Ht as (Hw & Hh & Ha & Hg & Hl).
  rewrite (imc_float _ _ _ _ Hw Hh Hsq), (multiplier_table _ _ Hl).
  destruct (is_zero sq); [reflexivity|].
  destruct (py_round_2 (VFloat (float_div w sq))) as [i|e]; [|reflexivity].
  cbn [mbind result_bind].
  destruct (is_infinite (float_of_Z (5 * a))); reflexivity.
Qed.
Lemma equal_ignoring_case_check s t :
  forallb plain t = true -> text_eqb (py_lower s) t = true -> equal_ignoring_case s t.
Proof. intros Ht H. apply (py_lower_token t s Ht). now apply text_eqb_eq. Qed.

Lemma not_equal_ignoring_case_check s t :
  forallb plain t = true -> text_eqb (py_lower s) t = false -> ~ equal_ignoring_case s t.
Proof.
  intros Ht H He. apply (py_lower_token t s Ht) in He. apply text_eqb_neq in H. contradiction.
Qed.

Lemma offset_of_masculino gender :
  (equal_ignoring_case gender (str "masculino") -> offset_of gender = 5%Z) /\
  (~ equal_ignoring_case gender (str "masculino") -> offset_of gender = (-161)%Z).
Proof.
  unfold offset_of.
  assert (Hp : forallb plain (str "masculino") = true) by (vm_compute; reflexivity).
  destruct (text_eqb (py_lower gender) (str "masculino")) eqn:He.
  - split; [reflexivity|]. intros Hn. exfalso. apply Hn.
    now apply equal_ignoring_case_check.
  - split; [|reflexivity]. intros Hy. exfalso.
    now apply (not_equal_ignoring_case_check gender (str "masculino") Hp He).
Qed.

Lemma typed_profile w h a gender level :
  typed (profile (VFloat w) (VFloat h) (VInt a) (VStr gender) (VStr level)) w h a gender level.
Proof.
  unfold typed, profile.
  repeat split;
    repeat (rewrite lookup_insert_ne by (vm_compute; discriminate));
    apply lookup_insert_eq.
Qed.

Lemma metrics_lookup i t c :
  metrics i t c !! str "imc" = Some i /\
  metrics i t c !! str "tdee" = Some t /\
  metrics i t c !! str "imc_recommendation" = Some (VStr c).
Proof.
  unfold metrics, dict3.
  repeat split;
    repeat (rewrite lookup_insert_ne by (vm_compute; discriminate));
    apply lookup_insert_eq.
Qed.
Lemma py_truediv_is_float a b v : py_truediv a b = Ok v -> exists f, v = VFloat f.
Proof.
  unfold py_truediv. destruct a as [|x|x|s], b as [|y|y|t]; try discriminate.
  - destruct (y =? 0)%Z; [discriminate|]. destruct (is_infinite _); [discriminate|].
    intros [= <-]. eauto.
  - destruct (as_float (VInt x)) as [x'|]; [|discriminate]. cbn [mbind result_bind as_float].
    destruct (is_zero y); [discriminate|]. intros [= <-]. eauto.
  - cbn [mbind result_bind as_float]. destruct (is_infinite (float_of_Z y)); [discriminate|].
    cbn [mbind result_bind]. destruct (is_zero _); [discriminate|]. intros [= <-]. eauto.
  - cbn [mbind result_bind as_float]. destruct (is_zero y); [discriminate|].
    intros [= <-]. eauto.
Qed.

Lemma imc_is_float user_data i : imc user_data = Ok i -> exists f, i = VFloat f.
Proof.
  unfold imc.
  destruct (height_m user_data) as [hm|]; [|discriminate]. cbn [mbind result_bind].
  destruct (getitem user_data (str "weight")) as [w|]; [|discriminate]. cbn [mbind result_bind].
  destruct (py_pow_2 hm) as [sq|]; [|discriminate]. cbn [mbind result_bind].
  destruct (py_truediv w sq) as [q|] eqn:Hq; [|discriminate]. cbn [mbind result_bind].
  apply py_truediv_is_float in Hq as [f ->].
  destruct (py_round_2_float f) as [i' Hi]. rewrite Hi. intros [= <-]. eauto.
Qed.
(** * The claims *)

(** ** Incomplete profiles *)

(** C1.  [calculate_profile_data] answers with the incompleteness
    sentinel, whose [imc] and [tdee] are [None] and whose recommendation
    reads "Completa tu perfil", if and only if one of the five attributes
    weight, height, age, gender, activity level is missing or [None]: a
    profile that has all five never gets the sentinel, a profile that lacks
    one always does. *)
Theorem incomplete_sentinel_iff_attribute_missing (user_data : dict) :
  (incomplete !! str "imc" = Some VNone /\
   incomplete !! str "tdee" = Some VNone /\
   incomplete !! str "imc_recommendation" = Some (VStr (str "Completa tu perfil"))) /\
  (calculate_profile_data user_data = Ok incomplete <->
   exists key, In key required_keys /\
     (user_data !! key = None \/ user_data !! key = Some VNone)) /\
  (complete user_data <-> calculate_profile_data user_data <> Ok incomplete).
Proof.
  split; [|split].
  - repeat split; vm_compute; reflexivity.
  - apply incomplete_iff_missing.
  - rewrite incomplete_iff_missing, <- incomplete_missing, <- complete_present.
    destruct (forallb (present user_data) required_keys); split; congruence.
Qed.

(** ** The calorie extractor *)

(** C2.  [extract_total_calories] searches the text from the left for the
    label "Total Calorías:", case ignored, followed by any white space and
    at least one decimal digit.  It returns 0 when the text has no such
    place; it returns the digits of the first such place read as an
    integer when they are at most 4300, the most [int] converts; a longer
    run makes [int] raise [ValueError].  So "Total Calorías: 450" with a
    line break gives 450, "no mention here" gives 0 and
    "totaL calorías:   12 kcal" gives 12. *)
Theorem extract_total_calories_first_match :
  (forall text, (forall i, ~ total_at (drop i text)) ->
     extract_total_calories text = Ok (VInt 0)) /\
  (forall pre lab ws ds rest,
     label_matches lab -> all_spaces ws -> all_digits ds -> ds <> [] ->
     no_digit_ahead rest ->
     (forall i, (i < length pre)%nat ->
        ~ total_at (drop i (pre ++ lab ++ ws ++ ds ++ rest))) ->
     ((length ds <= 4300)%nat ->
        extract_total_calories (pre ++ lab ++ ws ++ ds ++ rest) = Ok (VInt (base10 ds))) /\
     ((4300 < length ds)%nat ->
        extract_total_calories (pre ++ lab ++ ws ++ ds ++ rest) = Raise ValueError)) /\
  extract_total_calories (str "Total Calorías: 450" ++ [10]) = Ok (VInt 450) /\
  extract_total_calories (str "no mention here") = Ok (VInt 0) /\
  extract_total_calories (str "totaL calorías:   12 kcal") = Ok (VInt 12).
Proof.
  split; [|split; [|split; [|split]]].
  - apply extract_total_calories_absent.
  - intros pre lab ws ds rest Hlab Hws Hds Hne Hrest Hfirst. split; intros Hlen.
    + now apply extract_total_calories_found.
    + now apply extract_total_calories_too_long.
  - vm_compute. reflexivity.
  - vm_compute. reflexivity.
  - vm_compute. reflexivity.
Qed.

Lemma extract_total_calories_first_match_witness :
  extract_total_calories
    (str "Resumen" ++ [10] ++ str "TOTAL CALORÍAS:" ++ [32; 9] ++ str "450" ++ str " kcal")
  = Ok (VInt 450).
Proof.
  apply (proj1 (proj2 extract_total_calories_first_match)
           (str "Resumen" ++ [10]) (str "TOTAL CALORÍAS:") [32; 9] (str "450") (str " kcal")).
  - apply label_matches_check. vm_compute. reflexivity.
  - apply all_check. vm_compute. reflexivity.
  - apply all_check. vm_compute. reflexivity.
  - vm_compute. discriminate.
  - vm_compute. reflexivity.
  - apply no_total_before_check. vm_compute. reflexivity.
  - apply Nat.leb_le. vm_compute. reflexivity.
Defined.

(** The digits of a total are not always returned as an integer: on the
    label followed by 4301 digits the extractor raises. *)
Lemma long_total_not_parsed :
  all_digits (repeat 49 4301) /\
  long_total = str "Total Calorías: " ++ repeat 49 4301 /\
  extract_total_calories long_total = Raise ValueError /\
  extract_total_calories long_total <> Ok (VInt (base10 (repeat 49 4301))).
Proof.
  assert (He : extract_total_calories long_total = Raise ValueError)
    by (vm_compute; reflexivity).
  split; [|split; [|split]].
  - apply all_check. vm_compute. reflexivity.
  - reflexivity.
  - exact He.
  - rewrite He. discriminate.
Qed.

(** C8.  [extract_total_calories] returns a non-negative integer, 0 when
    the text announces no total, on every text but those whose first total
    has more than 4300 digits, leading zeros counted: there [int] raises
    [ValueError], and nothing else is ever raised.  A text of at most 4315
    code points is too short for that. *)
Theorem extract_total_calories_never_raises (text : text) :
  ((exists n, extract_total_calories text = Ok (VInt n) /\ (0 <= n)%Z) \/
   (extract_total_calories text = Raise ValueError /\
    exists pre lab ws ds rest,
      text = pre ++ lab ++ ws ++ ds ++ rest /\
      label_matches lab /\ all_spaces ws /\ all_digits ds /\ no_digit_ahead rest /\
      (forall i, (i < length pre)%nat -> ~ total_at (drop i text)) /\
      (4300 < length ds)%nat)) /\
  ((forall i, ~ total_at (drop i text)) -> extract_total_calories text = Ok (VInt 0)) /\
  ((length text <= 4315)%nat ->
   exists n, extract_total_calories text = Ok (VInt n) /\ (0 <= n)%Z).
Proof.
  split; [|split].
  - rewrite extract_total_calories_returns.
    destruct (first_total text) as [ds|] eqn:Hf.
    + destruct (int_max_str_digits <? length ds)%nat eqn:Hlen.
      * right. split; [reflexivity|]. apply Nat.ltb_lt in Hlen.
        destruct (first_total_inv _ _ Hf)
          as (pre & lab & ws & rest & Hs & Hlab & Hws & Hds & _ & Hrest & Hfirst).
        exists pre, lab, ws, ds, rest. repeat split; assumption.
      * left. exists (base10 ds). split; [reflexivity | apply base10_nonneg].
    + left. exists 0%Z. split; [reflexivity | lia].
  - apply extract_total_calories_absent.
  - intros Hlen. rewrite extract_total_calories_returns.
    destruct (first_total text) as [ds|] eqn:Hf.
    + apply first_total_length in Hf.
      replace (int_max_str_digits <? length ds)%nat with false
        by (symmetry; apply Nat.ltb_ge; unfold int_max_str_digits; lia).
      exists (base10 ds). split; [reflexivity | apply base10_nonneg].
    + exists 0%Z. split; [reflexivity | lia].
Qed.

(** A zero written with 4301 digits is not returned as 0: the extractor
    raises on it. *)
Lemma padded_zero_total_raises :
  padded_zero_total = str "Total Calorías:" ++ repeat 48 4301 /\
  extract_total_calories padded_zero_total = Raise ValueError /\
  ~ (exists n, extract_total_calories padded_zero_total = Ok (VInt n) /\ (0 <= n)%Z).
Proof.
  assert (He : extract_total_calories padded_zero_total = Raise ValueError)
    by (vm_compute; reflexivity).
  split; [reflexivity|]. split; [exact He|].
  intros (n & Hn & _). rewrite He in Hn. discriminate.
Qed.

(** C10.  The label is looked for anywhere, not at the start of a word or
    of a line: when it is the tail of a longer word, as in
    "Subtotal Calorías: 99", the number after it is returned, here 99 and
    not 0.  Any letters but t before the label do as "Sub" does. *)
Theorem extract_total_calories_inside_a_word (w : text) :
  Forall (fun c => c <> 116 /\ c <> 84) w ->
  extract_total_calories (w ++ str "total Calorías: 99") = Ok (VInt 99).
Proof.
  intros Hw. rewrite extract_total_calories_first_total, (first_total_after_word _ _ Hw).
  vm_compute. reflexivity.
Qed.

Lemma extract_total_calories_inside_a_word_witness :
  extract_total_calories (str "Subtotal Calorías: 99") = Ok (VInt 99).
Proof.
  apply (extract_total_calories_inside_a_word (str "Sub")).
  repeat constructor; vm_compute; discriminate.
Defined.
(** ** The health metrics calculator *)

(** C3.  On a complete profile the basal metabolic rate is the
    Mifflin-St Jeor estimate, the branch chosen by comparing the gender
    with the single token "masculino", case ignored:
    [10 * weight + 6.25 * height - 5 * age + 5] when it matches, and
    [10 * weight + 6.25 * height - 5 * age - 161] for every other gender,
    recognised or not. *)
Theorem bmr_mifflin_st_jeor (user_data : dict) (w h : float) (a : Z) (gender level : text) :
  typed user_data w h a gender level ->
  is_infinite (float_of_Z (5 * a)) = false ->
  (equal_ignoring_case gender (str "masculino") ->
     bmr user_data = Ok (VFloat (mifflin_st_jeor_float w h a 5))) /\
  (~ equal_ignoring_case gender (str "masculino") ->
     bmr user_data = Ok (VFloat (mifflin_st_jeor_float w h a (-161)))).
Proof.
  intros Ht Ha. rewrite (bmr_typed _ _ _ _ _ _ Ht), Ha.
  destruct (offset_of_masculino gender) as [Hy Hn].
  split; intros Hg; [rewrite (Hy Hg) | rewrite (Hn Hg)]; reflexivity.
Qed.

Lemma bmr_mifflin_st_jeor_witness :
  bmr male_scenario = Ok (VFloat (float_literal 164875 2)) /\
  bmr female_scenario = Ok (VFloat (float_literal 148275 2)).
Proof.
  assert (Hp : forallb plain (str "masculino") = true) by (vm_compute; reflexivity).
  split.
  - apply (proj1 (bmr_mifflin_st_jeor male_scenario (float_of_Z 70) (float_of_Z 175) 30
                    (str "Masculino") (str "moderado")
                    (typed_profile _ _ _ _ _) eq_refl)).
    apply equal_ignoring_case_check; [exact Hp | vm_compute; reflexivity].
  - apply (proj2 (bmr_mifflin_st_jeor female_scenario (float_of_Z 70) (float_of_Z 175) 30
                    (str "Femenino") (str "sedentario")
                    (typed_profile _ _ _ _ _) eq_refl)).
    apply not_equal_ignoring_case_check; [exact Hp | vm_compute; reflexivity].
Defined.
(** C4.  On a complete profile the activity multiplier is looked up, case
    ignored, in the table sedentario 1.2, ligero 1.375, moderado 1.55,
    activo 1.725, muy activo 1.9; a level that is not in the table gets
    1.2 and raises nothing; and the expenditure is the product of the
    basal rate and the multiplier rounded to the nearest integer. *)
Theorem tdee_from_activity_multiplier (user_data : dict) (w h : float) (a : Z)
    (gender level : text) :
  typed user_data w h a gender level ->
  multiplier user_data = Ok (VFloat (multiplier_of (py_lower level))) /\
  (multiplier_of (str "sedentario") = float_literal 12 1 /\
   multiplier_of (str "ligero") = float_literal 1375 3 /\
   multiplier_of (str "moderado") = float_literal 155 2 /\
   multiplier_of (str "activo") = float_literal 1725 3 /\
   multiplier_of (str "muy activo") = float_literal 19 1) /\
  (forall key, In key activity_levels ->
     (py_lower level = key <-> equal_ignoring_case level key)) /\
  ((forall key, In key activity_levels -> ~ equal_ignoring_case level key) ->
     multiplier user_data = Ok (VFloat (float_literal 12 1))) /\
  (forall b m q, float_value (float_mul b m) = XFin q ->
     tdee (VFloat b) (VFloat m) = Ok (VInt (Qround_half_even q)) /\
     (Qabs (inject_Z (Qround_half_even q) - q) <= 1 # 2)%Q) /\
  (forall r, calculate_profile_data user_data = Ok r ->
     exists q,
       float_value (float_mul (mifflin_st_jeor_float w h a (offset_of gender))
                              (multiplier_of (py_lower level))) = XFin q /\
       r !! str "tdee" = Some (VInt (Qround_half_even q))).
Proof.
  intros Ht. pose proof Ht as (Hw & Hh & Ha & Hg & Hl).
  split; [|split; [|split; [|split; [|split]]]].
  - now apply multiplier_table.
  - repeat split; vm_compute; reflexivity.
  - intros key Hkey. now apply activity_level_ignoring_case.
  - intros Hno. rewrite (multiplier_table _ _ Hl). do 2 f_equal.
    apply multiplier_of_fallback. intros Hin.
    apply (Hno _ Hin). now apply activity_level_ignoring_case.
  - intros b m q Hq. split; [|apply Qround_half_even_nearest].
    now rewrite tdee_floats, Hq.
  - intros r Hr.
    assert (Hc : complete user_data)
      by (apply complete_present; exact (typed_complete _ _ _ _ _ _ Ht)).
    destruct (calculate_profile_data_complete _ _ Hc Hr)
      as (i & b & m & t & c & _ & Hb & Hm & Htd & _ & ->).
    rewrite (bmr_typed _ _ _ _ _ _ Ht) in Hb.
    destruct (is_infinite (float_of_Z (5 * a))); [discriminate|].
    injection Hb as <-. rewrite (multiplier_table _ _ Hl) in Hm. injection Hm as <-.
    rewrite tdee_floats in Htd.
    destruct (float_value _) as [| |q]; try discriminate. injection Htd as <-.
    exists q. split; [reflexivity|]. apply (metrics_lookup i _ c).
Qed.

Lemma tdee_from_activity_multiplier_witness :
  multiplier male_scenario = Ok (VFloat (float_literal 155 2)) /\
  tdee (VFloat (float_literal 164875 2)) (VFloat (float_literal 155 2)) = Ok (VInt 2556) /\
  multiplier (profile (VFloat (float_of_Z 70)) (VFloat (float_of_Z 175)) (VInt 30)
                      (VStr (str "Masculino")) (VStr (str "flying")))
  = Ok (VFloat (float_literal 12 1)).
Proof.
  split; [|split].
  - exact (proj1 (tdee_from_activity_multiplier male_scenario _ _ _ _ _
                    (typed_profile _ _ _ _ _))).
  - refine (proj1 (proj1 (proj2 (proj2 (proj2 (proj2
              (tdee_from_activity_multiplier male_scenario _ _ _ _ _
                 (typed_profile _ _ _ _ _))))))
              (float_literal 164875 2) (float_literal 155 2)
              (Qmake 5619741368516608 2199023255552) _)).
    vm_compute. reflexivity.
  - apply (proj1 (proj2 (proj2 (proj2
              (tdee_from_activity_multiplier _ _ _ _ _ _ (typed_profile _ _ _ _ _)))))).
    intros key Hkey.
    apply not_equal_ignoring_case_check;
      repeat destruct Hkey as [<-|Hkey]; try contradiction; vm_compute; reflexivity.
Defined.

Lemma male_scenario_values :
  calculate_profile_data male_scenario =
    Ok (metrics (VFloat (float_literal 2286 2)) (VInt 2556) (str "Peso saludable")) /\
  bmr male_scenario = Ok (VFloat (float_literal 164875 2)) /\
  multiplier male_scenario = Ok (VFloat (float_literal 155 2)).
Proof. split; [|split]; vm_compute; reflexivity. Qed.

(** C6.  For 70 kg, 175 cm, 30 years, gender "Masculino" and activity
    "moderado" the calculator answers with a body mass index of 22.86, the
    category "Peso saludable" and an expenditure of 2556: the basal rate
    is [10 * 70 + 6.25 * 175 - 5 * 30 + 5 = 1648.75], and 1648.75 times
    1.55 rounds to 2556.  The figures 1683.75 and 2610 are not what the
    formula gives. *)
Theorem male_scenario_metrics :
  calculate_profile_data male_scenario =
    Ok (metrics (VFloat (float_literal 2286 2)) (VInt 2556) (str "Peso saludable")) /\
  bmr male_scenario = Ok (VFloat (float_literal 164875 2)) /\
  has_value (float_literal 164875 2) (10 * 70 + 6.25 * 175 - 5 * 30 + 5) /\
  has_value (float_literal 164875 2) 1648.75 /\
  multiplier male_scenario = Ok (VFloat (float_literal 155 2)) /\
  tdee (VFloat (float_literal 164875 2)) (VFloat (float_literal 155 2)) = Ok (VInt 2556) /\
  calculate_profile_data
    (profile (VInt 70) (VInt 175) (VInt 30) (VStr (str "Masculino")) (VStr (str "moderado")))
  = Ok (metrics (VFloat (float_literal 2286 2)) (VInt 2556) (str "Peso saludable")).
Proof.
  split; [|split; [|split; [|split; [|split; [|split]]]]]; vm_compute; reflexivity.
Qed.

Lemma male_scenario_not_2610 :
  bmr male_scenario <> Ok (VFloat (float_literal 168375 2)) /\
  calculate_profile_data male_scenario <>
    Ok (metrics (VFloat (float_literal 2286 2)) (VInt 2610) (str "Peso saludable")).
Proof.
  split.
  - rewrite (proj1 (proj2 male_scenario_values)). vm_compute. discriminate.
  - rewrite (proj1 male_scenario_values). intros H.
    apply (f_equal (fun r => match r with Ok d => d !! str "tdee" | Raise _ => None end)) in H.
    rewrite !(proj1 (proj2 (metrics_lookup _ _ _))) in H. discriminate.
Qed.

Lemma female_scenario_values :
  calculate_profile_data female_scenario =
    Ok (metrics (VFloat (float_literal 2286 2)) (VInt 1779) (str "Peso saludable")) /\
  bmr female_scenario = Ok (VFloat (float_literal 148275 2)) /\
  multiplier female_scenario = Ok (VFloat (float_literal 12 1)).
Proof. split; [|split]; vm_compute; reflexivity. Qed.

(** C7.  For the same weight, height and age with gender "Femenino" and
    activity "sedentario" the basal rate is
    [10 * 70 + 6.25 * 175 - 5 * 30 - 161 = 1482.75] and the expenditure
    returned is 1482.75 times 1.2 rounded, 1779.  The figures 1517.75 and
    1821 are not what the formula gives. *)
Theorem female_scenario_metrics :
  bmr female_scenario = Ok (VFloat (float_literal 148275 2)) /\
  has_value (float_literal 148275 2) (10 * 70 + 6.25 * 175 - 5 * 30 - 161) /\
  has_value (float_literal 148275 2) 1482.75 /\
  multiplier female_scenario = Ok (VFloat (float_literal 12 1)) /\
  tdee (VFloat (float_literal 148275 2)) (VFloat (float_literal 12 1)) = Ok (VInt 1779) /\
  calculate_profile_data female_scenario =
    Ok (metrics (VFloat (float_literal 2286 2)) (VInt 1779) (str "Peso saludable")) /\
  calculate_profile_data
    (profile (VInt 70) (VInt 175) (VInt 30) (VStr (str "Femenino")) (VStr (str "sedentario")))
  = Ok (metrics (VFloat (float_literal 2286 2)) (VInt 1779) (str "Peso saludable")).
Proof.
  split; [|split; [|split; [|split; [|split; [|split]]]]]; vm_compute; reflexivity.
Qed.

Lemma female_scenario_not_1821 :
  bmr female_scenario <> Ok (VFloat (float_literal 151775 2)) /\
  calculate_profile_data female_scenario <>
    Ok (metrics (VFloat (float_literal 2286 2)) (VInt 1821) (str "Peso saludable")).
Proof.
  split.
  - rewrite (proj1 (proj2 female_scenario_values)). vm_compute. discriminate.
  - rewrite (proj1 female_scenario_values). intros H.
    apply (f_equal (fun r => match r with Ok d => d !! str "tdee" | Raise _ => None end)) in H.
    rewrite !(proj1 (proj2 (metrics_lookup _ _ _))) in H. discriminate.
Qed.

(** ** Errors *)

Lemma zero_height_raises :
  forallb (present zero_height_profile) required_keys = true /\
  calculate_profile_data zero_height_profile = Raise ZeroDivisionError.
Proof. split; vm_compute; reflexivity. Qed.

Lemma float_div_zero_100 h :
  is_zero h = true -> is_zero (float_div h (float_of_Z 100)) = true.
Proof. destruct h; try discriminate. reflexivity. Qed.

Lemma py_pow_2_zero x :
  is_zero x = true -> py_pow_2 (VFloat x) = Ok (VFloat (S754_zero false)).
Proof. destruct x; try discriminate. reflexivity. Qed.

(** C9.  [calculate_profile_data] answers a profile whose five attributes
    have the types of the data model with the metrics, negative weight or
    age included, provided the square of the height in metres is neither
    zero nor out of range, five times the age fits a float and the basal
    rate times the multiplier is finite.  When the height is zero the
    division raises [ZeroDivisionError].  (An incomplete profile is
    answered with the sentinel and raises nothing: see C1.) *)
Theorem calculate_profile_data_outcome (user_data : dict) (w h : float) (a : Z)
    (gender level : text) :
  typed user_data w h a gender level ->
  (is_zero h = true -> calculate_profile_data user_data = Raise ZeroDivisionError) /\
  (forall sq q,
     py_pow_2 (VFloat (float_div h (float_of_Z 100))) = Ok (VFloat sq) ->
     is_zero sq = false ->
     is_infinite (float_of_Z (5 * a)) = false ->
     float_value (float_mul (mifflin_st_jeor_float w h a (offset_of gender))
                            (multiplier_of (py_lower level))) = XFin q ->
     exists i c,
       In c categories /\
       calculate_profile_data user_data =
       Ok (metrics (VFloat i) (VInt (Qround_half_even q)) c)).
Proof.
  intros Ht. split.
  - intros Hz.
    rewrite (calculate_profile_data_typed _ _ _ _ _ _ (S754_zero false) Ht).
    + reflexivity.
    + apply py_pow_2_zero. now apply float_div_zero_100.
  - intros sq q Hsq Hnz Ha Hq.
    rewrite (calculate_profile_data_typed _ _ _ _ _ _ sq Ht Hsq), Hnz.
    destruct (py_round_2_float (float_div w sq)) as [i Hi].
    rewrite Hi. cbn [mbind result_bind]. rewrite Ha, tdee_floats, Hq.
    cbn [mbind result_bind].
    destruct (imc_recommendation_total i) as (c & Hc & Hin).
    rewrite Hc. cbn [mbind result_bind]. exists i, c. split; [exact Hin | reflexivity].
Qed.

Lemma calculate_profile_data_outcome_witness :
  (exists i c,
     In c categories /\
     calculate_profile_data negative_profile = Ok (metrics (VFloat i) (VInt 851) c)) /\
  calculate_profile_data zero_height_profile = Raise ZeroDivisionError.
Proof.
  split.
  - refine (proj2 (calculate_profile_data_outcome negative_profile _ _ _ _ _
                     (typed_profile _ _ _ _ _))
                  (float_mul (float_literal 175 2) (float_literal 175 2))
                  (Qmake 7481626871201792 8796093022208) _ _ _ _);
      vm_compute; reflexivity.
  - exact (proj1 (calculate_profile_data_outcome zero_height_profile _ _ _ _ _
                    (typed_profile _ _ _ _ _)) eq_refl).
Defined.
(** * Further properties

    ** Signs of the float operations *)

Lemma shr_1_nonneg mrs : (0 <= shr_m mrs)%Z -> (0 <= shr_m (shr_1 mrs))%Z.
Proof.
  destruct mrs as [m r s]. cbn [shr_m]. intros Hm. unfold shr_1.
  destruct m as [|[p|p|]|p]; cbn [shr_m]; lia.
Qed.

Lemma iter_pos_shr_1_nonneg p mrs :
  (0 <= shr_m mrs)%Z -> (0 <= shr_m (SpecFloat.iter_pos shr_1 p mrs))%Z.
Proof.
  revert mrs. induction p as [p IH|p IH|]; intros mrs Hm; cbn [SpecFloat.iter_pos].
  - apply IH, IH. now apply shr_1_nonneg.
  - now apply IH, IH.
  - now apply shr_1_nonneg.
Qed.

Lemma shr_fexp_nonneg m e l :
  (0 <= m)%Z -> (0 <= shr_m (fst (shr_fexp prec emax m e l)))%Z.
Proof.
  intros Hm. unfold shr_fexp, shr.
  assert (H0 : (0 <= shr_m (shr_record_of_loc m l))%Z)
    by (destruct l as [|[]]; exact Hm).
  destruct (_ - e)%Z; cbn [fst]; [assumption | | assumption].
  now apply iter_pos_shr_1_nonneg.
Qed.

Lemma round_nearest_even_nonneg m l :
  (0 <= m)%Z -> (0 <= round_nearest_even m l)%Z.
Proof.
  intros Hm. unfold round_nearest_even.
  destruct l as [|[]]; try assumption; [destruct (Z.even m)|]; lia.
Qed.

Lemma binary_round_aux_sign s m e l :
  (0 <= m)%Z -> has_sign s (binary_round_aux prec emax s m e l).
Proof.
  intros Hm. unfold binary_round_aux.
  pose proof (shr_fexp_nonneg m e l Hm) as H1.
  destruct (shr_fexp prec emax m e l) as [mrs' e']. cbn [fst] in H1.
  pose proof (shr_fexp_nonneg _ e' loc_Exact
                (round_nearest_even_nonneg _ (loc_of_shr_record mrs') H1)) as H2.
  destruct (shr_fexp prec emax _ e' loc_Exact) as [mrs'' e'']. cbn [fst] in H2.
  unfold has_sign. destruct (shr_m mrs'') as [|p|p].
  - now left.
  - destruct (e'' <=? emax - prec)%Z; [right; right; eauto | right; now left].
  - lia.
Qed.

Lemma float_mul_sign sx mx ex sy my ey :
  has_sign (xorb sx sy) (float_mul (S754_finite sx mx ex) (S754_finite sy my ey)).
Proof. apply binary_round_aux_sign. lia. Qed.

Lemma float_div_sign sx mx ex sy my ey :
  has_sign (xorb sx sy) (float_div (S754_finite sx mx ex) (S754_finite sy my ey)).
Proof.
  unfold float_div, SFdiv.
  destruct (SFdiv_core_binary prec emax (Z.pos mx) ex (Z.pos my) ey) as [[mz ez] lz] eqn:Hc.
  apply binary_round_aux_sign.
  unfold SFdiv_core_binary in Hc.
  set (m' := match (ex - ey - _)%Z with Z0 => _ | Zpos _ => _ | Zneg _ => _ end) in Hc.
  assert (Hm' : (0 <= m')%Z).
  { subst m'. destruct (_ - _ - _)%Z; try lia. apply Z.shiftl_nonneg. lia. }
  pose proof (Z.div_eucl_eq m' (Z.pos my) ltac:(lia)) as Heq.
  pose proof (Z.mod_pos_bound m' (Z.pos my) ltac:(lia)) as Hmod.
  unfold Z.modulo in Hmod.
  destruct (Z.div_eucl m' (Z.pos my)) as [q r]. injection Hc as <- _ _. nia.
Qed.

Lemma has_sign_not_nan s f : has_sign s f -> is_nan f = false.
Proof. intros [->|[->|(m & e & ->)]]; reflexivity. Qed.

Lemma has_sign_sign_bit s f : has_sign s f -> sign_bit f = s.
Proof. intros [->|[->|(m & e & ->)]]; reflexivity. Qed.

Lemma sign_bit_has_sign f : is_nan f = false -> has_sign (sign_bit f) f.
Proof.
  destruct f as [s|s| |s m e]; try discriminate; intros _; unfold has_sign; cbn [sign_bit]; eauto.
Qed.

Lemma float_of_Z_sign z : has_sign (z <? 0)%Z (float_of_Z z).
Proof.
  unfold float_of_Z, binary_normalize. destruct z as [|p|p].
  - now left.
  - unfold binary_round. destruct (shl_align p 0 _) as [mz ez].
    apply binary_round_aux_sign. lia.
  - unfold binary_round. destruct (shl_align p 0 _) as [mz ez].
    apply binary_round_aux_sign. lia.
Qed.

Lemma float_of_ratio_sign n d :
  (n <> 0)%Z -> (d <> 0)%Z -> has_sign (xorb (n <? 0)%Z (d <? 0)%Z) (float_of_ratio n d).
Proof.
  intros Hn Hd. unfold float_of_ratio.
  destruct n as [|n|n], d as [|d|d]; try contradiction; apply float_div_sign.
Qed.

Lemma float_of_ratio_not_nan n d : (d <> 0)%Z -> is_nan (float_of_ratio n d) = false.
Proof.
  intros Hd. destruct (Z.eq_dec n 0%Z) as [->|Hn].
  - destruct d; [contradiction|reflexivity..].
  - exact (has_sign_not_nan _ _ (float_of_ratio_sign n d Hn Hd)).
Qed.

(** A division gives a NaN only from a NaN, from two infinities or from
    two zeros. *)
Lemma float_div_nan x y :
  is_nan (float_div x y) = true ->
  is_nan x = true \/ is_nan y = true \/
  (is_infinite x = true /\ is_infinite y = true) \/
  (is_zero x = true /\ is_zero y = true).
Proof.
  destruct x as [sx|sx| |sx mx ex], y as [sy|sy| |sy my ey]; cbn; auto; try discriminate.
  intros H. pose proof (has_sign_not_nan _ _ (float_div_sign sx mx ex sy my ey)) as Hn.
  unfold float_div, SFdiv in Hn. rewrite Hn in H. discriminate.
Qed.

Lemma float_mul_nan x y :
  is_nan (float_mul x y) = true ->
  is_finite x = false \/ is_finite y = false.
Proof.
  destruct x as [sx|sx| |sx mx ex], y as [sy|sy| |sy my ey]; cbn; auto; try discriminate.
  intros H. pose proof (has_sign_not_nan _ _ (float_mul_sign sx mx ex sy my ey)) as Hn.
  unfold float_mul, SFmul in Hn. rewrite Hn in H. discriminate.
Qed.

(** What is not finite, an infinity or a NaN, stays so through a sum, a
    difference or a product. *)
Lemma float_add_not_finite x y :
  is_finite x = false \/ is_finite y = false -> is_finite (float_add x y) = false.
Proof.
  destruct x as [sx|sx| |sx mx ex], y as [sy|sy| |sy my ey];
    intros [H|H]; try discriminate H; try reflexivity;
    try (destruct sx, sy; reflexivity).
Qed.

Lemma float_sub_not_finite x y :
  is_finite x = false \/ is_finite y = false -> is_finite (float_sub x y) = false.
Proof.
  destruct x as [sx|sx| |sx mx ex], y as [sy|sy| |sy my ey];
    intros [H|H]; try discriminate H; try reflexivity;
    try (destruct sx, sy; reflexivity).
Qed.

Lemma float_mul_not_finite x y :
  is_finite x = false \/ is_finite y = false -> is_finite (float_mul x y) = false.
Proof.
  destruct x as [sx|sx| |sx mx ex], y as [sy|sy| |sy my ey];
    intros [H|H]; try discriminate H; reflexivity.
Qed.

Lemma binary_round_aux_opp s m e l :
  binary_round_aux prec emax (negb s) m e l = SFopp (binary_round_aux prec emax s m e l).
Proof.
  unfold binary_round_aux.
  destruct (shr_fexp prec emax m e l) as [mrs' e'].
  destruct (shr_fexp prec emax _ e' loc_Exact) as [mrs'' e''].
  destruct (shr_m mrs''); [reflexivity| |reflexivity].
  destruct (_ <=? _)%Z; reflexivity.
Qed.

Lemma float_div_opp x y : float_div (SFopp x) y = SFopp (float_div x y).
Proof.
  destruct x as [sx|sx| |sx mx ex], y as [sy|sy| |sy my ey]; cbn [SFopp];
    try reflexivity; unfold float_div, SFdiv; cbn [SFopp]; try (now destruct sx, sy).
  destruct (SFdiv_core_binary _ _ _ _ _ _) as [[mz ez] lz].
  rewrite <- binary_round_aux_opp. now destruct sx, sy.
Qed.

Lemma exact_int_opp z : (z <> 0)%Z -> exact_int (- z) = SFopp (exact_int z).
Proof. destruct z; [contradiction|reflexivity..]. Qed.

Lemma is_infinite_opp x : is_infinite (SFopp x) = is_infinite x.
Proof. destruct x; reflexivity. Qed.
(** ** The calculator: what it reads *)

Lemma agree_weight d d' : agree_on_attributes d d' -> d !! str "weight" = d' !! str "weight".
Proof. intros H. apply H. unfold required_keys. in_list. Qed.

Lemma agree_height d d' : agree_on_attributes d d' -> d !! str "height" = d' !! str "height".
Proof. intros H. apply H. unfold required_keys. in_list. Qed.

Lemma agree_age d d' : agree_on_attributes d d' -> d !! str "age" = d' !! str "age".
Proof. intros H. apply H. unfold required_keys. in_list. Qed.

Lemma agree_gender d d' : agree_on_attributes d d' -> d !! str "gender" = d' !! str "gender".
Proof. intros H. apply H. unfold required_keys. in_list. Qed.

Lemma agree_activity d d' :
  agree_on_attributes d d' -> d !! str "activity_level" = d' !! str "activity_level".
Proof. intros H. apply H. unfold required_keys. in_list. Qed.

Lemma agree_stages d d' :
  agree_on_attributes d d' ->
  forallb (present d) required_keys = forallb (present d') required_keys /\
  imc d = imc d' /\ bmr d = bmr d' /\ multiplier d = multiplier d'.
Proof.
  intros H.
  pose proof (agree_weight _ _ H) as Hw. pose proof (agree_height _ _ H) as Hh.
  pose proof (agree_age _ _ H) as Ha. pose proof (agree_gender _ _ H) as Hg.
  pose proof (agree_activity _ _ H) as Hl.
  repeat split.
  - unfold required_keys. cbn [forallb]. unfold present. now rewrite Hw, Hh, Ha, Hg, Hl.
  - unfold imc, height_m, getitem. now rewrite Hw, Hh.
  - unfold bmr, getitem. now rewrite Hw, Hh, Ha, Hg.
  - unfold multiplier, getitem. now rewrite Hl.
Qed.

Lemma agree_calculate d d' :
  agree_on_attributes d d' -> calculate_profile_data d = calculate_profile_data d'.
Proof.
  intros H. destruct (agree_stages d d' H) as (Hp & Hi & Hb & Hm).
  unfold calculate_profile_data. now rewrite Hp, Hi, Hb, Hm.
Qed.

Lemma agree_insert d key v :
  ~ In key required_keys -> agree_on_attributes (<[key := v]> d) d.
Proof.
  intros Hk k Hin. apply lookup_insert_ne. intros ->. contradiction.
Qed.


(** X1.  The calculator reads the five attributes and nothing else: two
    profiles that agree on weight, height, age, gender and activity level
    get the same answer, sentinel, metrics or exception, whatever other
    columns of the user row they carry. *)
Theorem calculate_profile_data_reads_attributes_only (d d' : dict) :
  agree_on_attributes d d' ->
  calculate_profile_data d = calculate_profile_data d'.
Proof. apply agree_calculate. Qed.

Lemma calculate_profile_data_reads_attributes_only_witness :
  calculate_profile_data
    (<[str "id" := VInt 7]> (<[str "email" := VStr (str "ana@example.org")]> male_scenario))
  = calculate_profile_data male_scenario.
Proof.
  apply calculate_profile_data_reads_attributes_only.
  intros key Hkey. unfold required_keys in Hkey.
  repeat destruct Hkey as [<-|Hkey]; try contradiction; vm_compute; reflexivity.
Defined.

(** ** The calculator: the exceptions it raises *)

Lemma bind_raise {A B} (m : result A) (k : A -> result B) e :
  m ≫= k = Raise e -> m = Raise e \/ exists a, m = Ok a /\ k a = Raise e.
Proof. destruct m as [a|e']; cbn; intros H; [right; eauto | left; congruence]. Qed.

Lemma bind_ok {A B} (m : result A) (k : A -> result B) b :
  m ≫= k = Ok b -> exists a, m = Ok a /\ k a = Ok b.
Proof. destruct m as [a|e']; cbn; intros H; [eauto | discriminate]. Qed.

Lemma as_float_raises v e :
  as_float v = Raise e -> e = TypeError \/ e = OverflowError.
Proof.
  destruct v as [|z|f|s]; cbn; try (intros [= <-]; now left); try discriminate.
  destruct (is_infinite _); [intros [= <-]; now right | discriminate].
Qed.

Lemma float_op_raises op a b e :
  float_op op a b = Raise e -> e = TypeError \/ e = OverflowError.
Proof.
  unfold float_op. intros H.
  apply bind_raise in H as [H|(x & _ & H)]; [now apply as_float_raises in H|].
  apply bind_raise in H as [H|(y & _ & H)]; [now apply as_float_raises in H | discriminate].
Qed.

Lemma py_mul_raises a b e :
  py_mul a b = Raise e -> e = TypeError \/ e = OverflowError.
Proof.
  destruct a as [|x|x|s], b as [|y|y|t]; cbn [py_mul];
    try (intros [= <-]; now left); try discriminate; apply float_op_raises.
Qed.

Lemma py_add_raises a b e :
  py_add a b = Raise e -> e = TypeError \/ e = OverflowError.
Proof.
  destruct a as [|x|x|s], b as [|y|y|t]; cbn [py_add];
    try (intros [= <-]; now left); try discriminate; apply float_op_raises.
Qed.

Lemma py_sub_raises a b e :
  py_sub a b = Raise e -> e = TypeError \/ e = OverflowError.
Proof.
  destruct a as [|x|x|s], b as [|y|y|t]; cbn [py_sub];
    try (intros [= <-]; now left); try discriminate; apply float_op_raises.
Qed.

(** A division raises [ZeroDivisionError] only when the divisor is zero. *)
Lemma py_truediv_raises a b e :
  py_truediv a b = Raise e ->
  e = TypeError \/ e = OverflowError \/
  (e = ZeroDivisionError /\
   (b = VInt 0 \/ exists y, as_float b = Ok y /\ is_zero y = true)).
Proof.
  destruct a as [|x|x|s], b as [|y|y|t]; cbn [py_truediv];
    try (intros [= <-]; now left).
  - destruct (y =? 0)%Z eqn:Hy.
    + intros [= <-]. right; right. split; [reflexivity|]. left. f_equal. lia.
    + destruct (is_infinite _); [intros [= <-]; right; now left | discriminate].
  - intros H. apply bind_raise in H as [H|(x' & _ & H)].
    { apply as_float_raises in H. tauto. }
    cbn [mbind result_bind as_float] in H. destruct (is_zero y) eqn:Hy; [|discriminate].
    injection H as <-. right; right. split; [reflexivity|]. right. eauto.
  - intros H. apply bind_raise in H as [H|(x' & _ & H)]; [discriminate|].
    apply bind_raise in H as [H|(y' & Hy' & H)].
    { apply as_float_raises in H. tauto. }
    destruct (is_zero y') eqn:Hz; [|discriminate].
    injection H as <-. right; right. split; [reflexivity|]. right. eauto.
  - intros H. apply bind_raise in H as [H|(x' & _ & H)]; [discriminate|].
    apply bind_raise in H as [H|(y' & Hy' & H)]; [discriminate|].
    destruct (is_zero y') eqn:Hz; [|discriminate].
    injection H as <-. right; right. split; [reflexivity|]. right. eauto.
Qed.

Lemma py_pow_2_raises a e :
  py_pow_2 a = Raise e -> e = TypeError \/ e = OverflowError.
Proof.
  destruct a as [|x|x|s]; cbn [py_pow_2]; try (intros [= <-]; now left); try discriminate.
  destruct x; try discriminate.
  destruct (is_infinite _); [intros [= <-]; now right | discriminate].
Qed.

Lemma py_round_raises a e :
  py_round a = Raise e -> e = TypeError \/ e = OverflowError \/ e = ValueError.
Proof.
  destruct a as [|x|x|s]; cbn [py_round]; try (intros [= <-]; now left); try discriminate.
  destruct (float_value x); [intros [= <-]; tauto | intros [= <-]; tauto | discriminate].
Qed.

Lemma py_round_2_raises a e : py_round_2 a = Raise e -> e = TypeError.
Proof.
  destruct a as [|x|x|s]; cbn [py_round_2]; try (now intros [= <-]); try discriminate.
  destruct (float_value x); discriminate.
Qed.

Lemma py_compare_raises a b e : py_compare a b = Raise e -> e = TypeError.
Proof.
  destruct a as [|x|x|s], b as [|y|y|t]; cbn [py_compare];
    try (now intros [= <-]); discriminate.
Qed.

Lemma py_lt_raises a b e : py_lt a b = Raise e -> e = TypeError.
Proof.
  unfold py_lt. intros H. apply bind_raise in H as [H|(o & _ & H)];
    [now apply py_compare_raises in H | discriminate].
Qed.

Lemma py_le_raises a b e : py_le a b = Raise e -> e = TypeError.
Proof.
  unfold py_le. intros H. apply bind_raise in H as [H|(o & _ & H)];
    [now apply py_compare_raises in H | discriminate].
Qed.

Lemma lower_raises a e : lower a = Raise e -> e = AttributeError.
Proof. destruct a; cbn [lower]; try (now intros [= <-]); discriminate. Qed.

Lemma lower_ok a v : lower a = Ok v -> exists s, a = VStr s /\ v = VStr (py_lower s).
Proof. destruct a; cbn [lower]; try discriminate. intros [= <-]. eauto. Qed.

Lemma complete_getitem user_data key :
  complete user_data -> In key required_keys ->
  exists v, user_data !! key = Some v /\ getitem user_data key = Ok v /\ v <> VNone.
Proof.
  intros Hc Hk. destruct (Hc key Hk) as (v & Hv & Hn). exists v.
  unfold getitem. rewrite Hv. auto.
Qed.

Ltac attribute H key v Hv :=
  let Hl := fresh "Hl" in let Hn := fresh "Hn" in
  destruct (complete_getitem _ key H ltac:(unfold required_keys; in_list))
    as (v & Hl & Hv & Hn).

Lemma mifflin_st_jeor_raises weight height age offset e :
  mifflin_st_jeor weight height age offset = Raise e ->
  e = TypeError \/ e = OverflowError.
Proof.
  unfold mifflin_st_jeor. intros H.
  apply bind_raise in H as [H|(a & _ & H)]; [now apply py_mul_raises in H|].
  apply bind_raise in H as [H|(b & _ & H)]; [now apply py_mul_raises in H|].
  apply bind_raise in H as [H|(c & _ & H)]; [now apply py_add_raises in H|].
  apply bind_raise in H as [H|(d & _ & H)]; [now apply py_mul_raises in H|].
  apply bind_raise in H as [H|(f & _ & H)]; [now apply py_sub_raises in H|].
  now apply py_add_raises in H.
Qed.

Lemma tdee_raises b m e :
  tdee b m = Raise e -> e = TypeError \/ e = OverflowError \/ e = ValueError.
Proof.
  unfold tdee. intros H.
  apply bind_raise in H as [H|(p & _ & H)]; [apply py_mul_raises in H; tauto|].
  now apply py_round_raises in H.
Qed.

Lemma imc_recommendation_raises i e : imc_recommendation i = Raise e -> e = TypeError.
Proof.
  unfold imc_recommendation. intros H.
  apply bind_raise in H as [H|(below & _ & H)]; [now apply py_lt_raises in H|].
  destruct below; [discriminate|].
  apply bind_raise in H as [H|(lo & _ & H)]; [now apply py_le_raises in H|].
  apply bind_raise in H as [H|(hi & _ & H)].
  { destruct lo; [now apply py_lt_raises in H | discriminate]. }
  destruct (lo && hi); [discriminate|].
  apply bind_raise in H as [H|(lo' & _ & H)]; [now apply py_le_raises in H|].
  apply bind_raise in H as [H|(hi' & _ & H)].
  { destruct lo'; [now apply py_lt_raises in H | discriminate]. }
  destruct (lo' && hi'); discriminate.
Qed.

Lemma bmr_raises user_data e :
  complete user_data -> bmr user_data = Raise e ->
  e = TypeError \/ e = OverflowError \/ e = AttributeError.
Proof.
  intros Hc. unfold bmr.
  attribute Hc (str "gender") g Hg. attribute Hc (str "weight") w Hw.
  attribute Hc (str "height") h Hh. attribute Hc (str "age") a Ha.
  rewrite Hg, Hw, Hh, Ha. cbn [mbind result_bind]. intros H.
  apply bind_raise in H as [H|(g' & _ & H)]; [apply lower_raises in H; tauto|].
  destruct (py_eq _ _); apply mifflin_st_jeor_raises in H; tauto.
Qed.

Lemma multiplier_raises user_data e :
  complete user_data -> multiplier user_data = Raise e -> e = AttributeError.
Proof.
  intros Hc. unfold multiplier. attribute Hc (str "activity_level") l Hv.
  rewrite Hv. cbn [mbind result_bind]. intros H.
  apply bind_raise in H as [H|(k & Hk & H)]; [now apply lower_raises in H|].
  apply lower_ok in Hk as (s & _ & ->). discriminate.
Qed.

(** The height in metres is a float; it is no zero unless the height is. *)
Lemma height_m_raises user_data e :
  complete user_data -> height_m user_data = Raise e ->
  e = TypeError \/ e = OverflowError.
Proof.
  intros Hc. unfold height_m. attribute Hc (str "height") h Hh.
  rewrite Hh. cbn [mbind result_bind]. intros H.
  apply py_truediv_raises in H as [H|[H|(_ & [H|(y & Hy & Hz)])]]; try tauto.
  - discriminate.
  - vm_compute in Hy. injection Hy as <-. discriminate.
Qed.

Lemma imc_raises user_data e :
  complete user_data -> imc user_data = Raise e ->
  e = TypeError \/ e = OverflowError \/
  (e = ZeroDivisionError /\
   exists hm sq, height_m user_data = Ok hm /\ py_pow_2 hm = Ok (VFloat sq) /\
     is_zero sq = true).
Proof.
  intros Hc. unfold imc. intros H.
  apply bind_raise in H as [H|(hm & Hhm & H)].
  { apply (height_m_raises _ _ Hc) in H. tauto. }
  attribute Hc (str "weight") w Hw. rewrite Hw in H. cbn [mbind result_bind] in H.
  apply bind_raise in H as [H|(sq & Hsq & H)]; [apply py_pow_2_raises in H; tauto|].
  apply bind_raise in H as [H|(q & _ & H)]; [|apply py_round_2_raises in H; tauto].
  apply py_truediv_raises in H as [H|[H|(-> & Hz)]]; try tauto.
  right; right. split; [reflexivity|]. exists hm.
  assert (Hf : exists f, hm = VFloat f).
  { unfold height_m in Hhm. apply bind_ok in Hhm as (h & _ & Hhm).
    now apply py_truediv_is_float in Hhm. }
  destruct Hf as [f ->].
  destruct (py_pow_2_float _ _ Hsq) as [sq' ->]. exists sq'.
  destruct Hz as [Hz|(y & Hy & Hz)]; [discriminate|].
  injection Hy as <-. auto.
Qed.

Lemma calculate_profile_data_raises user_data e :
  calculate_profile_data user_data = Raise e ->
  complete user_data /\
  (imc user_data = Raise e \/ bmr user_data = Raise e \/ multiplier user_data = Raise e \/
   (exists b m, tdee b m = Raise e) \/ (exists i, imc_recommendation i = Raise e)).
Proof.
  unfold calculate_profile_data.
  destruct (forallb (present user_data) required_keys) eqn:Hp; [|discriminate].
  apply complete_present in Hp. cbn [negb]. intros H. split; [exact Hp|].
  destruct (imc user_data) as [i|] eqn:Hi;
    cbn [mbind result_bind] in H; [|left; congruence].
  destruct (bmr user_data) as [b|] eqn:Hb;
    cbn [mbind result_bind] in H; [|right; left; congruence].
  destruct (multiplier user_data) as [m|] eqn:Hm;
    cbn [mbind result_bind] in H; [|right; right; left; congruence].
  destruct (tdee b m) as [t|] eqn:Ht; cbn [mbind result_bind] in H.
  2:{ right; right; right; left. exists b, m. rewrite Ht. congruence. }
  destruct (imc_recommendation i) as [r|] eqn:Hr;
    cbn [mbind result_bind] in H; [discriminate H|].
  right; right; right; right. exists i. rewrite Hr. congruence.
Qed.

(** X2.  The guard of line 78 makes every later subscript safe: whatever
    the profile holds, [calculate_profile_data] never raises [KeyError]. *)
Theorem calculate_profile_data_never_key_error (user_data : dict) :
  calculate_profile_data user_data <> Raise KeyError.
Proof.
  intros H. apply calculate_profile_data_raises in H as (Hc & [H|[H|[H|[(b & m & H)|(i & H)]]]]).
  - apply (imc_raises _ _ Hc) in H as [H|[H|(H & _)]]; discriminate.
  - apply (bmr_raises _ _ Hc) in H as [H|[H|H]]; discriminate.
  - apply (multiplier_raises _ _ Hc) in H. discriminate.
  - apply tdee_raises in H as [H|[H|H]]; discriminate.
  - apply imc_recommendation_raises in H. discriminate.
Qed.

(** X3.  The only division by zero is that of the weight by the squared
    height: when [calculate_profile_data] raises [ZeroDivisionError] the
    profile is complete and the square of its height in metres is a zero,
    the height being zero or so small that the square underflows. *)
Theorem calculate_profile_data_zero_division (user_data : dict) :
  calculate_profile_data user_data = Raise ZeroDivisionError ->
  complete user_data /\
  exists hm sq, height_m user_data = Ok hm /\ py_pow_2 hm = Ok (VFloat sq) /\
    is_zero sq = true.
Proof.
  intros H. apply calculate_profile_data_raises in H as (Hc & [H|[H|[H|[(b & m & H)|(i & H)]]]]);
    split; try exact Hc.
  - apply (imc_raises _ _ Hc) in H as [H|[H|(_ & H)]]; [discriminate..|exact H].
  - apply (bmr_raises _ _ Hc) in H as [H|[H|H]]; discriminate.
  - apply (multiplier_raises _ _ Hc) in H. discriminate.
  - apply tdee_raises in H as [H|[H|H]]; discriminate.
  - apply imc_recommendation_raises in H. discriminate.
Qed.

Lemma calculate_profile_data_zero_division_witness :
  complete
    (profile (VFloat (float_of_Z 70)) (VFloat (S754_finite false 4503599627370496 (-652)))
             (VInt 30) (VStr (str "Masculino")) (VStr (str "moderado"))) /\
  exists hm sq,
    height_m
      (profile (VFloat (float_of_Z 70)) (VFloat (S754_finite false 4503599627370496 (-652)))
               (VInt 30) (VStr (str "Masculino")) (VStr (str "moderado"))) = Ok hm /\
    py_pow_2 hm = Ok (VFloat sq) /\ is_zero sq = true.
Proof.
  apply calculate_profile_data_zero_division. vm_compute. reflexivity.
Defined.

(** ** The calculator: the types it asks for *)

Lemma py_truediv_ok_number a b v :
  py_truediv a b = Ok v -> is_number a = true /\ is_number b = true.
Proof.
  destruct a as [|x|x|s], b as [|y|y|t]; cbn [py_truediv]; try discriminate;
    intros _; split; reflexivity.
Qed.

Lemma py_mul_float_ok x b v :
  py_mul (VFloat x) b = Ok v -> is_number b = true /\ exists f, v = VFloat f.
Proof.
  destruct b as [|y|y|t]; cbn [py_mul]; try discriminate; intros H;
    (split; [reflexivity|]); unfold float_op in H;
    apply bind_ok in H as (x' & _ & H); apply bind_ok in H as (y' & _ & H);
    injection H as <-; eauto.
Qed.

Lemma py_add_float_r a y v :
  py_add a (VFloat y) = Ok v -> is_number a = true /\ exists f, v = VFloat f.
Proof.
  destruct a as [|x|x|s]; cbn [py_add]; try discriminate; intros H;
    (split; [reflexivity|]); unfold float_op in H;
    apply bind_ok in H as (x' & _ & H); apply bind_ok in H as (y' & _ & H);
    injection H as <-; eauto.
Qed.

Lemma py_sub_float_l x b v :
  py_sub (VFloat x) b = Ok v -> is_number b = true /\ exists f, v = VFloat f.
Proof.
  destruct b as [|y|y|t]; cbn [py_sub]; try discriminate; intros H;
    (split; [reflexivity|]); unfold float_op in H;
    apply bind_ok in H as (x' & _ & H); apply bind_ok in H as (y' & _ & H);
    injection H as <-; eauto.
Qed.

Lemma py_add_float_l x b v :
  py_add (VFloat x) b = Ok v -> is_number b = true /\ exists f, v = VFloat f.
Proof.
  destruct b as [|y|y|t]; cbn [py_add]; try discriminate; intros H;
    (split; [reflexivity|]); unfold float_op in H;
    apply bind_ok in H as (x' & _ & H); apply bind_ok in H as (y' & _ & H);
    injection H as <-; eauto.
Qed.

Lemma py_mul_5_number age d :
  py_mul (VInt 5) age = Ok d -> is_number d = true -> is_number age = true.
Proof.
  destruct age as [|y|y|t]; cbn [py_mul]; try discriminate; try reflexivity.
  intros [= <-]. discriminate.
Qed.

(** The formula is a float, and asks for numbers. *)
Lemma mifflin_st_jeor_ok weight height age offset v :
  mifflin_st_jeor weight height age offset = Ok v ->
  (is_number weight = true /\ is_number height = true /\ is_number age = true) /\
  exists f, v = VFloat f.
Proof.
  unfold mifflin_st_jeor. intros H.
  apply bind_ok in H as (a & Ha & H). apply bind_ok in H as (b & Hb & H).
  apply bind_ok in H as (c & Hc & H). apply bind_ok in H as (d & Hd & H).
  apply bind_ok in H as (e & He & H).
  apply py_mul_float_ok in Hb as (Hh & fb & ->).
  apply py_add_float_r in Hc as (Hna & fc & ->).
  apply py_sub_float_l in He as (Hnd & fe & ->).
  apply py_add_float_l in H as (_ & f & ->).
  split; [|eauto]. split; [|split; [exact Hh|exact (py_mul_5_number _ _ Hd Hnd)]].
  destruct weight as [|y|y|t]; try reflexivity; cbn [py_mul] in Ha; try discriminate.
  injection Ha as <-. discriminate.
Qed.

Lemma bmr_ok user_data v :
  bmr user_data = Ok v ->
  exists gender weight height age f,
    user_data !! str "gender" = Some (VStr gender) /\
    user_data !! str "weight" = Some weight /\
    user_data !! str "height" = Some height /\
    user_data !! str "age" = Some age /\
    is_number weight = true /\ is_number height = true /\ is_number age = true /\
    mifflin_st_jeor weight height age (VInt (offset_of gender)) = Ok (VFloat f) /\
    v = VFloat f.
Proof.
  unfold bmr, getitem. intros H.
  destruct (user_data !! str "gender") as [g|] eqn:Hg; [|discriminate].
  cbn [mbind result_bind] in H.
  destruct (lower g) as [g'|] eqn:Hl; [|discriminate]. cbn [mbind result_bind] in H.
  apply lower_ok in Hl as (gender & -> & ->).
  destruct (user_data !! str "weight") as [w|] eqn:Hw; [|discriminate].
  destruct (user_data !! str "height") as [h|] eqn:Hh; [|discriminate].
  destruct (user_data !! str "age") as [a|] eqn:Ha; [|discriminate].
  cbn [mbind result_bind] in H.
  assert (Hm : mifflin_st_jeor w h a (VInt (offset_of gender)) = Ok v).
  { unfold offset_of. cbn [py_eq] in H. destruct (text_eqb _ _); exact H. }
  destruct (mifflin_st_jeor_ok _ _ _ _ _ Hm) as ((Hnw & Hnh & Hna) & f & ->).
  exists gender, w, h, a, f. repeat split; assumption.
Qed.

Lemma multiplier_ok user_data v :
  multiplier user_data = Ok v ->
  exists level, user_data !! str "activity_level" = Some (VStr level) /\
    v = VFloat (multiplier_of (py_lower level)).
Proof.
  unfold multiplier, getitem. intros H.
  destruct (user_data !! str "activity_level") as [l|] eqn:Hl; [|discriminate].
  cbn [mbind result_bind] in H.
  destruct (lower l) as [k|] eqn:Hk; [|discriminate]. cbn [mbind result_bind] in H.
  apply lower_ok in Hk as (level & -> & ->). injection H as <-.
  exists level. split; [reflexivity|]. apply dict_get_activity.
Qed.



(** ** The calculator: the body mass index is never a NaN *)

Lemma as_float_ok_finite z f : as_float (VInt z) = Ok f -> is_finite f = true.
Proof.
  cbn [as_float]. destruct (is_infinite (float_of_Z z)) eqn:Hi; [discriminate|].
  intros [= <-]. destruct (float_of_Z_sign z) as [H|[H|(m & e & H)]]; rewrite H in *;
    [reflexivity | discriminate | reflexivity].
Qed.

Lemma float_op_not_finite op a b v :
  (forall x y, is_finite x = false \/ is_finite y = false -> is_finite (op x y) = false) ->
  not_finite a \/ not_finite b ->
  float_op op a b = Ok v -> not_finite v.
Proof.
  intros Hop Hab H. unfold float_op in H.
  apply bind_ok in H as (x & Hx & H). apply bind_ok in H as (y & Hy & H).
  injection H as <-. eexists. split; [reflexivity|]. apply Hop.
  destruct Hab as [(f & -> & Hf)|(f & -> & Hf)].
  - injection Hx as <-. now left.
  - injection Hy as <-. now right.
Qed.

Lemma py_mul_not_finite a b v :
  not_finite a \/ not_finite b -> py_mul a b = Ok v -> not_finite v.
Proof.
  intros Hab. destruct a as [|x|x|s], b as [|y|y|t]; cbn [py_mul]; try discriminate;
    try (apply (float_op_not_finite _ _ _ _ float_mul_not_finite Hab));
    destruct Hab as [(f & Hf & _)|(f & Hf & _)]; discriminate Hf.
Qed.

Lemma py_add_not_finite a b v :
  not_finite a \/ not_finite b -> py_add a b = Ok v -> not_finite v.
Proof.
  intros Hab. destruct a as [|x|x|s], b as [|y|y|t]; cbn [py_add]; try discriminate;
    try (apply (float_op_not_finite _ _ _ _ float_add_not_finite Hab));
    destruct Hab as [(f & Hf & _)|(f & Hf & _)]; discriminate Hf.
Qed.

Lemma py_sub_not_finite a b v :
  not_finite a \/ not_finite b -> py_sub a b = Ok v -> not_finite v.
Proof.
  intros Hab. destruct a as [|x|x|s], b as [|y|y|t]; cbn [py_sub]; try discriminate;
    try (apply (float_op_not_finite _ _ _ _ float_sub_not_finite Hab));
    destruct Hab as [(f & Hf & _)|(f & Hf & _)]; discriminate Hf.
Qed.

Lemma mifflin_st_jeor_not_finite weight height age offset v :
  not_finite weight \/ not_finite height ->
  mifflin_st_jeor weight height age offset = Ok v -> not_finite v.
Proof.
  intros Hwh H. unfold mifflin_st_jeor in H.
  apply bind_ok in H as (a & Ha & H). apply bind_ok in H as (b & Hb & H).
  apply bind_ok in H as (c & Hc & H). apply bind_ok in H as (d & Hd & H).
  apply bind_ok in H as (e & He & H).
  assert (Hab : not_finite a \/ not_finite b).
  { destruct Hwh as [Hw|Hh].
    - left. exact (py_mul_not_finite _ _ _ (or_intror Hw) Ha).
    - right. exact (py_mul_not_finite _ _ _ (or_intror Hh) Hb). }
  pose proof (py_add_not_finite _ _ _ Hab Hc) as Hnc.
  pose proof (py_sub_not_finite _ _ _ (or_introl Hnc) He) as Hne.
  exact (py_add_not_finite _ _ _ (or_introl Hne) H).
Qed.

Lemma py_round_not_finite a v : not_finite a -> py_round a <> Ok v.
Proof.
  intros (f & -> & Hf). cbn [py_round]. destruct f; try discriminate.
Qed.

Lemma tdee_not_finite b m v : not_finite b -> tdee b m <> Ok v.
Proof.
  intros Hb H. unfold tdee in H. apply bind_ok in H as (p & Hp & H).
  exact (py_round_not_finite _ _ (py_mul_not_finite _ _ _ (or_introl Hb) Hp) H).
Qed.

(** The tdee is an integer. *)
Lemma tdee_ok_int b m v : tdee (VFloat b) (VFloat m) = Ok v -> exists t, v = VInt t.
Proof.
  rewrite tdee_floats. destruct (float_value _); try discriminate. intros [= <-]. eauto.
Qed.

Lemma py_round_2_nan q i :
  py_round_2 q = Ok (VFloat i) -> is_nan i = true -> q = VFloat i.
Proof.
  destruct q as [|x|x|s]; cbn [py_round_2]; try discriminate.
  destruct (float_value x) as [| |p] eqn:Hx; try (now intros [= <-]).
  intros [= <-]. destruct (_ =? _)%Z eqn:Hn; [discriminate|].
  rewrite float_of_ratio_not_nan; [discriminate | lia].
Qed.

Lemma height_m_nan user_data hm :
  height_m user_data = Ok (VFloat hm) -> is_nan hm = true ->
  exists h, user_data !! str "height" = Some (VFloat h) /\ is_nan h = true.
Proof.
  unfold height_m, getitem. intros H Hn.
  destruct (user_data !! str "height") as [h|]; [|discriminate].
  cbn [mbind result_bind] in H.
  destruct h as [|z|h|s]; cbn [py_truediv] in H; try discriminate.
  - destruct (is_infinite _); [discriminate|]. injection H as <-.
    rewrite float_of_ratio_not_nan in Hn; [discriminate | lia].
  - change (as_float (VInt 100)) with (@Ok float (float_of_Z 100)) in H.
    cbn [mbind result_bind as_float] in H.
    destruct (is_zero _); [discriminate|]. injection H as <-.
    exists h. split; [reflexivity|].
    apply float_div_nan in Hn as [Hn|[Hn|[(_ & Hn)|(_ & Hn)]]];
      [exact Hn | discriminate Hn..].
Qed.

Lemma py_pow_2_nan hm sq :
  py_pow_2 (VFloat hm) = Ok (VFloat sq) -> is_nan sq = true -> is_nan hm = true.
Proof.
  destruct hm as [s|s| |s m e]; cbn [py_pow_2]; try (intros [= <-]; discriminate);
    try reflexivity.
  destruct (is_infinite _); [discriminate|]. intros [= <-] Hn.
  apply (float_mul_nan (S754_finite s m e) (S754_finite s m e)) in Hn as [Hn|Hn];
    discriminate Hn.
Qed.

(** A NaN index comes from a weight or a height that is not finite. *)
Lemma imc_nan user_data i :
  imc user_data = Ok (VFloat i) -> is_nan i = true ->
  exists weight height,
    user_data !! str "weight" = Some weight /\
    user_data !! str "height" = Some height /\
    (not_finite weight \/ not_finite height).
Proof.
  unfold imc. intros H Hn.
  apply bind_ok in H as (hm & Hhm & H).
  unfold getitem at 1 in H.
  destruct (user_data !! str "weight") as [w|] eqn:Hw; [|discriminate].
  cbn [mbind result_bind] in H.
  apply bind_ok in H as (sq & Hsq & H). apply bind_ok in H as (q & Hq & H).
  apply (py_round_2_nan _ _ H) in Hn as Hqi. subst q.
  assert (Hf : exists f, hm = VFloat f).
  { unfold height_m in Hhm. apply bind_ok in Hhm as (h & _ & Hhm).
    now apply py_truediv_is_float in Hhm. }
  destruct Hf as [f ->]. destruct (py_pow_2_float _ _ Hsq) as [sq' ->].
  assert (Hh : exists h, user_data !! str "height" = Some h).
  { unfold height_m, getitem in Hhm. destruct (user_data !! str "height"); [eauto|discriminate]. }
  destruct Hh as [h Hh]. exists w, h. split; [reflexivity|]. split; [exact Hh|].
  assert (Hsqn : is_nan sq' = true -> not_finite h).
  { intros Hs. apply (py_pow_2_nan _ _ Hsq) in Hs.
    destruct (height_m_nan _ _ Hhm Hs) as (h' & Hh' & Hn').
    rewrite Hh in Hh'. injection Hh' as ->. exists h'. split; [reflexivity|].
    destruct h'; try discriminate; reflexivity. }
  destruct w as [|z|x|s]; cbn [py_truediv] in Hq; try discriminate.
  - apply bind_ok in Hq as (x & Hx & Hq). apply bind_ok in Hq as (y & Hy & Hq).
    injection Hy as <-. apply as_float_ok_finite in Hx.
    destruct (is_zero sq') eqn:Hz; [discriminate|]. injection Hq as <-.
    apply float_div_nan in Hn as [Hn|[Hn|[(Hn & _)|(_ & Hn)]]].
    + destruct x; discriminate.
    + right. now apply Hsqn.
    + destruct x; discriminate.
    + congruence.
  - cbn [mbind result_bind as_float] in Hq.
    destruct (is_zero sq') eqn:Hz; [discriminate|]. injection Hq as <-.
    apply float_div_nan in Hn as [Hn|[Hn|[(Hn & _)|(_ & Hn)]]].
    + left. exists x. split; [reflexivity|]. destruct x; try discriminate; reflexivity.
    + right. now apply Hsqn.
    + left. exists x. split; [reflexivity|]. destruct x; try discriminate; reflexivity.
    + congruence.
Qed.

Lemma imc_not_nan user_data i b m t :
  imc user_data = Ok (VFloat i) -> bmr user_data = Ok b -> tdee b m = Ok t ->
  is_nan i = false.
Proof.
  intros Hi Hb Ht. destruct (is_nan i) eqn:Hn; [exfalso|reflexivity].
  apply bmr_ok in Hb as (gender & w & h & a & fb & _ & Hw & Hh & _ & _ & _ & _ & Hmsj & ->).
  destruct (imc_nan _ _ Hi Hn) as (w' & h' & Hw' & Hh' & Hnf).
  rewrite Hw in Hw'. injection Hw' as <-. rewrite Hh in Hh'. injection Hh' as <-.
  exact (tdee_not_finite _ _ _ (mifflin_st_jeor_not_finite _ _ _ _ _ Hnf Hmsj) Ht).
Qed.

Lemma calculate_profile_data_ok_complete user_data r :
  calculate_profile_data user_data = Ok r -> r <> incomplete -> complete user_data.
Proof.
  intros H Hr. apply complete_present. unfold calculate_profile_data in H.
  destruct (forallb _ _); [reflexivity|]. cbn [negb] in H. congruence.
Qed.

(** X5.  What [calculate_profile_data] returns is the sentinel or a
    dictionary of exactly three entries: a float index that is not a NaN,
    an integer expenditure and one of the four categories.  A weight or a
    height that would give a NaN index makes the rounding of line 88 raise
    first, so that "Obesidad", the [else] of the chain of comparisons, is
    never the answer to an index that compares with nothing. *)
Theorem calculate_profile_data_answer (user_data r : dict) :
  calculate_profile_data user_data = Ok r ->
  r = incomplete \/
  exists i t c,
    r = metrics (VFloat i) (VInt t) c /\ is_nan i = false /\ In c categories.
Proof.
  intros H.
  destruct (forallb (present user_data) required_keys) eqn:Hp.
  2:{ left. unfold calculate_profile_data in H. rewrite Hp in H. cbn [negb] in H. congruence. }
  right. apply complete_present in Hp.
  destruct (calculate_profile_data_complete _ _ Hp H)
    as (i & b & m & t & c & Hi & Hb & Hm & Ht & Hc & ->).
  destruct (imc_is_float _ _ Hi) as [f ->].
  pose proof (imc_not_nan _ _ _ _ _ Hi Hb Ht) as Hn.
  apply bmr_ok in Hb as (gender & w & h & a & fb & _ & _ & _ & _ & _ & _ & _ & _ & ->).
  apply multiplier_ok in Hm as (level & _ & ->).
  destruct (tdee_ok_int _ _ _ Ht) as [t' ->].
  destruct (imc_recommendation_total f) as (c' & Hc' & Hin).
  rewrite Hc in Hc'. injection Hc' as <-.
  exists f, t', c. split; [reflexivity|]. split; [exact Hn | exact Hin].
Qed.

Lemma calculate_profile_data_answer_witness :
  metrics (VFloat (float_literal 2286 2)) (VInt 2556) (str "Peso saludable") = incomplete \/
  exists i t c,
    metrics (VFloat (float_literal 2286 2)) (VInt 2556) (str "Peso saludable")
    = metrics (VFloat i) (VInt t) c /\ is_nan i = false /\ In c categories.
Proof.
  apply (calculate_profile_data_answer male_scenario). vm_compute. reflexivity.
Defined.

(** ** The calculator: a weight that is not positive *)

Lemma round_half_even_not_positive n d :
  (n <= 0)%Z -> (0 < d)%Z -> (round_half_even n d <= 0)%Z.
Proof.
  intros Hn Hd. unfold round_half_even.
  pose proof (Z.div_mod n d ltac:(lia)) as Hdm.
  pose proof (Z.mod_pos_bound n d Hd) as Hm.
  destruct (Z.eq_dec n 0%Z) as [->|Hn0].
  - rewrite Z.mod_0_l, Z.div_0_l by lia.
    replace (2 * 0 ?= d)%Z with Lt by (symmetry; apply Z.compare_lt_iff; lia). lia.
  - assert (Hq : (n / d <= -1)%Z) by nia.
    destruct (_ ?= _)%Z; [destruct (Z.even _)| |]; lia.
Qed.

Lemma zero_or_negative_value f :
  zero_or_negative f ->
  float_value f = XInf true \/ exists p, float_value f = XFin p /\ (p <= 0)%Q.
Proof.
  intros [Hz|[->|[->|(m & e & ->)]]].
  - destruct f; try discriminate. right. exists 0%Q. split; [reflexivity | apply Qle_refl].
  - right. exists 0%Q. split; [reflexivity | apply Qle_refl].
  - now left.
  - right. cbn [float_value signed]. eexists. split; [reflexivity|].
    destruct e as [|e|e]; unfold Qle; cbn [Qnum Qden inject_Z]; try lia.
Qed.

Lemma zero_or_negative_not_nan f : zero_or_negative f -> is_nan f = false.
Proof.
  intros [Hz|Hs]; [destruct f; try discriminate; reflexivity | exact (has_sign_not_nan _ _ Hs)].
Qed.

Lemma not_positive_as_float w x :
  not_positive w = true -> as_float w = Ok x -> zero_or_negative x.
Proof.
  destruct w as [|z|f|s]; cbn [not_positive as_float]; try discriminate.
  - intros Hz. destruct (is_infinite _); [discriminate|]. intros [= <-].
    apply Z.leb_le in Hz. destruct (Z.eq_dec z 0%Z) as [->|Hn]; [now left|].
    right. pose proof (float_of_Z_sign z) as Hs.
    replace (z <? 0)%Z with true in Hs by (symmetry; apply Z.ltb_lt; lia). exact Hs.
  - intros Hf [= <-]. apply orb_true_iff in Hf as [Hf|Hf]; [now left|].
    right. destruct f as [s|s| |s m e]; cbn [sign_bit] in Hf; try discriminate;
      subst s; unfold has_sign; eauto.
Qed.

(** The square is a NaN or is not negative. *)
Lemma py_pow_2_sign hm sq :
  py_pow_2 (VFloat hm) = Ok (VFloat sq) -> is_nan sq = true \/ has_sign false sq.
Proof.
  destruct hm as [s|s| |s m e]; unfold py_pow_2.
  - intros [= <-]. right. now left.
  - intros [= <-]. right. right. now left.
  - intros [= <-]. now left.
  - set (r := float_mul _ _). destruct (is_infinite r); [discriminate|].
    intros [= <-]. right. subst r.
    pose proof (float_mul_sign s m e s m e) as Hs. now rewrite xorb_nilpotent in Hs.
Qed.

Lemma float_div_zero_or_negative x y :
  zero_or_negative x -> has_sign false y -> is_zero y = false ->
  is_nan (float_div x y) = true \/ zero_or_negative (float_div x y).
Proof.
  intros Hx Hy Hz.
  destruct Hy as [->|[->|(my & ey & ->)]]; [discriminate| |].
  - destruct Hx as [Hx|[->|[->|(mx & ex & ->)]]].
    + destruct x; try discriminate. right. now left.
    + right. now left.
    + now left.
    + right. now left.
  - destruct Hx as [Hx|[->|[->|(mx & ex & ->)]]].
    + destruct x; try discriminate. right. now left.
    + right. now left.
    + right. right. right. now left.
    + right. right. exact (float_div_sign true mx ex false my ey).
Qed.

Lemma py_round_2_zero_or_negative q i :
  zero_or_negative q -> py_round_2 (VFloat q) = Ok (VFloat i) -> zero_or_negative i.
Proof.
  intros Hq. cbn [py_round_2].
  destruct (zero_or_negative_value q Hq) as [Hv|(p & Hv & Hp)]; rewrite Hv.
  - now intros [= <-].
  - intros [= <-]. destruct (_ =? _)%Z eqn:Hn; [now left|].
    right. apply Z.eqb_neq in Hn.
    assert (Hle : (Qround_half_even (100 * p) <= 0)%Z).
    { unfold Qround_half_even. apply round_half_even_not_positive; [|lia].
      unfold Qle in Hp. cbn [Qnum Qden Qmult] in *. lia. }
    pose proof (float_of_ratio_sign (Qround_half_even (100 * p)) 100 Hn ltac:(lia)) as Hs.
    replace (_ <? 0)%Z with true in Hs by (symmetry; apply Z.ltb_lt; lia). exact Hs.
Qed.

Lemma imc_recommendation_zero_or_negative i :
  zero_or_negative i -> imc_recommendation (VFloat i) = Ok (str "Bajo peso").
Proof.
  intros Hi. destruct (zero_or_negative_value i Hi) as [Hv|(p & Hv & Hp)].
  - now rewrite (imc_recommendation_infinite _ _ Hv).
  - apply (proj1 (imc_recommendation_finite i p Hv)).
    eapply Qle_lt_trans; [exact Hp | reflexivity].
Qed.

Lemma imc_not_positive user_data w i :
  user_data !! str "weight" = Some w -> not_positive w = true ->
  imc user_data = Ok (VFloat i) -> is_nan i = false -> zero_or_negative i.
Proof.
  intros Hw Hnp H Hn. unfold imc in H.
  apply bind_ok in H as (hm & Hhm & H).
  unfold getitem at 1 in H. rewrite Hw in H. cbn [mbind result_bind] in H.
  apply bind_ok in H as (sq & Hsq & H). apply bind_ok in H as (q & Hq & H).
  assert (Hf : exists f, hm = VFloat f).
  { unfold height_m in Hhm. apply bind_ok in Hhm as (h & _ & Hhm).
    now apply py_truediv_is_float in Hhm. }
  destruct Hf as [f ->]. destruct (py_pow_2_float _ _ Hsq) as [sq' ->].
  assert (Hdiv : exists x, as_float w = Ok x /\ is_zero sq' = false /\
                           q = VFloat (float_div x sq')).
  { destruct w as [|z|x|s]; cbn [py_truediv] in Hq; try discriminate.
    - apply bind_ok in Hq as (x & Hx & Hq). apply bind_ok in Hq as (y & Hy & Hq).
      injection Hy as <-. destruct (is_zero sq'); [discriminate|]. injection Hq as <-.
      eauto.
    - cbn [mbind result_bind as_float] in Hq.
      destruct (is_zero sq'); [discriminate|]. injection Hq as <-. eauto. }
  destruct Hdiv as (x & Hx & Hz & ->).
  pose proof (not_positive_as_float _ _ Hnp Hx) as Hzx.
  assert (Hqn : is_nan (float_div x sq') = false).
  { destruct (is_nan (float_div x sq')) eqn:Hqn; [|reflexivity].
    cbn [py_round_2] in H.
    destruct (float_div x sq'); try discriminate. cbn in H. injection H as <-. discriminate. }
  destruct (py_pow_2_sign _ _ Hsq) as [Hsn|Hs].
  { destruct sq'; try discriminate. destruct x; discriminate. }
  destruct (float_div_zero_or_negative x sq' Hzx Hs Hz) as [Hc|Hc]; [congruence|].
  exact (py_round_2_zero_or_negative _ _ Hc H).
Qed.

(** X6.  A weight that is zero or negative is not refused: whenever such
    a profile is answered with metrics, the category is "Bajo peso". *)
Theorem calculate_profile_data_weight_not_positive (user_data r : dict) (weight : value) :
  user_data !! str "weight" = Some weight -> not_positive weight = true ->
  calculate_profile_data user_data = Ok r -> r <> incomplete ->
  r !! str "imc_recommendation" = Some (VStr (str "Bajo peso")).
Proof.
  intros Hw Hnp H Hr.
  pose proof (calculate_profile_data_ok_complete _ _ H Hr) as Hp.
  destruct (calculate_profile_data_complete _ _ Hp H)
    as (i & b & m & t & c & Hi & Hb & Hm & Ht & Hc & ->).
  destruct (imc_is_float _ _ Hi) as [f ->].
  pose proof (imc_not_nan _ _ _ _ _ Hi Hb Ht) as Hn.
  pose proof (imc_not_positive _ _ _ Hw Hnp Hi Hn) as Hz.
  rewrite (imc_recommendation_zero_or_negative _ Hz) in Hc. injection Hc as <-.
  exact (proj2 (proj2 (metrics_lookup _ _ _))).
Qed.

Lemma calculate_profile_data_weight_not_positive_witness :
  exists i,
    calculate_profile_data negative_profile = Ok (metrics (VFloat i) (VInt 851) (str "Bajo peso")) /\
    metrics (VFloat i) (VInt 851) (str "Bajo peso") !! str "imc_recommendation"
    = Some (VStr (str "Bajo peso")).
Proof.
  eexists. split; [vm_compute; reflexivity|].
  apply (calculate_profile_data_weight_not_positive negative_profile _
           (VFloat (float_of_Z (-70)))).
  - vm_compute. reflexivity.
  - vm_compute. reflexivity.
  - vm_compute. reflexivity.
  - intros H. apply (f_equal (fun d : dict => d !! str "imc")) in H.
    rewrite incomplete_imc in H. vm_compute in H. discriminate.
Defined.

(** ** The calculator: the sign of the height *)

Lemma py_pow_2_opp x : py_pow_2 (VFloat (SFopp x)) = py_pow_2 (VFloat x).
Proof. destruct x as [s|s| |s m e]; try reflexivity. destruct s; reflexivity. Qed.

Lemma height_m_opposite h :
  is_number h = true ->
  match py_truediv (opposite h) (VInt 100), py_truediv h (VInt 100) with
  | Ok hm', Ok hm => py_pow_2 hm' = py_pow_2 hm
  | Raise e', Raise e => e' = e
  | _, _ => False
  end.
Proof.
  destruct h as [|z|f|s]; try discriminate; intros _; cbn [opposite].
  - destruct (Z.eq_dec z 0%Z) as [->|Hz]; [reflexivity|].
    cbn [py_truediv Z.eqb]. unfold float_of_ratio.
    rewrite (exact_int_opp z Hz), float_div_opp, is_infinite_opp.
    destruct (is_infinite _); [reflexivity|]. apply py_pow_2_opp.
  - rewrite !py_truediv_float_100, float_div_opp. apply py_pow_2_opp.
Qed.

(** X7.  The height is squared before it is used: a height and its
    opposite give the same body mass index, so that a negative height is
    not noticed by lines 80 and 81. *)
Theorem imc_ignores_sign_of_height (user_data : dict) (height : value) :
  is_number height = true ->
  imc (<[str "height" := opposite height]> user_data) =
  imc (<[str "height" := height]> user_data).
Proof.
  intros Hn. unfold imc, height_m, getitem. rewrite !lookup_insert_eq.
  assert (Hne : str "height" <> str "weight") by (vm_compute; discriminate).
  rewrite !(lookup_insert_ne _ _ _ _ Hne).
  pose proof (height_m_opposite height Hn) as Hsq. cbn [mbind result_bind] in *.
  destruct (py_truediv (opposite height) (VInt 100)) as [hm'|e'],
           (py_truediv height (VInt 100)) as [hm|e]; try contradiction.
  - cbn [mbind result_bind]. destruct (user_data !! str "weight"); [|reflexivity].
    cbn [mbind result_bind].
    now rewrite Hsq.
  - now subst e'.
Qed.

Lemma imc_ignores_sign_of_height_witness :
  imc (<[str "height" := VInt (-175)]> male_scenario) =
  imc (<[str "height" := VInt 175]> male_scenario).
Proof.
  apply (imc_ignores_sign_of_height male_scenario (VInt 175)). reflexivity.
Defined.
(** ** The extractor: texts that announce no total *)

Lemma total_at_colon_digit s :
  total_at s -> In 58 s /\ exists d, In d s /\ is_decimal d = true.
Proof.
  intros (lab & ws & d & rest & -> & Hlab & _ & Hd). split.
  - apply in_or_app. left. unfold label_matches, label_variants in Hlab.
    change [[116; 84]; [111; 79]; [116; 84]; [97; 65]; [108; 76]; [32];
            [99; 67]; [97; 65]; [108; 76]; [111; 79]; [114; 82]; [237; 205];
            [97; 65]; [115; 83; 383]; [58]]
      with ([[116; 84]; [111; 79]; [116; 84]; [97; 65]; [108; 76]; [32];
             [99; 67]; [97; 65]; [108; 76]; [111; 79]; [114; 82]; [237; 205];
             [97; 65]; [115; 83; 383]] ++ [[58]]) in Hlab.
    apply Forall2_app_inv_r in Hlab as (l1 & l2 & _ & H2 & ->).
    apply in_or_app. right.
    inversion H2 as [|x vs l2' vss' Hx Hnil]; subst. destruct Hx as [<-|[]]. now left.
  - exists d. split; [|exact Hd]. apply in_or_app. right. apply in_or_app. right. now left.
Qed.

Lemma In_drop {A} (x : A) i (s : list A) : In x (drop i s) -> In x s.
Proof.
  revert i. induction s as [|y s IH]; intros [|i]; cbn; auto.
  intros H. right. exact (IH i H).
Qed.

(** X8.  The colon is part of the label: a text without a colon, however
    it reads otherwise, is answered with 0. *)
Theorem extract_total_calories_needs_colon (text : text) :
  ~ In 58 text -> extract_total_calories text = Ok (VInt 0).
Proof.
  intros Hc. apply extract_total_calories_absent. intros i Ht.
  apply total_at_colon_digit in Ht as [Hin _]. exact (Hc (In_drop _ _ _ Hin)).
Qed.

Lemma extract_total_calories_needs_colon_witness :
  extract_total_calories (str "Total Calorías 450") = Ok (VInt 0).
Proof.
  apply extract_total_calories_needs_colon. vm_compute.
  intros H. repeat destruct H as [H|H]; try discriminate H. exact H.
Defined.

(** X9.  A text with no decimal digit in it is answered with 0: the
    label alone, or the label followed by a number in words, announces
    nothing. *)
Theorem extract_total_calories_needs_digit (text : text) :
  Forall (fun c => is_decimal c = false) text ->
  extract_total_calories text = Ok (VInt 0).
Proof.
  intros Hd. apply extract_total_calories_absent. intros i Ht.
  apply total_at_colon_digit in Ht as (_ & d & Hin & Hdec).
  rewrite Forall_forall in Hd. apply In_drop, list_elem_of_In in Hin.
  rewrite (Hd d Hin) in Hdec. discriminate.
Qed.

Lemma extract_total_calories_needs_digit_witness :
  extract_total_calories (str "Total Calorías: [número]") = Ok (VInt 0).
Proof.
  apply extract_total_calories_needs_digit.
  assert (H : Forall (fun c => negb (is_decimal c) = true) (str "Total Calorías: [número]"))
    by (apply all_check; vm_compute; reflexivity).
  revert H. apply List.Forall_impl. intros c H. now apply negb_true_iff in H.
Defined.

(** ** The extractor: reading back a number *)

Lemma to_decimal_ascii d : d < 10 -> to_decimal (48 + d) = Some d.
Proof.
  intros Hd.
  assert (H : forallb (fun d => match to_decimal (48 + d) with
                                | Some d' => d' =? d | None => false end)
                      [0; 1; 2; 3; 4; 5; 6; 7; 8; 9] = true) by (vm_compute; reflexivity).
  rewrite forallb_forall in H. specialize (H d).
  destruct (to_decimal (48 + d)) as [d'|].
  - f_equal. apply N.eqb_eq, H.
    assert (Hc : d = 0 \/ d = 1 \/ d = 2 \/ d = 3 \/ d = 4 \/ d = 5 \/ d = 6 \/ d = 7 \/
                 d = 8 \/ d = 9) by lia.
    cbn [In]. intuition auto.
  - exfalso. assert (Hf : false = true); [|discriminate Hf]. apply H.
    assert (Hc : d = 0 \/ d = 1 \/ d = 2 \/ d = 3 \/ d = 4 \/ d = 5 \/ d = 6 \/ d = 7 \/
                 d = 8 \/ d = 9) by lia.
    cbn [In]. intuition auto.
Qed.

Lemma numeral_from_spec fuel n :
  n < 2 ^ N.of_nat (S fuel) ->
  all_digits (numeral_from (S fuel) n) /\ numeral_from (S fuel) n <> [] /\
  fold_left (fun acc c => 10 * acc + default 0 (to_decimal c)) (numeral_from (S fuel) n) 0 = n.
Proof.
  revert n. induction fuel as [|fuel IH]; intros n Hn.
  - assert (Hlt : n < 10) by (change (2 ^ N.of_nat 1) with 2 in Hn; lia).
    pose proof (to_decimal_ascii n Hlt) as Hd.
    cbn [numeral_from]. apply N.ltb_lt in Hlt. rewrite Hlt.
    split; [|split; [discriminate|]].
    + constructor; [|constructor]. unfold is_decimal. now rewrite Hd.
    + cbn [fold_left]. rewrite Hd. cbn [from_option id]. lia.
  - change (numeral_from (S (S fuel)) n)
      with (if n <? 10 then [48 + n]
            else numeral_from (S fuel) (n / 10) ++ [48 + n mod 10]).
    destruct (n <? 10) eqn:Hlt.
    + apply N.ltb_lt in Hlt. pose proof (to_decimal_ascii n Hlt) as Hd.
      split; [|split; [discriminate|]].
      * constructor; [|constructor]. unfold is_decimal. now rewrite Hd.
      * cbn [fold_left]. rewrite Hd. cbn [from_option id]. lia.
    + apply N.ltb_ge in Hlt.
      assert (Hq : n / 10 < 2 ^ N.of_nat (S fuel)).
      { rewrite (Nat2N.inj_succ (S fuel)), N.pow_succ_r' in Hn.
        apply N.Div0.div_lt_upper_bound. lia. }
      destruct (IH _ Hq) as (Hall & _ & Hv).
      assert (Hm : n mod 10 < 10) by (apply N.mod_lt; lia).
      pose proof (to_decimal_ascii _ Hm) as Hd.
      split; [|split].
      * apply Forall_app. split; [exact Hall|].
        constructor; [|constructor]. unfold is_decimal. now rewrite Hd.
      * intros H. apply app_eq_nil in H as [_ H]. discriminate.
      * rewrite fold_left_app, Hv. cbn [fold_left]. rewrite Hd. cbn [from_option id].
        pose proof (N.div_mod n 10 ltac:(lia)). lia.
Qed.

Lemma numeral_spec n :
  all_digits (numeral n) /\ numeral n <> [] /\ base10 (numeral n) = Z.of_N n.
Proof.
  assert (Hn : n < 2 ^ N.of_nat (S (N.to_nat (N.log2 n)))).
  { rewrite Nat2N.inj_succ, N2Nat.id. destruct n as [|p]; [reflexivity|].
    apply N.log2_spec. lia. }
  destruct (numeral_from_spec _ _ Hn) as (Ha & Hne & Hv).
  unfold numeral, base10. rewrite Hv. auto.
Qed.

Lemma numeral_from_length fuel n k :
  n < 10 ^ N.of_nat (S k) -> (length (numeral_from fuel n) <= S k)%nat.
Proof.
  revert n k. induction fuel as [|fuel IH]; intros n k Hn; cbn [numeral_from].
  - cbn [length]. lia.
  - destruct (n <? 10) eqn:Hlt; [cbn [length]; lia|].
    apply N.ltb_ge in Hlt. rewrite length_app. cbn [length].
    destruct k as [|k].
    + change (10 ^ N.of_nat 1) with 10 in Hn. lia.
    + assert (Hq : n / 10 < 10 ^ N.of_nat (S k)).
      { rewrite (Nat2N.inj_succ (S k)), N.pow_succ_r' in Hn.
        apply N.Div0.div_lt_upper_bound. lia. }
      specialize (IH _ _ Hq). lia.
Qed.

(** X10.  Reading undoes writing: when the first total a text announces
    is the decimal numeral of a number below ten to the 4300, the extractor
    returns that number, whatever precedes the label and whatever follows
    the digits. *)
Theorem extract_total_calories_reads_numeral (pre lab ws rest : text) (n : N) :
  n < 10 ^ 4300 ->
  label_matches lab -> all_spaces ws -> no_digit_ahead rest ->
  (forall i, (i < length pre)%nat ->
     ~ total_at (drop i (pre ++ lab ++ ws ++ numeral n ++ rest))) ->
  extract_total_calories (pre ++ lab ++ ws ++ numeral n ++ rest) = Ok (VInt (Z.of_N n)).
Proof.
  intros Hn Hlab Hws Hrest Hpre. destruct (numeral_spec n) as (Ha & Hne & Hv).
  rewrite <- Hv. apply extract_total_calories_found; try assumption.
  unfold numeral, int_max_str_digits. apply (numeral_from_length _ n 4299).
  exact Hn.
Qed.

Lemma extract_total_calories_reads_numeral_witness :
  extract_total_calories
    (str "| Arroz | 206 |" ++ [10] ++ str "Total Calorías:" ++ [32] ++ numeral 1234
     ++ str " kcal")
  = Ok (VInt 1234).
Proof.
  apply (extract_total_calories_reads_numeral
           (str "| Arroz | 206 |" ++ [10]) (str "Total Calorías:") [32] (str " kcal") 1234).
  - apply N.ltb_lt. vm_compute. reflexivity.
  - apply label_matches_check. vm_compute. reflexivity.
  - apply all_check. vm_compute. reflexivity.
  - vm_compute. reflexivity.
  - apply no_total_before_check. vm_compute. reflexivity.
Defined.
(** ** The profile handlers *)

Lemma dict3_lookup_ne k1 v1 k2 v2 k3 v3 key :
  key <> k1 -> key <> k2 -> key <> k3 -> dict3 k1 v1 k2 v2 k3 v3 !! key = None.
Proof.
  intros H1 H2 H3. unfold dict3.
  rewrite !lookup_insert_ne by congruence. apply lookup_empty.
Qed.

Lemma text_neq (a b : text) : text_eqb a b = false -> a <> b.
Proof. apply text_eqb_neq. Qed.

(** The answer of the calculator has the three metric keys and no other. *)
Lemma calculate_profile_data_keys user_data r key :
  calculate_profile_data user_data = Ok r ->
  (In key metric_keys -> exists v, r !! key = Some v) /\
  (~ In key metric_keys -> r !! key = None).
Proof.
  intros H.
  assert (Hr : exists i t c,
             r = dict3 (str "imc") i (str "tdee") t (str "imc_recommendation") c).
  { unfold calculate_profile_data in H.
    destruct (forallb (present user_data) required_keys) eqn:Hp; cbn [negb] in H.
    - apply complete_present in Hp.
      assert (H' : calculate_profile_data user_data = Ok r).
      { unfold calculate_profile_data. apply complete_present in Hp. now rewrite Hp. }
      destruct (calculate_profile_data_complete _ _ Hp H')
        as (i & b & m & t & c & _ & _ & _ & _ & _ & ->). eauto.
    - injection H as <-. unfold incomplete. eauto. }
  destruct Hr as (i & t & c & ->).
  assert (H12 : str "imc" <> str "tdee") by (apply text_neq; vm_compute; reflexivity).
  assert (H13 : str "imc" <> str "imc_recommendation")
    by (apply text_neq; vm_compute; reflexivity).
  assert (H23 : str "tdee" <> str "imc_recommendation")
    by (apply text_neq; vm_compute; reflexivity).
  split.
  - unfold metric_keys, dict3. intros [<-|[<-|[<-|[]]]].
    + rewrite lookup_insert_eq. eauto.
    + rewrite lookup_insert_ne, lookup_insert_eq by congruence. eauto.
    + rewrite !lookup_insert_ne, lookup_insert_eq by congruence. eauto.
  - intros Hk. apply dict3_lookup_ne; intros ->; apply Hk; unfold metric_keys; in_list.
Qed.

Lemma get_profile_found row body status :
  get_profile (Some row) = Ok (body, status) -> status = 200%nat ->
  exists hash health_data,
    row !! str "password_hash" = Some hash /\
    calculate_profile_data (delete (str "password_hash") row) = Ok health_data /\
    body = health_data ∪ delete (str "password_hash") row.
Proof.
  unfold get_profile. destruct (size row =? 0)%nat.
  { unfold not_found. intros [= <- <-]. discriminate. }
  unfold dict_pop. destruct (row !! str "password_hash") as [hash|]; [|discriminate].
  cbn [mbind result_bind snd].
  destruct (calculate_profile_data _) as [health_data|] eqn:Hh; [|discriminate].
  cbn [mbind result_bind]. intros [= <- <-] _. exists hash, health_data. auto.
Qed.

Lemma get_profile_status user body status :
  get_profile user = Ok (body, status) ->
  (status = 404%nat /\ body = fst not_found) \/ status = 200%nat.
Proof.
  unfold get_profile. destruct user as [row|]; [|intros [= <- <-]; now left].
  destruct (size row =? 0)%nat; [intros [= <- <-]; now left|].
  intros H. apply bind_ok in H as (popped & _ & H). cbn zeta in H.
  apply bind_ok in H as (health_data & _ & H). injection H as <- <-. now right.
Qed.

(** X11.  The profile answer never carries the password hash, found or
    not; when the user is found it carries every other column of the row
    as it is stored, next to the three metrics. *)
Theorem get_profile_hides_password_hash (user : option dict) (body : dict) (status : nat) :
  get_profile user = Ok (body, status) ->
  body !! str "password_hash" = None /\
  (status = 200%nat ->
   exists row, user = Some row /\
     (forall key, In key metric_keys -> exists v, body !! key = Some v) /\
     (forall key, ~ In key metric_keys -> key <> str "password_hash" ->
        body !! key = row !! key)).
Proof.
  intros H.
  assert (Hhash : ~ In (str "password_hash") metric_keys).
  { unfold metric_keys. intros [Hk|[Hk|[Hk|[]]]]; revert Hk; apply text_neq;
      vm_compute; reflexivity. }
  destruct (get_profile_status _ _ _ H) as [(-> & ->) | ->].
  - split; [|discriminate]. unfold not_found. cbn [fst].
    apply lookup_singleton_ne. apply text_neq. vm_compute. reflexivity.
  - destruct user as [row|]; [|discriminate H].
    destruct (get_profile_found _ _ _ H eq_refl) as (hash & health & Hrow & Hcalc & ->).
    split.
    + apply lookup_union_None. split.
      * exact (proj2 (calculate_profile_data_keys _ _ _ Hcalc) Hhash).
      * apply lookup_delete_eq.
    + intros _. exists row. split; [reflexivity|]. split.
      * intros key Hk.
        destruct (proj1 (calculate_profile_data_keys _ _ key Hcalc) Hk) as [v Hv].
        exists v. now apply lookup_union_Some_l.
      * intros key Hk Hne.
        rewrite lookup_union_r by exact (proj2 (calculate_profile_data_keys _ _ _ Hcalc) Hk).
        apply lookup_delete_ne. congruence.
Qed.

Lemma get_profile_new_user :
  get_profile (Some new_user_row) =
  Ok (dict_update (delete (str "password_hash") new_user_row) incomplete, 200%nat).
Proof. vm_compute. reflexivity. Qed.

Lemma get_profile_hides_password_hash_witness :
  dict_update (delete (str "password_hash") new_user_row) incomplete
    !! str "password_hash" = None /\
  (200%nat = 200%nat ->
   exists row, Some new_user_row = Some row /\
     (forall key, In key metric_keys ->
        exists v, dict_update (delete (str "password_hash") new_user_row) incomplete !! key
                  = Some v) /\
     (forall key, ~ In key metric_keys -> key <> str "password_hash" ->
        dict_update (delete (str "password_hash") new_user_row) incomplete !! key
        = row !! key)).
Proof.
  apply (get_profile_hides_password_hash (Some new_user_row)).
  apply get_profile_new_user.
Defined.






